(** * japanese/helpers/file_ops.py: a shallow embedding and its properties

    The module is glue code over [pathlib], [os], [subprocess] and the host
    application.  The embedding keeps the functions of the module as they are
    written and gives the library calls they make a small executable model:

    - a [Path] is a pure POSIX path as [pathlib] keeps it: an anchor flag and
      the list of its components, [.] and empty components dropped at parsing,
      [..] kept;
    - the file system is a finite map from resolved locations (the component
      list below the root) to nodes, without symbolic or hard links, without
      permissions; a lookup walks the components one by one from the root or
      from the working directory the way the kernel does;
    - a process is a [world]: environment, file system, working directory,
      clock, platform, the password database behind [expanduser], the
      module's [__name__] and [__file__], the executables
      [find_executable] can discover, the memo cell of [functools.cache]
      and the log of what was launched;
    - a call is a function from a world to a result (a value or a raised
      exception) and the world it leaves behind.

    [touch] and [rm_file] hand what they are given, a string or a path, to
    the kernel: they take a [PathLike], and a string is walked as it was
    written, empty components, [.] and a slash at its end included.
    [walk_parents] and the searches make a [pathlib.Path] of what they are
    given first: they take a [Path], a string being read by
    [Path_of_string]; [file_exists], which takes a string only, hands it to
    the kernel as it is.  [subprocess.Popen] looks for the program as the
    child process does and raises when it cannot be executed.

    Not modelled: the two-slash root of POSIX paths, permissions and file
    formats (every regular file can be opened, removed and executed), the
    time stamps of directories, failures of the import inside [open_file]
    and of the call of the host. *)

From stdpp Require Import gmap strings list.
From Stdlib Require Import ZArith Lia Ascii String.

Local Open Scope string_scope.
Local Open Scope list_scope.

(** ** Exceptions and results *)

(** The exceptions of Python the module can meet.  [OutOfFuel] is no
    exception of Python: it marks a run of the model that hit the bound of a
    recursion, and is shown below never to occur. *)

Inductive exn : Type :=
| FileNotFoundError
| FileExistsError
| NotADirectoryError
| IsADirectoryError
| PermissionError
| IndexError
| RuntimeError (msg : string)
| OutOfFuel.

#[global] Instance exn_eq_dec : EqDecision exn.
Proof. solve_decision. Defined.

Inductive result (A : Type) : Type :=
| Ok (a : A)
| Raise (e : exn).

Arguments Ok {A} a.
Arguments Raise {A} e.

(** ** Strings *)

(** [str.split(sep)] for a separator of one character. *)
Fixpoint split (sep : ascii) (s : string) : list string :=
  match s with
  | EmptyString => [EmptyString]
  | String c rest =>
      if Ascii.eqb c sep then EmptyString :: split sep rest
      else match split sep rest with
           | [] => [String c EmptyString]
           | w :: ws => String c w :: ws
           end
  end.

(** [sep in s] *)
Fixpoint has_char (sep : ascii) (s : string) : bool :=
  match s with
  | EmptyString => false
  | String c rest => Ascii.eqb c sep || has_char sep rest
  end.

(** Truth value of a string: every string but the empty one. *)
Definition truthy (s : string) : bool :=
  match s with EmptyString => false | String _ _ => true end.

(** Truth value of an optional string ([None] is false). *)
Definition truthy_opt (o : option string) : bool :=
  match o with Some s => truthy s | None => false end.

(** [a or b] on optional strings, [b] being computed only when needed. *)
Definition or_else (a : option string) (b : option string) : option string :=
  if truthy_opt a then a else b.

Definition starts_with_slash (s : string) : bool :=
  match s with String "/"%char _ => true | _ => false end.

Definition starts_with_tilde (s : string) : bool :=
  match s with String "~"%char _ => true | _ => false end.

(** ** Pure paths *)

Record Path : Type := mkPath { anchored : bool; parts : list string }.

#[global] Instance Path_eq_dec : EqDecision Path.
Proof. solve_decision. Defined.

(** A component that names something: neither empty nor [.]. *)
Definition is_name (c : string) : bool :=
  negb (String.eqb c "") && negb (String.eqb c ".").

(** [pathlib.Path(s)]. *)
Definition Path_of_string (s : string) : Path :=
  mkPath (starts_with_slash s) (List.filter is_name (split "/" s)).

(** [str(p)]. *)
Definition Path_str (p : Path) : string :=
  if anchored p then String.append "/" (String.concat "/" (parts p))
  else match parts p with
       | [] => "."
       | _ => String.concat "/" (parts p)
       end.

(** [p.parent]: the root and the empty relative path are their own parent. *)
Definition parent (p : Path) : Path :=
  match parts p with
  | [] => p
  | _ => mkPath (anchored p) (removelast (parts p))
  end.

(** [p.joinpath(s)], also written [p / s]. *)
Definition joinpath (p : Path) (s : string) : Path :=
  let q := Path_of_string s in
  if anchored q then q else mkPath (anchored p) (parts p ++ parts q).

Declare Scope path_scope.
Delimit Scope path_scope with path.
Notation "p // s" := (joinpath p s) (at level 40, left associativity) : path_scope.
Local Open Scope path_scope.

Definition root : Path := mkPath true [].

(** What the module takes for a path, [Union[str, pathlib.Path]]: a string
    as it was written, or a path. *)
Inductive PathLike : Type :=
| Str (s : string)
| AsPath (p : Path).

Coercion AsPath : Path >-> PathLike.

(** [pathlib.Path(x)]. *)
Definition to_Path (x : PathLike) : Path :=
  match x with
  | Str s => Path_of_string s
  | AsPath p => p
  end.

(** The string ends in a slash. *)
Definition ends_with_slash (s : string) : bool :=
  match last (split "/" s) with
  | Some c => String.eqb c ""
  | None => false
  end.

(** A list of components without the empty ones at its end. *)
Fixpoint strip_slashes (comps : list string) : list string :=
  match comps with
  | [] => []
  | c :: cs =>
      match strip_slashes cs with
      | [] => if String.eqb c "" then [] else [c]
      | r => c :: r
      end
  end.

(** ** File system *)

Inductive node : Type :=
| Dir
| File (content : list Byte.byte) (mtime atime : Z).

Definition st_size (nd : node) : nat :=
  match nd with Dir => 0 | File c _ _ => List.length c end.

(** What a launch or a host call looked like. *)
Inductive effect : Type :=
| Popen (argv : list string) (shell start_new_session : bool)
| OpenUrl (local_file : string) (bundled_libs_active : bool).

Record world : Type := World {
  environ : gmap string string;
  fs : gmap (list string) node;
  cwd : list string;
  clock : Z;
  sys_platform : string;
  home_of : gmap string Path;
  module_name : string;
  module_file : string;
  executables : gmap string string;
  bundled_libs : bool;
  user_files_dir_cache : option Path;
  log : list effect
}.

Definition set_fs (f : gmap (list string) node) (w : world) : world :=
  World (environ w) f (cwd w) (clock w) (sys_platform w) (home_of w)
        (module_name w) (module_file w) (executables w) (bundled_libs w)
        (user_files_dir_cache w) (log w).

Definition set_cache (c : option Path) (w : world) : world :=
  World (environ w) (fs w) (cwd w) (clock w) (sys_platform w) (home_of w)
        (module_name w) (module_file w) (executables w) (bundled_libs w)
        c (log w).

Definition set_bundled_libs (b : bool) (w : world) : world :=
  World (environ w) (fs w) (cwd w) (clock w) (sys_platform w) (home_of w)
        (module_name w) (module_file w) (executables w) b
        (user_files_dir_cache w) (log w).

Definition add_log (e : effect) (w : world) : world :=
  World (environ w) (fs w) (cwd w) (clock w) (sys_platform w) (home_of w)
        (module_name w) (module_file w) (executables w) (bundled_libs w)
        (user_files_dir_cache w) (log w ++ [e]).

(** *** Name resolution *)

(** One step of the kernel's walk: an empty component and [.] stay, [..]
    goes up (the root is its own parent), a name goes down. *)
Definition step (cur : list string) (c : string) : list string :=
  if is_name c then
    if String.eqb c ".." then removelast cur else cur ++ [c]
  else cur.

(** Every component is looked up in a directory. *)
Fixpoint namei (f : gmap (list string) node) (cur : list string)
    (comps : list string) : result (list string) :=
  match comps with
  | [] => Ok cur
  | c :: cs =>
      match f !! cur with
      | Some Dir => namei f (step cur c) cs
      | Some (File _ _ _) => Raise NotADirectoryError
      | None => Raise FileNotFoundError
      end
  end.

Definition start_of (w : world) (anch : bool) : list string :=
  if anch then [] else cwd w.

(** The location a list of components names, when the walk arrives and
    finds a node there. *)
Definition resolve_in (f : gmap (list string) node) (start comps : list string)
    : result (list string) :=
  match namei f start comps with
  | Ok k => match f !! k with
            | Some _ => Ok k
            | None => Raise FileNotFoundError
            end
  | Raise e => Raise e
  end.

Definition stat_in (f : gmap (list string) node) (start comps : list string)
    : result node :=
  match namei f start comps with
  | Ok k => match f !! k with
            | Some nd => Ok nd
            | None => Raise FileNotFoundError
            end
  | Raise e => Raise e
  end.

(** [p.stat()]. *)
Definition resolve (w : world) (p : Path) : result (list string) :=
  resolve_in (fs w) (start_of w (anchored p)) (parts p).

Definition stat (w : world) (p : Path) : result node :=
  stat_in (fs w) (start_of w (anchored p)) (parts p).

(** [os.stat(s)] on a raw string: the empty string names nothing. *)
Definition os_stat (w : world) (s : string) : result node :=
  if truthy s
  then stat_in (fs w) (start_of w (starts_with_slash s)) (split "/" s)
  else Raise FileNotFoundError.

(** [p.is_dir()], [p.is_file()], [os.path.isfile(s)]: errors count as no. *)
Definition is_dir (w : world) (p : Path) : bool :=
  match stat w p with Ok Dir => true | _ => false end.

Definition is_file (w : world) (p : Path) : bool :=
  match stat w p with Ok (File _ _ _) => true | _ => false end.

Definition os_path_isfile (w : world) (s : string) : bool :=
  match os_stat w s with Ok (File _ _ _) => true | _ => false end.

(** [p.samefile(q)]: both are looked up, the locations compared. *)
Definition samefile (w : world) (p q : Path) : result bool :=
  match resolve w p with
  | Ok k1 => match resolve w q with
             | Ok k2 => Ok (bool_decide (k1 = k2))
             | Raise e => Raise e
             end
  | Raise e => Raise e
  end.

(** ** Calls *)

Definition M (A : Type) : Type := world -> result A * world.

Definition ret {A} (a : A) : M A := fun w => (Ok a, w).

Definition raise {A} (e : exn) : M A := fun w => (Raise e, w).

Definition bind {A B} (m : M A) (k : A -> M B) : M B :=
  fun w => match m w with
           | (Ok a, w') => k a w'
           | (Raise e, w') => (Raise e, w')
           end.

(** A computation that reads the world and may raise. *)
Definition reading {A} (f : world -> result A) : M A := fun w => (f w, w).

Notation "'do' x <- m ; k" := (bind m (fun x => k))
  (at level 10, x name, m at level 100, k at level 200).

(** [OSError] and its subclasses, as [except OSError] sees them. *)
Definition is_OSError (e : exn) : bool :=
  match e with
  | FileNotFoundError | FileExistsError | NotADirectoryError
  | IsADirectoryError | PermissionError => true
  | IndexError | RuntimeError _ | OutOfFuel => false
  end.

(** A component that names an entry of a directory. *)
Definition plain (c : string) : bool := is_name c && negb (String.eqb c "..").

(** *** [os.mkdir], [Path.mkdir(parents=True, exist_ok=True)] *)

Definition os_mkdir (p : Path) : M unit := fun w =>
  match namei (fs w) (start_of w (anchored p)) (parts p) with
  | Raise e => (Raise e, w)
  | Ok k =>
      match fs w !! k with
      | Some _ => (Raise FileExistsError, w)
      | None =>
          match last (parts p) with
          | Some c =>
              if plain c then (Ok tt, set_fs (<[k := Dir]> (fs w)) w)
              else (Raise FileNotFoundError, w)
          | None => (Raise FileNotFoundError, w)
          end
      end
  end.

(** [self.mkdir(parents=False, exist_ok=True)]. *)
Definition mkdir_here (p : Path) : M unit := fun w =>
  match os_mkdir p w with
  | (Ok u, w') => (Ok u, w')
  | (Raise FileNotFoundError, w') => (Raise FileNotFoundError, w')
  | (Raise e, w') =>
      if is_OSError e && is_dir w' p then (Ok tt, w') else (Raise e, w')
  end.

(** [self.mkdir(parents=True, exist_ok=True)]; [n] bounds the calls on the
    parents. *)
Fixpoint mkdir_parents_aux (n : nat) (p : Path) : M unit := fun w =>
  match os_mkdir p w with
  | (Ok u, w') => (Ok u, w')
  | (Raise FileNotFoundError, w') =>
      if decide (parent p = p) then (Raise FileNotFoundError, w')
      else match n with
           | O => (Raise OutOfFuel, w')
           | S n' =>
               (do _ <- mkdir_parents_aux n' (parent p); mkdir_here p) w'
           end
  | (Raise e, w') =>
      if is_OSError e && is_dir w' p then (Ok tt, w') else (Raise e, w')
  end.

Definition mkdir_parents (p : Path) : M unit :=
  mkdir_parents_aux (List.length (parts p)) p.

(** *** [open(x, "a")], [os.utime(x, None)], [os.unlink(x)] *)

(** The three calls hand [os.fspath(x)] to the kernel, which walks it
    component by component.  The walks are given first for a start and a
    list of components; a path hands over its parts, a string is split at
    its slashes as it is, empty components and [.] included. *)

(** [openat(O_WRONLY | O_CREAT | O_APPEND)] of components that do not end
    in a slash. *)
Definition open_at (anch : bool) (comps : list string) : M unit := fun w =>
  match namei (fs w) (start_of w anch) comps with
  | Raise e => (Raise e, w)
  | Ok k =>
      match fs w !! k with
      | Some Dir => (Raise IsADirectoryError, w)
      | Some (File _ _ _) => (Ok tt, w)
      | None =>
          match last comps with
          | Some c =>
              if plain c
              then (Ok tt, set_fs (<[k := File [] (clock w) (clock w)]> (fs w)) w)
              else (Raise FileNotFoundError, w)
          | None => (Raise FileNotFoundError, w)
          end
      end
  end.

(** [utimensat] with no times given: both stamps are set to the clock. *)
Definition utime_at (anch : bool) (comps : list string) : M unit := fun w =>
  match resolve_in (fs w) (start_of w anch) comps with
  | Raise e => (Raise e, w)
  | Ok k =>
      match fs w !! k with
      | Some (File c _ _) =>
          (Ok tt, set_fs (<[k := File c (clock w) (clock w)]> (fs w)) w)
      | _ => (Ok tt, w)
      end
  end.

(** [unlinkat]: a file that is named with a slash behind it is refused as
    no directory by the walk itself. *)
Definition unlink_at (anch : bool) (comps : list string) : M unit := fun w =>
  match namei (fs w) (start_of w anch) comps with
  | Raise e => (Raise e, w)
  | Ok k =>
      match fs w !! k with
      | Some Dir => (Raise IsADirectoryError, w)
      | Some (File _ _ _) => (Ok tt, set_fs (delete k (fs w)) w)
      | None => (Raise FileNotFoundError, w)
      end
  end.

(** [open(x, "a")]: the empty string names nothing; a string that ends in
    a slash asks for a directory, which cannot be created or opened for
    writing: once the way to the last name is walked the kernel answers
    [EISDIR], whatever the name holds. *)
Definition open_append (x : PathLike) : M unit := fun w =>
  match x with
  | AsPath p => open_at (anchored p) (parts p) w
  | Str s =>
      if truthy s then
        if ends_with_slash s then
          match namei (fs w) (start_of w (starts_with_slash s))
                  (strip_slashes (split "/" s)) with
          | Ok _ => (Raise IsADirectoryError, w)
          | Raise e => (Raise e, w)
          end
        else open_at (starts_with_slash s) (split "/" s) w
      else (Raise FileNotFoundError, w)
  end.

(** [os.utime(x, None)] *)
Definition os_utime (x : PathLike) : M unit := fun w =>
  match x with
  | AsPath p => utime_at (anchored p) (parts p) w
  | Str s =>
      if truthy s then utime_at (starts_with_slash s) (split "/" s) w
      else (Raise FileNotFoundError, w)
  end.

(** [os.unlink(x)] *)
Definition os_unlink (x : PathLike) : M unit := fun w =>
  match x with
  | AsPath p => unlink_at (anchored p) (parts p) w
  | Str s =>
      if truthy s then unlink_at (starts_with_slash s) (split "/" s) w
      else (Raise FileNotFoundError, w)
  end.

(** [os.stat(x)] *)
Definition os_stat_of (w : world) (x : PathLike) : result node :=
  match x with
  | AsPath p => stat w p
  | Str s => os_stat w s
  end.

(** [os.path.exists(x)]: errors count as no. *)
Definition os_path_exists (w : world) (x : PathLike) : bool :=
  match os_stat_of w x with Ok _ => true | Raise _ => false end.

(** *** [Path.expanduser], [Path.home] *)

(** The home directory [HOME] names: trailing slashes count for nothing,
    nothing left is the root, and a value that begins with [~] is taken for
    a home that was not found. *)
Definition home_from_env (h : string) : result Path :=
  if starts_with_tilde h
  then Raise (RuntimeError "Could not determine home directory.")
  else if truthy h then Ok (Path_of_string h) else Ok root.

(** [os.path.expanduser(c)] for a component [c] that begins with [~]: for
    [~] itself the variable [HOME] when it is set; else, and for [~name],
    the entry of the password database, which [home_of] stands for. *)
Definition homedir (c : string) (w : world) : result Path :=
  match (if String.eqb c "~" then environ w !! "HOME" else None) with
  | Some h => home_from_env h
  | None =>
      match home_of w !! c with
      | Some h => Ok h
      | None => Raise (RuntimeError "Could not determine home directory.")
      end
  end.

Definition expanduser (p : Path) (w : world) : result Path :=
  if anchored p then Ok p
  else match parts p with
       | c :: rest =>
           if starts_with_tilde c then
             match homedir c w with
             | Ok h => Ok (mkPath (anchored h) (parts h ++ rest))
             | Raise e => Raise e
             end
           else Ok p
       | [] => Ok p
       end.

Definition Path_home (w : world) : result Path :=
  expanduser (Path_of_string "~") w.

(** ** The module *)

(** [THIS_ADDON_MODULE = __name__.split(".")[0]] *)
Definition THIS_ADDON_MODULE (w : world) : string :=
  hd "" (split "." (module_name w)).

(** How a generator ended: it was exhausted, or it raised. *)
Inductive ending : Type :=
| StopIteration
| Raised (e : exn).

(** The loop of [walk_parents]; [n] bounds its rounds. *)
Fixpoint walk_loop (n : nat) (w : world) (current_dir : Path)
    : list Path * ending :=
  let parent_dir := parent current_dir in
  match samefile w current_dir parent_dir with
  | Raise e => ([], Raised e)
  | Ok true => ([], StopIteration)
  | Ok false =>
      match n with
      | O => ([], Raised OutOfFuel)
      | S n' =>
          let '(l, e) := walk_loop n' w parent_dir in (parent_dir :: l, e)
      end
  end.

(** [walk_parents(dir_or_file_path)]: what the generator yields, in order,
    and how it ends.  It reads the world and leaves it as it is. *)
Definition walk_parents (w : world) (dir_or_file_path : Path)
    : list Path * ending :=
  let current_dir := dir_or_file_path in
  let '(l, e) := walk_loop (List.length (parts current_dir)) w current_dir in
  ((if is_dir w current_dir then [current_dir] else []) ++ l, e).

(** [touch(path)] *)
Definition touch (path : PathLike) : M unit :=
  do _ <- open_append path; os_utime path.

(** [rm_file(path)] *)
Definition rm_file (path : PathLike) : M unit := fun w =>
  match os_unlink path w with
  | (Raise FileNotFoundError, w') => (Ok tt, w')
  | r => r
  end.

(** A [for] loop over a generator that returns at the first element that
    passes the test: the elements yielded are tried in order, and the way
    the generator ended matters only when none passed. *)
Fixpoint first_hit (test : Path -> bool) (candidate : Path -> Path)
    (l : list Path) : option Path :=
  match l with
  | [] => None
  | parent_dir :: rest =>
      if test (candidate parent_dir) then Some (candidate parent_dir)
      else first_hit test candidate rest
  end.

(** [find_file_in_parents(file_name)] *)
Definition find_file_in_parents (file_name : string) : M Path := fun w =>
  let '(l, e) := walk_parents w (Path_of_string (module_file w)) in
  match first_hit (is_file w) (fun parent_dir => parent_dir // file_name) l with
  | Some path => (Ok path, w)
  | None =>
      match e with
      | StopIteration =>
          (Raise (RuntimeError
             (String.append "couldn't find file '"
                            (String.append file_name "'"))), w)
      | Raised x => (Raise x, w)
      end
  end.


(** [_platform_data_home(app_name)] *)
Definition _platform_data_home (app_name : string) (w : world) : result Path :=
  if String.prefix "linux" (sys_platform w) then
    match
      match environ w !! "XDG_STATE_HOME" with
      | Some (String _ _ as s) => Ok s
      | _ =>
          match environ w !! "XDG_DATA_HOME" with
          | Some (String _ _ as s) => Ok s
          | _ =>
              match Path_home w with
              | Ok h => Ok (Path_str (h // ".local" // "share"))
              | Raise e => Raise e
              end
          end
      end
    with
    | Ok base => Ok (Path_of_string base // "anki-addons" // app_name)
    | Raise e => Raise e
    end
  else if String.eqb (sys_platform w) "darwin" then
    match Path_home w with
    | Ok h =>
        Ok (h // "Library" // "Application Support" // "Anki" // "Addons"
              // app_name)
    | Raise e => Raise e
    end
  else
    match Path_home w with
    | Ok h =>
        let base :=
          match environ w !! "APPDATA" with
          | Some s => s
          | None => Path_str (h // "AppData" // "Roaming")
          end in
        Ok (Path_of_string base // "Anki" // "Addons" // app_name)
    | Raise e => Raise e
    end.

(** The body of [user_files_dir()], below the memo. *)
Definition user_files_dir_body : M Path := fun w =>
  let override := environ w !! "AJT_USER_FILES_DIR" in
  match override with
  | Some (String _ _ as o) =>
      (do p <- reading (expanduser (Path_of_string o));
       do _ <- mkdir_parents p;
       ret p) w
  | _ =>
      (do p <- reading (_platform_data_home (THIS_ADDON_MODULE w));
       do _ <- mkdir_parents p;
       fun w1 =>
         if bool_decide (environ w1 !! "AJT_USE_REPO_USER_FILES" = Some "1")
         then
           let '(l, e) := walk_parents w1 (Path_of_string (module_file w1)) in
           match first_hit (is_dir w1)
                   (fun parent_dir => parent_dir // "user_files") l with
           | Some legacy => (Ok legacy, w1)
           | None =>
               match e with
               | StopIteration => (Ok p, w1)
               | Raised x => (Raise x, w1)
               end
           end
         else (Ok p, w1)) w
  end.

(** [@functools.cache]: a value returned is kept and returned from then on;
    nothing is kept when the body raises. *)
Definition user_files_dir : M Path := fun w =>
  match user_files_dir_cache w with
  | Some p => (Ok p, w)
  | None =>
      match user_files_dir_body w with
      | (Ok p, w') => (Ok p, set_cache (Some p) w')
      | (Raise e, w') => (Raise e, w')
      end
  end.

(** Modelled from the spec: [find_executable] of [ajt_common.utils] is not
    among the sources; it discovers an executable by name on the system
    path, or finds none. *)
Definition find_executable (name : string) (w : world) : option string :=
  executables w !! name.

(** [with no_bundled_libs(): body]: the host's scope which suspends the
    search path of the bundled libraries and puts it back afterwards. *)
Definition no_bundled_libs {A} (body : M A) : M A := fun w =>
  let saved := bundled_libs w in
  let '(r, w') := body (set_bundled_libs false w) in
  (r, set_bundled_libs saved w').

(** *** [subprocess.Popen]

    The child process is made and executes the program; an error of the
    execution is raised in the parent, and then nothing was launched. *)

(** [os.get_exec_path()]: the directories of [PATH], those of [os.defpath]
    when it is not set. *)
Definition os_get_exec_path (w : world) : list string :=
  split ":" (default "/bin:/usr/bin" (environ w !! "PATH")).

(** [os.path.join(dir, name)] for a name that does not begin with a
    slash. *)
Definition os_path_join (dir name : string) : string :=
  if truthy dir then
    if ends_with_slash dir then String.append dir name
    else String.append dir (String.append "/" name)
  else name.

(** [execve(file)]: a regular file is run (the model has neither
    permissions nor file formats), a directory is refused with [EACCES],
    and the errors of the lookup are those of [os.stat]. *)
Definition execve (w : world) (file : string) : result unit :=
  match os_stat w file with
  | Ok (File _ _ _) => Ok tt
  | Ok Dir => Raise PermissionError
  | Raise e => Raise e
  end.

(** [ENOENT] and [ENOTDIR], which a search goes on after. *)
Definition is_not_found (e : exn) : bool :=
  match e with
  | FileNotFoundError | NotADirectoryError => true
  | _ => false
  end.

(** The child tries the candidates in turn.  When none runs it reports
    one error: the first that is neither [ENOENT] nor [ENOTDIR], else the
    last. *)
Fixpoint exec_any (w : world) (candidates : list string)
    (saved : option exn) (last_err : exn) : result unit :=
  match candidates with
  | [] => Raise (default last_err saved)
  | c :: rest =>
      match execve w c with
      | Ok u => Ok u
      | Raise e =>
          exec_any w rest
            (match saved with
             | Some _ => saved
             | None => if is_not_found e then None else Some e
             end) e
      end
  end.

(** [_execute_child]: a program with a slash in it is executed as it is
    named, another is looked for in the directories of the search path. *)
Definition execute_child (w : world) (executable : string) : result unit :=
  exec_any w
    (if has_char "/" executable then [executable]
     else map (fun dir => os_path_join dir executable) (os_get_exec_path w))
    None FileNotFoundError.

(** [subprocess.Popen(args, shell=..., start_new_session=...)]: with a
    shell the program is [/bin/sh]; the program is the first of the
    arguments. *)
Definition subprocess_Popen (args : list string) (shell start_new_session : bool)
    : M unit := fun w =>
  match (if shell then "/bin/sh" :: "-c" :: args else args) with
  | [] => (Raise IndexError, w)
  | executable :: _ =>
      match execute_child w executable with
      | Ok _ => (Ok tt, add_log (Popen args shell start_new_session) w)
      | Raise e => (Raise e, w)
      end
  end.

(** [QDesktopServices.openUrl(QUrl.fromLocalFile(s))] *)
Definition openUrl_fromLocalFile (s : string) : M unit := fun w =>
  (Ok tt, add_log (OpenUrl s (bundled_libs w)) w).

(** [open_file(path)] *)
Definition open_file (path : string) : M unit := fun w =>
  let terminal := environ w !! "TERMINAL" in
  let lf :=
    if truthy_opt terminal
    then or_else (environ w !! "FILE") (find_executable "lf" w)
    else None in
  match terminal, lf with
  | Some (String _ _ as terminal), Some (String _ _ as lf) =>
      subprocess_Popen [terminal; "-e"; lf; path] false true w
  | _, _ =>
      match find_executable "xdg-open" w with
      | Some (String _ _ as opener) =>
          subprocess_Popen [opener; String.append "file://" path] false true w
      | _ => no_bundled_libs (openUrl_fromLocalFile path) w
      end
  end.

(** [file_exists(file_path)] *)
Definition file_exists (file_path : string) (w : world) : result bool :=
  if truthy file_path then
    if os_path_isfile w file_path then
      match os_stat w file_path with
      | Ok nd => Ok (0 <? st_size nd)%nat
      | Raise e => Raise e
      end
    else Ok false
  else Ok false.

(** The chain of parents of a path, nearest first, down to the path without
    components. *)
Fixpoint ups (n : nat) (p : Path) : list Path :=
  match n with
  | O => []
  | S n' => parent p :: ups n' (parent p)
  end.

Definition ancestors (p : Path) : list Path := ups (List.length (parts p)) p.

(** Every element is the parent of the one before it and has fewer
    components. *)
Fixpoint chain (p : Path) (l : list Path) : Prop :=
  match l with
  | [] => True
  | a :: rest =>
      a = parent p /\ (List.length (parts a) < List.length (parts p))%nat /\ chain a rest
  end.


(** ** Worlds to run the module on *)

Definition dirs (l : list (list string)) : gmap (list string) node :=
  list_to_map (map (fun k => (k, Dir)) l).

(** A checkout of the add-on under [/opt/addons], a home directory and
    [/tmp]; [config.json] has one byte, [empty.txt] none. *)
Definition example_fs : gmap (list string) node :=
  <[ ["opt"; "addons"; "japanese"; "helpers"; "file_ops.py"] := File [Byte.x23] 0 0 ]>
  (<[ ["opt"; "addons"; "japanese"; "config.json"] := File [Byte.x7b] 0 0 ]>
  (<[ ["tmp"; "empty.txt"] := File [] 0 0 ]>
  (dirs [ []; ["home"]; ["home"; "u"]; ["opt"]; ["opt"; "addons"];
          ["opt"; "addons"; "japanese"];
          ["opt"; "addons"; "japanese"; "helpers"];
          ["opt"; "addons"; "user_files"]; ["tmp"] ]))).

(** The same with a terminal and an opener under [/usr/bin]. *)
Definition example_bin_fs : gmap (list string) node :=
  <[ ["usr"; "bin"; "st"] := File [Byte.x7f] 0 0 ]>
  (<[ ["usr"; "bin"; "xdg-open"] := File [Byte.x23] 0 0 ]>
  (<[ ["usr"; "bin"] := Dir ]> (<[ ["usr"] := Dir ]> example_fs))).

Definition example_world (env : gmap string string) (platform : string)
    : world :=
  World env example_fs ["home"; "u"] 7 platform
        (<["~" := mkPath true ["home"; "u"]]> ∅)
        "japanese.helpers.file_ops"
        "/opt/addons/japanese/helpers/file_ops.py"
        ∅ true None [].

Definition set_clock (t : Z) (w : world) : world :=
  World (environ w) (fs w) (cwd w) t (sys_platform w) (home_of w)
        (module_name w) (module_file w) (executables w) (bundled_libs w)
        (user_files_dir_cache w) (log w).

(** The file system is a tree: the parent of every node is a directory. *)
Definition fs_tree (f : gmap (list string) node) : Prop :=
  forall k nd, f !! k = Some nd -> f !! removelast k = Some Dir.

(** The same, as a test that runs. *)
Definition fs_tree_b (f : gmap (list string) node) : bool :=
  forallb (fun kv : list string * node =>
             match f !! removelast kv.1 with Some Dir => true | _ => false end)
          (map_to_list f).

(** [w'] is [w] with more directories. *)
Definition grows (w w' : world) : Prop :=
  w' = set_fs (fs w') w /\
  fs w ⊆ fs w' /\
  (forall k nd, fs w' !! k = Some nd -> fs w !! k = None -> nd = Dir).

(** The locations a walk along plain components passes, the start and the
    end included. *)
Definition on_path (start cs k : list string) : Prop :=
  exists i, (i <= List.length cs)%nat /\ k = start ++ take i cs.

(** No step of the way from the start to [p] is taken by a file, and the
    start is a directory: what [mkdir -p] needs to succeed. *)
Definition creatable (w : world) (p : Path) : bool :=
  match fs w !! start_of w (anchored p) with Some Dir => true | _ => false end &&
  forallb (fun i => match fs w !! (start_of w (anchored p) ++ take i (parts p)) with
                    | Some (File _ _ _) => false
                    | _ => true
                    end)
          (seq 0 (S (List.length (parts p)))).

(** A change of the world between two calls which leaves the memo alone:
    of the environment, the file system, the platform, the clock. *)
Definition keeps_memo (g : world -> world) : Prop :=
  forall w, user_files_dir_cache (g w) = user_files_dir_cache w.

(** What the calls of [user_files_dir()] return when the world changes by
    [changes] before each of them. *)
Fixpoint later_calls (changes : list (world -> world)) (w : world)
    : list (result Path) :=
  match changes with
  | [] => []
  | g :: rest =>
      let '(r, w') := user_files_dir (g w) in r :: later_calls rest w'
  end.

Definition set_environ (env : gmap string string) (w : world) : world :=
  World env (fs w) (cwd w) (clock w) (sys_platform w) (home_of w)
        (module_name w) (module_file w) (executables w) (bundled_libs w)
        (user_files_dir_cache w) (log w).

(** The components of a string as the kernel walks them, with the start of
    the walk, in a record. *)
Definition raw (s : string) : Path := mkPath (starts_with_slash s) (split "/" s).

(** The argument ends in the name of an entry: a path always does; a
    string does unless it ends in a slash or in a component [.]. *)
Definition ends_in_name (x : PathLike) : bool :=
  match x with
  | AsPath _ => true
  | Str s => match last (split "/" s) with
             | Some c => is_name c
             | None => false
             end
  end.

(** [a] is the nearest of the directories [l] below which [candidate] passes
    [test]. *)
Definition nearest_hit (test : Path -> bool) (candidate : Path -> Path)
    (l : list Path) (r : Path) : Prop :=
  exists i a, l !! i = Some a /\ r = candidate a /\ test r = true /\
    forall j b, (j < i)%nat -> l !! j = Some b -> test (candidate b) = false.

(** The file manager of the first strategy of [open_file]: [FILE] when it is
    set and not empty, else the executable [lf] when one is discovered. *)
Definition file_manager (w : world) : option string :=
  match environ w !! "FILE" with
  | Some (String _ _ as s) => Some s
  | _ => find_executable "lf" w
  end.

(** The first strategy is available: a terminal and a file manager. *)
Definition terminal_strategy (w : world) : bool :=
  truthy_opt (environ w !! "TERMINAL") && truthy_opt (file_manager w).

(** The candidates for the base directory on Linux, in their priority. *)
Definition xdg_candidates (w : world) : list (option string) :=
  [environ w !! "XDG_STATE_HOME"; environ w !! "XDG_DATA_HOME"].

(** The first of the candidates that is set, empty or not: the choice of
    the base as the specification words it. *)
Fixpoint first_set (candidates : list (option string)) : option string :=
  match candidates with
  | [] => None
  | Some v :: _ => Some v
  | None :: rest => first_set rest
  end.

(** The first of the candidates that is set and not empty: the choice the
    chain of [or] makes. *)
Fixpoint first_nonempty (candidates : list (option string)) : option string :=
  match candidates with
  | [] => None
  | Some (String _ _ as v) :: _ => Some v
  | _ :: rest => first_nonempty rest
  end.

(** ** Further notions *)

(** A component as [pathlib] keeps it when it is not [..]: a name without a
    slash. *)
Definition proper (c : string) : bool := plain c && negb (has_char "/" c).

(** * Properties *)

Section Resolution.
Context (f : gmap (list string) node).

Lemma namei_snoc cur cs c :
  namei f cur (cs ++ [c]) =
  match namei f cur cs with
  | Ok d => match f !! d with
            | Some Dir => Ok (step d c)
            | Some (File _ _ _) => Raise NotADirectoryError
            | None => Raise FileNotFoundError
            end
  | Raise e => Raise e
  end.
Proof.
  revert cur. induction cs as [|a cs IH]; intros cur; simpl.
  - destruct (f !! cur) as [[|]|]; reflexivity.
  - destruct (f !! cur) as [[|]|]; auto.
Qed.

Lemma step_plain d c : plain c = true -> step d c = d ++ [c].
Proof.
  unfold plain, step. intros H. apply andb_prop in H as [H1 H2].
  rewrite H1. apply negb_true_iff in H2. rewrite H2. reflexivity.
Qed.

Lemma namei_plain start cs k :
  Forall (fun c => plain c = true) cs ->
  namei f start cs = Ok k -> k = start ++ cs.
Proof.
  revert start. induction cs as [|a cs IH]; intros start Hp; simpl.
  - intros [= <-]. by rewrite app_nil_r.
  - inversion Hp; subst. destruct (f !! start) as [[|]|]; try discriminate.
    intros H. apply IH in H; auto. rewrite step_plain in H by done.
    by rewrite <- app_assoc in H.
Qed.
End Resolution.

Lemma parent_snoc anch cs c : parent (mkPath anch (cs ++ [c])) = mkPath anch cs.
Proof.
  unfold parent. simpl. destruct (cs ++ [c]) eqn:E.
  - destruct cs; discriminate.
  - rewrite <- E. by rewrite removelast_last.
Qed.

Lemma parent_nil anch : parent (mkPath anch []) = mkPath anch [].
Proof. reflexivity. Qed.

Lemma parent_fixed p : parent p = p <-> parts p = [].
Proof.
  destruct p as [a ps]. split.
  - destruct ps as [|c ps _] using rev_ind; [done|].
    rewrite parent_snoc. intros [= H]. symmetry in H.
    apply (f_equal List.length) in H. rewrite length_app in H. simpl in H. lia.
  - simpl. intros ->. reflexivity.
Qed.

Section Walk.
Context (w : world).

Lemma resolve_snoc anch cs c k :
  resolve w (mkPath anch (cs ++ [c])) = Ok k ->
  exists d, resolve w (mkPath anch cs) = Ok d /\ fs w !! d = Some Dir /\ k = step d c.
Proof.
  unfold resolve, resolve_in; simpl. rewrite namei_snoc.
  destruct (namei (fs w) (start_of w anch) cs) as [d|e]; [|discriminate].
  destruct (fs w !! d) as [[|]|] eqn:Hd; try discriminate.
  destruct (fs w !! step d c) eqn:Hk; [|discriminate].
  intros [= <-]. exists d. rewrite Hd. auto.
Qed.

Lemma resolve_stat p k : resolve w p = Ok k -> stat w p = Ok (default Dir (fs w !! k)) /\ is_Some (fs w !! k).
Proof.
  unfold resolve, stat, resolve_in, stat_in.
  destruct (namei _ _ _) as [d|e]; [|discriminate].
  destruct (fs w !! d) eqn:Hd; [|discriminate]. intros [= <-]. rewrite Hd. eauto.
Qed.

Lemma stat_resolve p nd : stat w p = Ok nd -> exists k, resolve w p = Ok k /\ fs w !! k = Some nd.
Proof.
  unfold resolve, stat, resolve_in, stat_in.
  destruct (namei _ _ _) as [d|e]; [|discriminate].
  destruct (fs w !! d) eqn:Hd; [|discriminate]. intros [= <-]. eauto.
Qed.

Lemma samefile_refl p k : resolve w p = Ok k -> samefile w p p = Ok true.
Proof. unfold samefile. intros ->. by rewrite bool_decide_eq_true_2. Qed.

Lemma walk_loop_existing n p k :
  (List.length (parts p) <= n)%nat ->
  resolve w p = Ok k ->
  exists l, walk_loop n w p = (l, StopIteration) /\
            chain p l /\
            Forall (fun a => is_dir w a = true) l /\
            (forall a, last (p :: l) = Some a ->
                       samefile w a (parent a) = Ok true).
Proof.
  revert p k. induction n as [|n IH]; intros [anch ps] k Hn Hr.
  - destruct ps; [|simpl in Hn; lia].
    exists []. simpl. rewrite parent_nil, (samefile_refl _ _ Hr).
    split; [done|]. split; [done|]. split; [constructor|].
    intros a [= <-]. rewrite parent_nil. apply (samefile_refl _ _ Hr).
  - destruct ps as [|c cs _] using rev_ind.
    + exists []. simpl. rewrite parent_nil, (samefile_refl _ _ Hr).
      split; [done|]. split; [done|]. split; [constructor|].
      intros a [= <-]. rewrite parent_nil. apply (samefile_refl _ _ Hr).
    + destruct (resolve_snoc _ _ _ _ Hr) as (d & Hd & Hdir & ->).
      simpl. rewrite parent_snoc. unfold samefile at 1. rewrite Hr, Hd.
      destruct (bool_decide (step d c = d)) eqn:Hsame.
      * exists [].
        split; [done|]. split; [done|]. split; [constructor|].
        intros a [= <-]. rewrite parent_snoc.
        unfold samefile. by rewrite Hr, Hd, Hsame.
      * simpl in Hn. rewrite length_app in Hn. simpl in Hn.
        destruct (IH (mkPath anch cs) d) as (l & Hl & Hc & Hf & Hlast); [simpl; lia|done|].
        rewrite Hl. exists (mkPath anch cs :: l).
        split; [done|]. split; [|split].
        -- simpl. rewrite parent_snoc. split; [done|]. split; [|done].
           rewrite length_app. simpl. lia.
        -- constructor; [|done]. unfold is_dir.
           destruct (resolve_stat _ _ Hd) as [-> _]. by rewrite Hdir.
        -- intros a. rewrite last_cons_cons. apply Hlast.
Qed.

Lemma walk_loop_plain p k :
  Forall (fun c => plain c = true) (parts p) ->
  resolve w p = Ok k ->
  walk_loop (List.length (parts p)) w p = (ancestors p, StopIteration).
Proof.
  destruct p as [anch ps]. unfold ancestors. simpl. revert k.
  induction ps as [|c cs IH] using rev_ind; intros k Hp Hr.
  - simpl. by rewrite parent_nil, (samefile_refl _ _ Hr).
  - apply Forall_app in Hp as [Hcs Hc]. inversion Hc; subst.
    destruct (resolve_snoc _ _ _ _ Hr) as (d & Hd & Hdir & ->).
    rewrite length_app. simpl. replace (List.length cs + 1)%nat with (S (List.length cs)) by lia.
    simpl. rewrite parent_snoc. unfold samefile. rewrite Hr, Hd.
    rewrite bool_decide_eq_false_2.
    + by rewrite (IH d).
    + rewrite step_plain by done. intros E. apply (f_equal List.length) in E.
      rewrite length_app in E. simpl in E. lia.
Qed.
End Walk.

Lemma chain_shorter p l :
  chain p l -> Forall (fun a => (List.length (parts a) < List.length (parts p))%nat) l.
Proof.
  revert p. induction l as [|a l IH]; intros p; simpl; [constructor|].
  intros (-> & Hlt & Hc). constructor; [done|].
  eapply Forall_impl; [apply IH, Hc|]. simpl. intros; lia.
Qed.

Lemma chain_NoDup p l : chain p l -> NoDup (p :: l).
Proof.
  revert p. induction l as [|a l IH]; intros p Hc.
  - apply NoDup_singleton.
  - constructor.
    + intros Hin. apply chain_shorter in Hc.
      rewrite Forall_forall in Hc. specialize (Hc p Hin). lia.
    + destruct Hc as (_ & _ & Hc). by apply IH.
Qed.

Lemma chain_lookup p l i a b :
  chain p l -> (p :: l) !! i = Some a -> (p :: l) !! S i = Some b ->
  b = parent a /\ (List.length (parts b) < List.length (parts a))%nat.
Proof.
  revert p i. induction l as [|x l IH]; intros p i Hc Ha Hb.
  - destruct i; discriminate.
  - destruct Hc as (Hx & Hlt & Hc). destruct i as [|i].
    + simpl in *. injection Ha as <-. injection Hb as <-. auto.
    + apply (IH x i); auto.
Qed.

Lemma ups_last n p :
  n = List.length (parts p) -> n <> O -> last (ups n p) = Some (mkPath (anchored p) []).
Proof.
  revert p. induction n as [|n IH]; intros [anch ps] Hn Hne; [done|].
  destruct ps as [|c cs _] using rev_ind; [discriminate|].
  simpl. rewrite parent_snoc. simpl in Hn. rewrite length_app in Hn. simpl in Hn.
  destruct n as [|n'].
  - simpl. destruct cs; [done|simpl in Hn; lia].
  - rewrite last_cons. rewrite (IH (mkPath anch cs)); [done|simpl; lia|lia].
Qed.

Lemma resolve_same_fs w w' p :
  fs w' = fs w -> cwd w' = cwd w -> resolve w' p = resolve w p.
Proof. unfold resolve, start_of. by intros -> ->. Qed.

Lemma stat_same_fs w w' p :
  fs w' = fs w -> cwd w' = cwd w -> stat w' p = stat w p.
Proof. unfold stat, start_of. by intros -> ->. Qed.

Lemma walk_parents_same_fs w w' p :
  fs w' = fs w -> cwd w' = cwd w -> walk_parents w' p = walk_parents w p.
Proof.
  intros Hf Hc. unfold walk_parents, is_dir. rewrite (stat_same_fs _ _ _ Hf Hc).
  assert (H : forall n q, walk_loop n w' q = walk_loop n w q).
  { induction n as [|n IH]; intros q; simpl; unfold samefile;
      rewrite !(resolve_same_fs _ _ _ Hf Hc); [done|]. by rewrite IH. }
  by rewrite H.
Qed.

(** C5 (amended). For every path [P] that exists, [walk_parents(P)] yields
    a finite sequence and ends without an error; the sequence begins with
    [P] exactly when [P] is a directory, and with the parent of [P]
    otherwise; every further element is the parent of the one before it and
    has fewer components, so the elements are distinct; all of them are
    directories; the last one is the same file as its own parent.  When the
    components of [P] are plain names the sequence is [P], if a directory,
    followed by all its ancestors, and ends at the path without components,
    the root for an absolute path.  The sequence depends on the file system
    and the working directory only, and a call changes nothing. *)
Theorem walk_parents_existing (w : world) (P : Path) (nd : node) :
  stat w P = Ok nd ->
  exists seq,
    walk_parents w P = (seq, StopIteration) /\
    (head seq = Some P <-> is_dir w P = true) /\
    (is_dir w P = false -> forall a, head seq = Some a -> a = parent P) /\
    (forall i a b, seq !! i = Some a -> seq !! S i = Some b ->
       b = parent a /\ (List.length (parts b) < List.length (parts a))%nat) /\
    NoDup seq /\
    Forall (fun a => is_dir w a = true) seq /\
    (forall a, last seq = Some a -> samefile w a (parent a) = Ok true) /\
    (Forall (fun c => plain c = true) (parts P) ->
       seq = (if is_dir w P then [P] else []) ++ ancestors P /\
       (is_dir w P = true \/ parts P <> [] ->
        last seq = Some (mkPath (anchored P) []))) /\
    (forall w', fs w' = fs w -> cwd w' = cwd w ->
       walk_parents w' P = walk_parents w P).
Proof.
  intros Hst. destruct (stat_resolve _ _ _ Hst) as (k & Hr & Hk).
  destruct (walk_loop_existing w _ P k (le_n _) Hr) as (l & Hl & Hc & Hf & Hlast).
  unfold walk_parents. rewrite Hl.
  eexists. split; [reflexivity|].
  assert (Hhd : is_dir w P = false -> forall a, head l = Some a -> a = parent P).
  { intros _ a. destruct l as [|x l']; [done|]. simpl. intros [= <-]. apply Hc. }
  split; [|split; [|split; [|split; [|split; [|split; [|split]]]]]].
  - destruct (is_dir w P) eqn:Hd; simpl; [done|]. split; [|done].
    intros Hh. specialize (Hhd eq_refl _ Hh).
    symmetry in Hhd. apply parent_fixed in Hhd.
    destruct l as [|x l']; [done|]. simpl in Hh. injection Hh as ->.
    destruct Hc as (_ & Hlt & _). rewrite Hhd in Hlt. simpl in Hlt. lia.
  - intros Hd. rewrite Hd. exact (Hhd Hd).
  - intros i a b. destruct (is_dir w P); simpl.
    + apply chain_lookup, Hc.
    + destruct l as [|x l']; [by destruct i|].
      apply chain_lookup. apply Hc.
  - pose proof (chain_NoDup _ _ Hc) as Hnd.
    destruct (is_dir w P); simpl; [done|]. by inversion Hnd.
  - destruct (is_dir w P) eqn:Hd; simpl; [|done]. by constructor.
  - intros a. destruct (is_dir w P); simpl; [apply Hlast|].
    destruct l as [|x l']; [done|]. intros Ha. apply Hlast.
    by rewrite last_cons_cons.
  - intros Hp. rewrite (walk_loop_plain w P k Hp Hr) in Hl. injection Hl as <-.
    split; [done|]. unfold ancestors.
    destruct (List.length (parts P)) eqn:Hlen.
    + destruct (parts P) eqn:Hps; [|discriminate]. simpl.
      intros [Hd|Hne]; [|done]. rewrite Hd. simpl.
      destruct P as [an ps]. simpl in *. by subst.
    + intros _. rewrite last_app.
      rewrite (ups_last (S n) P); [done|done|lia].
  - intros w' Hf' Hc'.
    pose proof (walk_parents_same_fs w w' P Hf' Hc') as E.
    unfold walk_parents in E. rewrite Hl in E. exact E.
Qed.

Lemma namei_delete_file f k start cs k' c m a :
  f !! k = Some (File c m a) ->
  namei f start cs = Ok k' -> namei (delete k f) start cs = Ok k'.
Proof.
  intros Hk. revert start. induction cs as [|x cs IH]; intros start; simpl; [done|].
  destruct (f !! start) as [[|]|] eqn:Hs; try discriminate.
  rewrite lookup_delete_ne by congruence. rewrite Hs. apply IH.
Qed.

(** [unlinkat] against the lookup of the same components. *)
Lemma unlink_at_spec anch comps w :
  match stat_in (fs w) (start_of w anch) comps with
  | Raise e => unlink_at anch comps w = (Raise e, w)
  | Ok Dir => unlink_at anch comps w = (Raise IsADirectoryError, w)
  | Ok (File c m a) =>
      exists k, fs w !! k = Some (File c m a) /\
        unlink_at anch comps w = (Ok tt, set_fs (delete k (fs w)) w) /\
        stat_in (delete k (fs w)) (start_of w anch) comps = Raise FileNotFoundError
  end.
Proof.
  unfold stat_in, unlink_at.
  destruct (namei (fs w) (start_of w anch) comps) as [k|e] eqn:Hn; [|done].
  destruct (fs w !! k) as [[|c m a]|] eqn:Hk; [done| |done].
  exists k. split; [done|]. split; [done|].
  by rewrite (namei_delete_file _ _ _ _ _ _ _ _ Hk Hn), lookup_delete_eq.
Qed.

Lemma os_unlink_spec x w :
  match os_stat_of w x with
  | Raise e => os_unlink x w = (Raise e, w)
  | Ok Dir => os_unlink x w = (Raise IsADirectoryError, w)
  | Ok (File c m a) =>
      exists k, fs w !! k = Some (File c m a) /\
        os_unlink x w = (Ok tt, set_fs (delete k (fs w)) w) /\
        os_stat_of (set_fs (delete k (fs w)) w) x = Raise FileNotFoundError
  end.
Proof.
  destruct x as [s|p]; unfold os_stat_of, os_stat, stat, os_unlink.
  - destruct (truthy s); [|done]. apply unlink_at_spec.
  - apply unlink_at_spec.
Qed.

(** C7, as stated, fails: nothing exists under the name of a regular file
    followed by a slash, or by a slash and a further name, yet [rm_file]
    raises [NotADirectoryError] there, and removes nothing. *)
Lemma rm_file_below_file_raises :
  let w := example_world ∅ "linux" in
  (os_path_exists w (Str "/tmp/empty.txt/x") = false /\
   rm_file (Str "/tmp/empty.txt/x") w = (Raise NotADirectoryError, w)) /\
  (os_path_exists w (Str "/tmp/empty.txt/") = false /\
   rm_file (Str "/tmp/empty.txt/") w = (Raise NotADirectoryError, w)) /\
  ~ (exists w', rm_file (Str "/tmp/empty.txt/x") w = (Ok tt, w')).
Proof.
  intros w.
  assert (H : rm_file (Str "/tmp/empty.txt/x") w = (Raise NotADirectoryError, w))
    by reflexivity.
  split; [split; [reflexivity|exact H]|]. split; [split; reflexivity|].
  intros [w' Hw]. rewrite H in Hw. discriminate.
Qed.

(** C7 (amended). [rm_file(P)] raises nothing and leaves the world as it
    was when the lookup of [P] fails with [FileNotFoundError]; when [P] is
    a file, the file is gone afterwards and nothing else has changed; when
    the lookup fails otherwise (a component of [P] is a file), that error
    is raised although nothing exists at [P]; on a directory
    [IsADirectoryError] is raised; every failure of the deletion other
    than the file being absent is raised to the caller. *)
Theorem rm_file_spec (w : world) (x : PathLike) :
  (os_stat_of w x = Raise FileNotFoundError -> rm_file x w = (Ok tt, w)) /\
  (forall c m a, os_stat_of w x = Ok (File c m a) ->
     exists k, fs w !! k = Some (File c m a) /\
               rm_file x w = (Ok tt, set_fs (delete k (fs w)) w) /\
               os_stat_of (set_fs (delete k (fs w)) w) x = Raise FileNotFoundError /\
               os_path_exists (set_fs (delete k (fs w)) w) x = false) /\
  (forall e, os_stat_of w x = Raise e -> e <> FileNotFoundError ->
     os_path_exists w x = false /\ rm_file x w = (Raise e, w)) /\
  (os_stat_of w x = Ok Dir -> rm_file x w = (Raise IsADirectoryError, w)) /\
  (forall e w', os_unlink x w = (Raise e, w') -> e <> FileNotFoundError ->
     rm_file x w = (Raise e, w')).
Proof.
  pose proof (os_unlink_spec x w) as Hu.
  split; [|split; [|split; [|split]]].
  - intros H. rewrite H in Hu. unfold rm_file. by rewrite Hu.
  - intros c m a H. rewrite H in Hu. destruct Hu as (k & Hk & Hu & Hs).
    exists k. split; [done|]. unfold rm_file. rewrite Hu. split; [done|].
    split; [done|]. unfold os_path_exists. by rewrite Hs.
  - intros e H Hne. rewrite H in Hu. unfold os_path_exists. rewrite H.
    split; [done|]. unfold rm_file. rewrite Hu. by destruct e.
  - intros H. rewrite H in Hu. unfold rm_file. by rewrite Hu.
  - intros e w' H Hne. unfold rm_file. rewrite H. by destruct e.
Qed.

Lemma rm_file_spec_witness :
  let w := example_world ∅ "linux" in
  rm_file (Str "/tmp/nothing") w = (Ok tt, w) /\
  (exists k, fs w !! k = Some (File [] 0 0) /\
     rm_file (Str "/tmp/empty.txt") w = (Ok tt, set_fs (delete k (fs w)) w) /\
     os_stat_of (set_fs (delete k (fs w)) w) (Str "/tmp/empty.txt")
       = Raise FileNotFoundError /\
     os_path_exists (set_fs (delete k (fs w)) w) (Str "/tmp/empty.txt") = false) /\
  (os_path_exists w (Str "/tmp/empty.txt/") = false /\
   rm_file (Str "/tmp/empty.txt/") w = (Raise NotADirectoryError, w)) /\
  rm_file (Str "/tmp") w = (Raise IsADirectoryError, w) /\
  rm_file (Path_of_string "/tmp/./nothing") w = (Ok tt, w).
Proof.
  intros w. split; [|split; [|split; [|split]]].
  - apply (proj1 (rm_file_spec w (Str "/tmp/nothing"))). reflexivity.
  - apply (proj1 (proj2 (rm_file_spec w (Str "/tmp/empty.txt"))) [] 0%Z 0%Z).
    reflexivity.
  - apply (proj1 (proj2 (proj2 (rm_file_spec w (Str "/tmp/empty.txt/"))))).
    + reflexivity.
    + discriminate.
  - apply (proj1 (proj2 (proj2 (proj2 (rm_file_spec w (Str "/tmp")))))). reflexivity.
  - apply (proj1 (rm_file_spec w (Path_of_string "/tmp/./nothing"))). reflexivity.
Defined.

Lemma walk_parents_existing_witness :
  let w := example_world ∅ "linux" in
  let P := Path_of_string "/opt/addons/japanese/helpers/file_ops.py" in
  exists seq, walk_parents w P = (seq, StopIteration) /\ last seq = Some root.
Proof.
  intros w P.
  destruct (walk_parents_existing w P (File [Byte.x23] 0 0) eq_refl)
    as (seq & Hw & _ & _ & _ & _ & _ & _ & Hplain & _).
  exists seq. split; [exact Hw|].
  apply Hplain.
  - vm_compute. repeat constructor.
  - right. discriminate.
Defined.

(** C5, as stated, fails: on a path that does not exist the first
    [samefile] raises [FileNotFoundError], so the generator yields nothing
    and does not end normally. *)
Lemma walk_parents_missing_path :
  let w := example_world ∅ "linux" in
  let P := Path_of_string "/nonexistent/file" in
  walk_parents w P = ([], Raised FileNotFoundError) /\
  ~ (exists seq, walk_parents w P = (seq, StopIteration)).
Proof.
  intros w P.
  assert (H : walk_parents w P = ([], Raised FileNotFoundError)) by reflexivity.
  split; [exact H|]. intros [seq Hs]. rewrite H in Hs. discriminate.
Qed.

Section Touch.
Context (w : world) (P : Path).

Lemma namei_insert_fresh f k nd start cs k' :
  f !! k = None ->
  namei f start cs = Ok k' -> namei (<[k := nd]> f) start cs = Ok k'.
Proof.
  intros Hk. revert start. induction cs as [|x cs IH]; intros start; simpl; [done|].
  destruct (f !! start) as [[|]|] eqn:Hs; try discriminate.
  rewrite lookup_insert_ne by congruence. rewrite Hs. apply IH.
Qed.

Lemma namei_insert_file f k c m a c' m' a' start cs k' :
  f !! k = Some (File c m a) ->
  namei f start cs = Ok k' ->
  namei (<[k := File c' m' a']> f) start cs = Ok k'.
Proof.
  intros Hk. revert start. induction cs as [|x cs IH]; intros start; simpl; [done|].
  destruct (f !! start) as [[|]|] eqn:Hs; try discriminate.
  rewrite lookup_insert_ne by congruence. rewrite Hs. apply IH.
Qed.

(** A path below an existing directory which is no directory itself names
    a location that holds a file or nothing; in the second case its last
    component is a plain name. *)
Lemma touch_target :
  fs_tree (fs w) -> is_dir w (parent P) = true -> is_dir w P = false ->
  exists k, namei (fs w) (start_of w (anchored P)) (parts P) = Ok k /\
    ((exists c m a, fs w !! k = Some (File c m a)) \/
     (fs w !! k = None /\ exists c, last (parts P) = Some c /\ plain c = true)).
Proof.
  intros Htree Hpar Hnd. destruct P as [anch ps].
  destruct ps as [|c cs _] using rev_ind.
  { rewrite parent_nil in Hpar. congruence. }
  rewrite parent_snoc in Hpar. unfold is_dir in *.
  destruct (stat w (mkPath anch cs)) as [[|]|] eqn:Hst; try discriminate.
  destruct (stat_resolve _ _ _ Hst) as (d & Hr & Hd).
  unfold resolve, resolve_in in Hr. simpl in Hr.
  destruct (namei (fs w) (start_of w anch) cs) as [d'|] eqn:Hn; [|discriminate].
  destruct (fs w !! d'); [|discriminate]. injection Hr as ->.
  unfold stat, stat_in in Hnd. simpl in *. rewrite namei_snoc, Hn, Hd in *.
  exists (step d c). split; [done|].
  destruct (fs w !! step d c) as [[|]|] eqn:Hk; [discriminate|eauto|].
  right. split; [done|]. exists c. rewrite last_snoc. split; [done|].
  unfold step in Hk. unfold plain.
  destruct (is_name c); [|congruence]. simpl.
  destruct (String.eqb c ".."); [|done].
  rewrite (Htree _ _ Hd) in Hk. discriminate.
Qed.
End Touch.

(** [touch] on a path below an existing directory that is no directory
    itself. *)
Lemma touch_on_path (w : world) (P : Path) :
  fs_tree (fs w) -> is_dir w (parent P) = true -> is_dir w P = false ->
  exists k c w1,
    touch P w = (Ok tt, w1) /\
    resolve w1 P = Ok k /\
    stat w1 P = Ok (File c (clock w) (clock w)) /\
    (stat w P = Raise FileNotFoundError -> c = []) /\
    (forall c0 m a, stat w P = Ok (File c0 m a) -> c = c0) /\
    (forall k', k' <> k -> fs w1 !! k' = fs w !! k') /\
    (forall t, exists w2,
        touch P (set_clock t w1) = (Ok tt, w2) /\
        stat w2 P = Ok (File c t t) /\
        st_size (File c t t) = st_size (File c (clock w) (clock w)) /\
        (forall k', k' <> k -> fs w2 !! k' = fs w !! k')).
Proof.
  intros Htree Hpar Hnd.
  destruct (touch_target w P Htree Hpar Hnd) as (k & Hn & Hcase).
  assert (Hexisting : forall (v : world) c m a,
    namei (fs v) (start_of v (anchored P)) (parts P) = Ok k ->
    fs v !! k = Some (File c m a) ->
    touch P v = (Ok tt, set_fs (<[k := File c (clock v) (clock v)]> (fs v)) v) /\
    resolve (set_fs (<[k := File c (clock v) (clock v)]> (fs v)) v) P = Ok k /\
    stat (set_fs (<[k := File c (clock v) (clock v)]> (fs v)) v) P
      = Ok (File c (clock v) (clock v))).
  { intros v c m a Hnv Hkv. unfold touch, bind, open_append, open_at, os_utime, utime_at.
    rewrite Hnv, Hkv. unfold resolve, resolve_in. rewrite Hnv, Hkv, Hkv.
    split; [done|]. unfold stat, stat_in. simpl.
    change (start_of (set_fs _ v) (anchored P)) with (start_of v (anchored P)).
    rewrite (namei_insert_file _ _ _ _ _ _ _ _ _ _ _ Hkv Hnv).
    by rewrite lookup_insert_eq. }
  destruct Hcase as [(c & m & a & Hk)|(Hk & c0 & Hlast & Hplain)].
  - destruct (Hexisting w c m a Hn Hk) as (Ht & Hr1 & Hs1).
    exists k, c, (set_fs (<[k := File c (clock w) (clock w)]> (fs w)) w).
    split; [done|]. split; [done|]. split; [done|].
    assert (Hst : stat w P = Ok (File c m a)).
    { unfold stat, stat_in. by rewrite Hn, Hk. }
    split; [rewrite Hst; discriminate|].
    split; [intros c1 m1 a1; rewrite Hst; congruence|].
    split; [intros k' Hne; simpl; by rewrite lookup_insert_ne|].
    intros t.
    set (w1 := set_fs (<[k := File c (clock w) (clock w)]> (fs w)) w).
    destruct (Hexisting (set_clock t w1) c (clock w) (clock w)) as (Ht2 & _ & Hs2).
    { change (start_of (set_clock t w1) (anchored P)) with (start_of w (anchored P)).
      simpl. by apply (namei_insert_file _ _ _ _ _ _ _ _ _ _ _ Hk Hn). }
    { simpl. by rewrite lookup_insert_eq. }
    eexists. split; [exact Ht2|]. split; [exact Hs2|]. split; [done|].
    intros k' Hne. simpl. by rewrite !lookup_insert_ne.
  - set (w0 := set_fs (<[k := File [] (clock w) (clock w)]> (fs w)) w).
    assert (Hn0 : namei (fs w0) (start_of w0 (anchored P)) (parts P) = Ok k).
    { change (start_of w0 (anchored P)) with (start_of w (anchored P)).
      simpl. by apply namei_insert_fresh. }
    assert (Hk0 : fs w0 !! k = Some (File [] (clock w) (clock w))).
    { simpl. by rewrite lookup_insert_eq. }
    assert (Hopen : open_append P w = (Ok tt, w0)).
    { unfold open_append, open_at. by rewrite Hn, Hk, Hlast, Hplain. }
    destruct (Hexisting w0 [] (clock w) (clock w) Hn0 Hk0) as (Ht0 & Hr1 & Hs1).
    assert (Hu : os_utime P w0 =
      (Ok tt, set_fs (<[k := File [] (clock w0) (clock w0)]> (fs w0)) w0)).
    { unfold os_utime, utime_at, resolve, resolve_in. by rewrite Hn0, Hk0, Hk0. }
    exists k, [], (set_fs (<[k := File [] (clock w0) (clock w0)]> (fs w0)) w0).
    split; [unfold touch, bind; by rewrite Hopen, Hu|].
    split; [done|]. split; [done|].
    split; [done|].
    split.
    { intros c1 m1 a1. unfold stat, stat_in. rewrite Hn, Hk. discriminate. }
    split; [intros k' Hne; simpl; by rewrite !lookup_insert_ne|].
    intros t.
    set (w1 := set_fs (<[k := File [] (clock w0) (clock w0)]> (fs w0)) w0).
    destruct (Hexisting (set_clock t w1) [] (clock w) (clock w)) as (Ht2 & _ & Hs2).
    { change (start_of (set_clock t w1) (anchored P)) with (start_of w0 (anchored P)).
      simpl. by apply (namei_insert_file _ _ _ _ _ _ _ _ _ _ _ Hk0 Hn0). }
    { simpl. by rewrite lookup_insert_eq. }
    eexists. split; [exact Ht2|]. split; [exact Hs2|]. split; [done|].
    intros k' Hne. simpl. by rewrite !lookup_insert_ne.
Qed.
Lemma fs_tree_b_sound f : fs_tree_b f = true -> fs_tree f.
Proof.
  unfold fs_tree_b, fs_tree. rewrite forallb_forall. intros H k nd Hk.
  apply elem_of_map_to_list in Hk. apply list_elem_of_In in Hk.
  specialize (H _ Hk). simpl in H.
  by destruct (f !! removelast k) as [[|]|].
Qed.

(** C8. [file_exists] always answers; it says no for the empty string, for
    a string that names nothing ([os.stat] raises), and for a file of zero
    bytes, such as the one [touch] has just made; it says yes exactly when
    the string is not empty and names a regular file of more than zero
    bytes. *)
Theorem file_exists_spec (w : world) (s : string) :
  (exists b, file_exists s w = Ok b /\
     (b = true <->
      s <> "" /\ exists c m a, os_stat w s = Ok (File c m a) /\ (0 < List.length c)%nat)) /\
  file_exists "" w = Ok false /\
  (forall e, os_stat w s = Raise e -> file_exists s w = Ok false) /\
  (forall m a, os_stat w s = Ok (File [] m a) -> file_exists s w = Ok false) /\
  (let v := example_world ∅ "linux" in
   os_stat v "/tmp/new.txt" = Raise FileNotFoundError /\
   os_stat (touch (Path_of_string "/tmp/new.txt") v).2 "/tmp/new.txt" = Ok (File [] 7 7) /\
   file_exists "/tmp/new.txt" (touch (Path_of_string "/tmp/new.txt") v).2 = Ok false).
Proof.
  split; [|split; [|split; [|split]]].
  - unfold file_exists, os_path_isfile. destruct s as [|ch s']; simpl.
    + exists false. split; [done|]. split; [discriminate|]. by intros [? _].
    + destruct (os_stat w (String ch s')) as [[|c m a]|e] eqn:Hst.
      * exists false. split; [done|]. split; [discriminate|].
        intros (_ & c & m & a & [=] & _).
      * exists (0 <? List.length c)%nat. split; [done|]. rewrite Nat.ltb_lt. split.
        -- intros Hlt. split; [discriminate|]. eauto.
        -- intros (_ & c' & m' & a' & [= -> _ _] & Hlt). done.
      * exists false. split; [done|]. split; [discriminate|].
        intros (_ & c & m & a & [=] & _).
  - reflexivity.
  - intros e He. unfold file_exists, os_path_isfile. rewrite He. by destruct (truthy s).
  - intros m a He. unfold file_exists, os_path_isfile. rewrite He. by destruct (truthy s).
  - vm_compute. auto.
Qed.

Lemma file_exists_spec_witness :
  let w := example_world ∅ "linux" in
  file_exists "/nonexistent/path" w = Ok false /\
  file_exists "/tmp/empty.txt" w = Ok false /\
  file_exists "/opt/addons/japanese/config.json" w = Ok true.
Proof.
  intros w. split; [|split].
  - apply (proj1 (proj2 (proj2 (file_exists_spec w "/nonexistent/path"))) FileNotFoundError).
    reflexivity.
  - apply (proj1 (proj2 (proj2 (proj2 (file_exists_spec w "/tmp/empty.txt")))) 0%Z 0%Z).
    reflexivity.
  - destruct (proj1 (file_exists_spec w "/opt/addons/japanese/config.json")) as (b & Hb & Hiff).
    rewrite Hb. f_equal. apply Hiff. split; [discriminate|].
    exists [Byte.x7b], 0%Z, 0%Z. split; [reflexivity|]. simpl. lia.
Defined.

Section Growth.

Lemma set_fs_same w : set_fs (fs w) w = w.
Proof. by destruct w. Qed.

Lemma grows_refl w : grows w w.
Proof.
  split; [by rewrite set_fs_same|]. split; [done|].
  intros k nd H1 H2. congruence.
Qed.

Lemma grows_trans w1 w2 w3 : grows w1 w2 -> grows w2 w3 -> grows w1 w3.
Proof.
  intros (E1 & S1 & D1) (E2 & S2 & D2). split; [|split].
  - rewrite E2 at 1. rewrite E1 at 1. reflexivity.
  - by transitivity (fs w2).
  - intros k nd H3 H1. destruct (fs w2 !! k) as [nd2|] eqn:H2.
    + pose proof (lookup_weaken _ _ _ _ H2 S2) as H3'.
      rewrite H3 in H3'. injection H3' as ->. by apply (D1 k).
    + by apply (D2 k).
Qed.

Lemma namei_mono f f' start cs k :
  f ⊆ f' -> namei f start cs = Ok k -> namei f' start cs = Ok k.
Proof.
  intros Hsub. revert start. induction cs as [|c cs IH]; intros start; simpl; [done|].
  destruct (f !! start) as [[|]|] eqn:Hs; try discriminate.
  rewrite (lookup_weaken _ _ _ _ Hs Hsub). apply IH.
Qed.

Lemma stat_mono w w' p nd :
  grows w w' -> stat w p = Ok nd -> stat w' p = Ok nd.
Proof.
  intros (E & Hsub & _). unfold stat, stat_in.
  assert (Hs : start_of w' (anchored p) = start_of w (anchored p)) by (by rewrite E).
  rewrite Hs.
  destruct (namei (fs w) _ _) as [k|] eqn:Hn; [|discriminate].
  rewrite (namei_mono _ _ _ _ _ Hsub Hn).
  destruct (fs w !! k) eqn:Hk; [|discriminate].
  by rewrite (lookup_weaken _ _ _ _ Hk Hsub).
Qed.

Lemma os_mkdir_inv p w r w' :
  os_mkdir p w = (r, w') ->
  (exists k, r = Ok tt /\ namei (fs w) (start_of w (anchored p)) (parts p) = Ok k /\
             fs w !! k = None /\ w' = set_fs (<[k := Dir]> (fs w)) w) \/
  (exists e, r = Raise e /\ w' = w /\ is_OSError e = true).
Proof.
  unfold os_mkdir.
  destruct (namei _ _ _) as [k|e] eqn:Hn.
  - destruct (fs w !! k) eqn:Hk.
    + intros [= <- <-]. right. eauto.
    + destruct (last (parts p)) as [c|].
      * destruct (plain c).
        -- intros [= <- <-]. left. eauto.
        -- intros [= <- <-]. right. eauto.
      * intros [= <- <-]. right. eauto.
  - intros [= <- <-]. right. exists e. split; [done|]. split; [done|].
    clear -Hn. revert Hn. generalize (start_of w (anchored p)).
    induction (parts p) as [|c cs IH]; intros s; simpl; [discriminate|].
    destruct (fs w !! s) as [[|]|]; [apply IH| |]; by intros [= <-].
Qed.

Lemma insert_dir_grows w k :
  fs w !! k = None -> grows w (set_fs (<[k := Dir]> (fs w)) w).
Proof.
  intros Hk. split; [done|]. split; [by apply insert_subseteq|].
  simpl. intros k' nd H1 H2. destruct (decide (k = k')) as [->|Hne].
  - rewrite lookup_insert_eq in H1. congruence.
  - rewrite lookup_insert_ne in H1 by done. congruence.
Qed.

Lemma os_mkdir_ok p w w' :
  os_mkdir p w = (Ok tt, w') -> grows w w' /\ is_dir w' p = true.
Proof.
  intros H. destruct (os_mkdir_inv _ _ _ _ H) as [(k & _ & Hn & Hk & ->)|(e & [=] & _)].
  split; [by apply insert_dir_grows|].
  unfold is_dir, stat, stat_in.
  change (start_of (set_fs _ w) (anchored p)) with (start_of w (anchored p)).
  simpl. rewrite (namei_mono _ _ _ _ _ (insert_subseteq _ _ _ Hk) Hn).
  by rewrite lookup_insert_eq.
Qed.

Lemma mkdir_here_sound p w r w' :
  mkdir_here p w = (r, w') -> grows w w' /\ (r = Ok tt -> is_dir w' p = true).
Proof.
  unfold mkdir_here. destruct (os_mkdir p w) as [[[]|e] w1] eqn:Hm.
  - intros [= <- <-]. destruct (os_mkdir_ok _ _ _ Hm); by split.
  - destruct (os_mkdir_inv _ _ _ _ Hm) as [(k & [=] & _)|(e' & [= <-] & -> & _)].
    destruct e; try (intros [= <- <-]; split; [apply grows_refl|discriminate]);
      simpl; destruct (is_dir w p) eqn:Hd; intros [= <- <-];
      (split; [apply grows_refl|done]).
Qed.

Lemma mkdir_parents_aux_sound n p w r w' :
  mkdir_parents_aux n p w = (r, w') ->
  grows w w' /\ (r = Ok tt -> is_dir w' p = true).
Proof.
  revert p w r w'. induction n as [|n IH]; intros p w r w'; simpl;
    destruct (os_mkdir p w) as [[[]|e] w1] eqn:Hm.
  - intros [= <- <-]. destruct (os_mkdir_ok _ _ _ Hm); by split.
  - destruct (os_mkdir_inv _ _ _ _ Hm) as [(k & [=] & _)|(e' & [= <-] & -> & _)].
    destruct e; try destruct (decide (parent p = p));
      try (intros [= <- <-]; split; [apply grows_refl|discriminate]);
      simpl; destruct (is_dir w p) eqn:Hd; intros [= <- <-];
      (split; [apply grows_refl|done]).
  - intros [= <- <-]. destruct (os_mkdir_ok _ _ _ Hm); by split.
  - destruct (os_mkdir_inv _ _ _ _ Hm) as [(k & [=] & _)|(e' & [= <-] & -> & _)].
    destruct e;
      try (simpl; destruct (is_dir w p) eqn:Hd; intros [= <- <-];
           (split; [apply grows_refl|done])).
    + destruct (decide (parent p = p)).
      * intros [= <- <-]; split; [apply grows_refl|discriminate].
      * unfold bind. destruct (mkdir_parents_aux n (parent p) w) as [[[]|e2] w2] eqn:Hrec.
        -- destruct (IH _ _ _ _ Hrec) as [Hg _].
           intros Hh. destruct (mkdir_here_sound _ _ _ _ Hh) as [Hg2 Hd].
           split; [by eapply grows_trans|done].
        -- intros [= <- <-]. destruct (IH _ _ _ _ Hrec) as [Hg _]. split; [done|discriminate].
Qed.

Lemma mkdir_parents_sound p w r w' :
  mkdir_parents p w = (r, w') ->
  grows w w' /\ (r = Ok tt -> is_dir w' p = true).
Proof. apply mkdir_parents_aux_sound. Qed.

End Growth.
Section PlainPaths.
Context (f : gmap (list string) node).

Lemma namei_plain_dirs start cs :
  Forall (fun c => plain c = true) cs ->
  (forall i, (i < List.length cs)%nat -> f !! (start ++ take i cs) = Some Dir) ->
  namei f start cs = Ok (start ++ cs).
Proof.
  revert start. induction cs as [|c cs IH]; intros start Hp Hd; simpl.
  - by rewrite app_nil_r.
  - inversion Hp; subst.
    pose proof (Hd O ltac:(simpl; lia)) as H0. simpl in H0. rewrite app_nil_r in H0.
    rewrite H0, step_plain by done.
    rewrite IH; [by rewrite <- app_assoc|done|].
    intros i Hi. rewrite <- app_assoc. apply (Hd (S i)). simpl. lia.
Qed.

Lemma namei_plain_inv start cs k :
  Forall (fun c => plain c = true) cs ->
  namei f start cs = Ok k ->
  k = start ++ cs /\
  forall i, (i < List.length cs)%nat -> f !! (start ++ take i cs) = Some Dir.
Proof.
  revert start. induction cs as [|c cs IH]; intros start Hp; simpl.
  - intros [= <-]. split; [by rewrite app_nil_r|]. intros i Hi. lia.
  - inversion Hp; subst. destruct (f !! start) as [[|]|] eqn:Hs; try discriminate.
    rewrite step_plain by done. intros Hn.
    destruct (IH _ H2 Hn) as [-> Hd]. split; [by rewrite <- app_assoc|].
    intros [|i] Hi; simpl.
    + by rewrite app_nil_r.
    + specialize (Hd i ltac:(simpl in Hi; lia)). by rewrite <- app_assoc in Hd.
Qed.

Lemma namei_plain_raise start cs e :
  Forall (fun c => plain c = true) cs ->
  namei f start cs = Raise e ->
  exists i, (i < List.length cs)%nat /\
    ((f !! (start ++ take i cs) = None /\ e = FileNotFoundError) \/
     (exists c m a, f !! (start ++ take i cs) = Some (File c m a))).
Proof.
  revert start. induction cs as [|c cs IH]; intros start Hp; simpl; [discriminate|].
  inversion Hp; subst. destruct (f !! start) as [[|x m a]|] eqn:Hs.
  - rewrite step_plain by done. intros Hn.
    destruct (IH _ H2 Hn) as (i & Hi & Hcase). exists (S i). split; [lia|].
    simpl. by rewrite <- app_assoc in Hcase.
  - intros _. exists O. split; [lia|]. right. simpl. rewrite app_nil_r. eauto.
  - intros [= <-]. exists O. split; [lia|]. left. simpl. by rewrite app_nil_r.
Qed.
End PlainPaths.

Lemma creatable_spec w p :
  creatable w p = true ->
  fs w !! start_of w (anchored p) = Some Dir /\
  forall i, fs w !! (start_of w (anchored p) ++ take i (parts p)) = None \/
            fs w !! (start_of w (anchored p) ++ take i (parts p)) = Some Dir.
Proof.
  unfold creatable. intros H. apply andb_prop in H as [H1 H2].
  split. { by destruct (fs w !! _) as [[|]|]. }
  rewrite forallb_forall in H2. intros i.
  destruct (le_lt_dec i (List.length (parts p))) as [Hle|Hgt].
  - specialize (H2 i). rewrite in_seq in H2. specialize (H2 ltac:(lia)).
    revert H2.
    destruct (fs w !! (start_of w (anchored p) ++ take i (parts p))) as [[|]|];
      auto; discriminate.
  - specialize (H2 (List.length (parts p))). rewrite in_seq in H2.
    specialize (H2 ltac:(lia)).
    rewrite (take_ge _ i) by lia. rewrite firstn_all in H2. revert H2.
    destruct (fs w !! (start_of w (anchored p) ++ parts p)) as [[|]|];
      auto; discriminate.
Qed.

Lemma creatable_parent w anch cs c :
  creatable w (mkPath anch (cs ++ [c])) = true -> creatable w (mkPath anch cs) = true.
Proof.
  unfold creatable. cbn [anchored parts]. intros H. apply andb_prop in H as [H1 H2].
  rewrite H1. cbn [andb]. rewrite forallb_forall in *. intros i Hi.
  rewrite in_seq in Hi. specialize (H2 i). rewrite in_seq, length_app in H2.
  specialize (H2 ltac:(simpl; lia)). rewrite take_app_le in H2 by lia. exact H2.
Qed.

Lemma on_path_snoc start cs c k :
  on_path start (cs ++ [c]) k <-> on_path start cs k \/ k = start ++ cs ++ [c].
Proof.
  unfold on_path. split.
  - intros (i & Hi & ->). rewrite length_app in Hi. simpl in Hi.
    destruct (decide (i <= List.length cs)%nat) as [Hle|Hgt].
    + left. exists i. split; [done|]. by rewrite take_app_le.
    + right. rewrite take_ge; [done|]. rewrite length_app. simpl. lia.
  - intros [(i & Hi & ->)| ->].
    + exists i. rewrite length_app. split; [lia|]. by rewrite take_app_le.
    + exists (List.length (cs ++ [c])). split; [done|]. by rewrite firstn_all.
Qed.

Lemma on_path_length start cs k :
  on_path start cs k -> (List.length k <= List.length start + List.length cs)%nat.
Proof.
  intros (i & Hi & ->). rewrite length_app, length_take. lia.
Qed.

Lemma os_mkdir_eval p w k :
  namei (fs w) (start_of w (anchored p)) (parts p) = Ok k ->
  os_mkdir p w =
  match fs w !! k with
  | Some _ => (Raise FileExistsError, w)
  | None =>
      match last (parts p) with
      | Some c =>
          if plain c then (Ok tt, set_fs (<[k := Dir]> (fs w)) w)
          else (Raise FileNotFoundError, w)
      | None => (Raise FileNotFoundError, w)
      end
  end.
Proof. unfold os_mkdir. by intros ->. Qed.

Lemma os_mkdir_raise p w e :
  namei (fs w) (start_of w (anchored p)) (parts p) = Raise e ->
  os_mkdir p w = (Raise e, w).
Proof. unfold os_mkdir. by intros ->. Qed.

Lemma is_dir_eval p w k :
  namei (fs w) (start_of w (anchored p)) (parts p) = Ok k ->
  is_dir w p = match fs w !! k with Some Dir => true | _ => false end.
Proof. unfold is_dir, stat, stat_in. intros ->. by destruct (fs w !! k) as [[|]|]. Qed.

(** [mkdir -p] along plain components that nothing blocks: it succeeds, every
    location on the way is a directory afterwards, and nothing else has
    changed. *)
Lemma mkdir_parents_plain anch cs :
  Forall (fun c => plain c = true) cs ->
  forall w, creatable w (mkPath anch cs) = true ->
  exists f',
    mkdir_parents_aux (List.length cs) (mkPath anch cs) w = (Ok tt, set_fs f' w) /\
    (forall k, on_path (start_of w anch) cs k -> f' !! k = Some Dir) /\
    (forall k, ~ on_path (start_of w anch) cs k -> f' !! k = fs w !! k).
Proof.
  induction cs as [|c cs IH] using rev_ind; intros Hp w Hc.
  - destruct (creatable_spec _ _ Hc) as [Hs _]. simpl in Hs.
    exists (fs w). simpl. unfold os_mkdir. simpl. rewrite Hs. simpl.
    unfold is_dir, stat, stat_in. simpl. rewrite Hs. rewrite set_fs_same.
    split; [done|]. split; [|done].
    intros k (i & Hi & ->). simpl in Hi. rewrite take_nil, app_nil_r. done.
  - apply Forall_app in Hp as [Hpcs Hpc]. inversion Hpc as [|? ? Hplain _]; subst.
    assert (Hpall : Forall (fun c => plain c = true) (cs ++ [c]))
      by (apply Forall_app; split; [done|by constructor]).
    set (s := start_of w anch). set (p := mkPath anch (cs ++ [c])).
    set (k := s ++ cs ++ [c]).
    destruct (creatable_spec _ _ Hc) as [Hs Hfree]. fold s in Hs, Hfree. simpl in Hfree.
    assert (Hklen : ~ on_path s cs k).
    { intros H. apply on_path_length in H. unfold k in H.
      rewrite !length_app in H. simpl in H. lia. }
    (* what creating, or finding, the last directory gives *)
    assert (Hfinish : forall f1,
      (forall k', on_path s cs k' -> f1 !! k' = Some Dir) ->
      (f1 !! k = None \/ f1 !! k = Some Dir) ->
      exists f',
        (os_mkdir p (set_fs f1 w) = (Ok tt, set_fs f' w) \/
         (exists e, os_mkdir p (set_fs f1 w) = (Raise e, set_fs f1 w) /\
                    e <> FileNotFoundError /\ is_OSError e = true /\
                    is_dir (set_fs f1 w) p = true /\ f' = f1)) /\
        (forall k', on_path s (cs ++ [c]) k' -> f' !! k' = Some Dir) /\
        (forall k', ~ on_path s (cs ++ [c]) k' -> f' !! k' = f1 !! k')).
    { intros f1 Hdirs Hk.
      assert (Hn : namei f1 s (cs ++ [c]) = Ok k).
      { apply namei_plain_dirs; [done|].
        intros i Hi. rewrite length_app in Hi. simpl in Hi.
        rewrite take_app_le by lia. apply Hdirs. exists i. split; [lia|done]. }
      destruct Hk as [Hk|Hk].
      - exists (<[k := Dir]> f1). split; [|split].
        + left. rewrite (os_mkdir_eval p (set_fs f1 w) k Hn). simpl.
          by rewrite Hk, last_snoc, Hplain.
        + intros k' Hk'. apply on_path_snoc in Hk' as [Hk'| ->].
          * rewrite lookup_insert_ne; [by apply Hdirs|]. intros <-. by apply Hklen.
          * by rewrite lookup_insert_eq.
        + intros k' Hk'. rewrite lookup_insert_ne; [done|].
          intros <-. apply Hk'. apply on_path_snoc. by right.
      - exists f1. split; [|split].
        + right. exists FileExistsError.
          rewrite (os_mkdir_eval p (set_fs f1 w) k Hn), (is_dir_eval p (set_fs f1 w) k Hn).
          simpl. by rewrite Hk.
        + intros k' Hk'. apply on_path_snoc in Hk' as [Hk'| ->]; [by apply Hdirs|done].
        + done. }
    replace (List.length (cs ++ [c])) with (S (List.length cs))
      by (rewrite length_app; simpl; lia).
    simpl. fold p.
    destruct (namei (fs w) s (cs ++ [c])) as [k0|e] eqn:Hn.
    + (* the parent is there already *)
      destruct (namei_plain_inv _ _ _ _ Hpall Hn) as [-> Hd].
      destruct (Hfinish (fs w)) as (f' & Hos & Hon & Hoff).
      { intros k' (i & Hi & ->). destruct (decide (i = List.length cs)) as [->|Hne].
        - specialize (Hd (List.length cs)). rewrite length_app in Hd. simpl in Hd.
          specialize (Hd ltac:(lia)). by rewrite take_app_le in Hd by lia.
        - specialize (Hd i). rewrite length_app in Hd. simpl in Hd.
          specialize (Hd ltac:(lia)). by rewrite take_app_le in Hd by lia. }
      { specialize (Hfree (List.length (cs ++ [c]))). by rewrite firstn_all in Hfree. }
      rewrite set_fs_same in Hos. exists f'. split; [|split; [done|done]].
      destruct Hos as [->|(e & -> & Hne & Hos & Hdir & ->)]; [done|].
      destruct e; try done; simpl; rewrite Hdir; by rewrite set_fs_same.
    + (* an ancestor is missing *)
      assert (He : e = FileNotFoundError).
      { destruct (namei_plain_raise _ _ _ _ Hpall Hn)
          as (i & Hi & [[_ ->]|(x & m & a & Hx)]); [done|].
        unfold s in Hx. destruct (Hfree i) as [H|H]; congruence. }
      subst e.
      assert (Hos : os_mkdir p w = (Raise FileNotFoundError, w)).
      { exact (os_mkdir_raise p w _ Hn). }
      rewrite Hos.
      destruct (decide (parent p = p)) as [Hfix|_].
      { apply parent_fixed in Hfix. simpl in Hfix. by destruct cs. }
      unfold p at 1. rewrite parent_snoc. unfold bind.
      destruct (IH Hpcs w (creatable_parent _ _ _ _ Hc)) as (f1 & Hrec & Hon1 & Hoff1).
      rewrite Hrec. fold s in Hon1, Hoff1.
      destruct (Hfinish f1 Hon1) as (f' & Hos' & Hon & Hoff).
      { rewrite (Hoff1 _ Hklen).
        specialize (Hfree (List.length (cs ++ [c]))). by rewrite firstn_all in Hfree. }
      exists f'. split; [|split; [done|]].
      * unfold mkdir_here.
        destruct Hos' as [->|(e & -> & Hne & Hose & Hdir & ->)]; [done|].
        destruct e; try done; simpl; rewrite Hdir; done.
      * intros k' Hk'. rewrite (Hoff _ Hk'). apply Hoff1.
        intros H. apply Hk'. apply on_path_snoc. by left.
Qed.

Section Locality.
Context (w w' : world).
Hypothesis Hfs : fs w' = fs w.
Hypothesis Hcwd : cwd w' = cwd w.

Lemma start_of_local anch : start_of w' anch = start_of w anch.
Proof. unfold start_of. by rewrite Hcwd. Qed.

Lemma is_dir_local p : is_dir w' p = is_dir w p.
Proof. unfold is_dir. by rewrite (stat_same_fs w w' p Hfs Hcwd). Qed.

Lemma os_mkdir_local p r w1 :
  os_mkdir p w = (r, w1) -> os_mkdir p w' = (r, set_fs (fs w1) w').
Proof.
  unfold os_mkdir. rewrite start_of_local, Hfs.
  destruct (namei _ _ _) as [k|e].
  - destruct (fs w !! k).
    + intros [= <- <-]. by rewrite <- Hfs, set_fs_same.
    + destruct (last (parts p)) as [c|]; [destruct (plain c)|];
        intros [= <- <-]; try done; by rewrite <- Hfs, set_fs_same.
  - intros [= <- <-]. by rewrite <- Hfs, set_fs_same.
Qed.
End Locality.

Lemma mkdir_here_local w w' p r w1 :
  fs w' = fs w -> cwd w' = cwd w ->
  mkdir_here p w = (r, w1) -> mkdir_here p w' = (r, set_fs (fs w1) w').
Proof.
  intros Hfs Hcwd. unfold mkdir_here.
  destruct (os_mkdir p w) as [r0 w0] eqn:Hm.
  rewrite (os_mkdir_local w w' Hfs Hcwd p r0 w0 Hm).
  destruct (os_mkdir_inv _ _ _ _ Hm) as [(k & -> & _)|(e & -> & -> & _)].
  - by intros [= <- <-].
  - rewrite (is_dir_local w (set_fs (fs w) w')) by done.
    destruct e; simpl; try destruct (is_dir w p); by intros [= <- <-].
Qed.

(** [mkdir(parents=True)] reads and writes the file system and nothing
    else. *)
Lemma mkdir_parents_aux_local n w w' p r w1 :
  fs w' = fs w -> cwd w' = cwd w ->
  mkdir_parents_aux n p w = (r, w1) ->
  mkdir_parents_aux n p w' = (r, set_fs (fs w1) w').
Proof.
  revert w w' p r w1.
  induction n as [|n IH]; intros w w' p r w1 Hfs Hcwd; simpl;
    destruct (os_mkdir p w) as [r0 w0] eqn:Hm;
    rewrite (os_mkdir_local w w' Hfs Hcwd p r0 w0 Hm);
    (destruct (os_mkdir_inv _ _ _ _ Hm) as [(k & -> & _)|(e & -> & -> & _)];
     [by intros [= <- <-]|]);
    rewrite (is_dir_local w (set_fs (fs w) w')) by done.
  - destruct e; simpl; try destruct (decide (parent p = p));
      try destruct (is_dir w p); by intros [= <- <-].
  - destruct (decide (e = FileNotFoundError)) as [->|Hne];
      [|destruct e; try done; simpl; try destruct (is_dir w p); by intros [= <- <-]].
    destruct (decide (parent p = p)); [by intros [= <- <-]|].
    unfold bind.
    destruct (mkdir_parents_aux n (parent p) w) as [[[]|e2] w2] eqn:Hrec;
      rewrite (IH w (set_fs (fs w) w') _ _ _ eq_refl Hcwd Hrec);
      [|by intros [= <- <-]].
    intros Hh.
    change (set_fs (fs w2) (set_fs (fs w) w')) with (set_fs (fs w2) w').
    cbv beta iota.
    destruct (mkdir_parents_aux_sound _ _ _ _ _ Hrec) as [(E & _) _].
    assert (Hcwd2 : cwd (set_fs (fs w2) w') = cwd w2) by (rewrite E; exact Hcwd).
    by rewrite (mkdir_here_local w2 (set_fs (fs w2) w') p r w1 eq_refl Hcwd2 Hh).
Qed.

Lemma is_dir_set_cache c w p : is_dir (set_cache c w) p = is_dir w p.
Proof. reflexivity. Qed.

(** C1. With [AJT_USER_FILES_DIR] set to a non-empty string, whatever the
    platform and whatever [AJT_USE_REPO_USER_FILES], the first call expands
    the home shorthand of that value, makes the directory with its missing
    parents and returns it: a call that returns, returns this path, and the
    path is a directory then; when the way to it holds no file the call does
    return, every location on the way is a directory afterwards and nothing
    else in the world has changed but the memo, so neither the platform
    default nor the legacy directory was made or looked for.  Two worlds
    that agree on the override, on [HOME] and the home directories, on the
    file system and the working directory get the same result and the same
    file system, whatever their platforms and the rest of their
    environments. *)
Theorem user_files_dir_override (w : world) (o : string) (p : Path) :
  environ w !! "AJT_USER_FILES_DIR" = Some o -> o <> "" ->
  user_files_dir_cache w = None ->
  expanduser (Path_of_string o) w = Ok p ->
  ((forall hs rest, anchored (Path_of_string o) = false ->
      parts (Path_of_string o) = "~" :: rest ->
      environ w !! "HOME" = Some hs -> hs <> "" -> starts_with_tilde hs = false ->
      p = mkPath (anchored (Path_of_string hs)) (parts (Path_of_string hs) ++ rest)) /\
   (forall h rest, anchored (Path_of_string o) = false ->
      parts (Path_of_string o) = "~" :: rest ->
      environ w !! "HOME" = None -> home_of w !! "~" = Some h ->
      p = mkPath (anchored h) (parts h ++ rest))) /\
  (forall q w', user_files_dir w = (Ok q, w') ->
     q = p /\ is_dir w' p = true /\ user_files_dir_cache w' = Some p /\
     fs w ⊆ fs w') /\
  (Forall (fun c => plain c = true) (parts p) -> creatable w p = true ->
   exists f',
     user_files_dir w = (Ok p, set_cache (Some p) (set_fs f' w)) /\
     (forall k, on_path (start_of w (anchored p)) (parts p) k -> f' !! k = Some Dir) /\
     (forall k, ~ on_path (start_of w (anchored p)) (parts p) k -> f' !! k = fs w !! k)) /\
  (forall w',
     environ w' !! "AJT_USER_FILES_DIR" = Some o ->
     user_files_dir_cache w' = None ->
     environ w' !! "HOME" = environ w !! "HOME" -> home_of w' = home_of w ->
     fs w' = fs w -> cwd w' = cwd w ->
     (user_files_dir w').1 = (user_files_dir w).1 /\
     fs (user_files_dir w').2 = fs (user_files_dir w).2).
Proof.
  intros Ho Hne Hc Hx.
  assert (Hbody : forall v, environ v !! "AJT_USER_FILES_DIR" = Some o ->
                    environ v !! "HOME" = environ w !! "HOME" ->
                    home_of v = home_of w ->
                    user_files_dir_body v = (do _ <- mkdir_parents p; ret p) v).
  { intros v Hv Hhome Hh. unfold user_files_dir_body. rewrite Hv.
    destruct o as [|ch o']; [done|].
    unfold bind at 1, reading.
    assert (E : expanduser (Path_of_string (String ch o')) v = Ok p).
    { rewrite <- Hx. unfold expanduser, homedir. by rewrite Hh, Hhome. }
    by rewrite E. }
  assert (Hlocal : forall w',
     environ w' !! "AJT_USER_FILES_DIR" = Some o ->
     user_files_dir_cache w' = None ->
     environ w' !! "HOME" = environ w !! "HOME" -> home_of w' = home_of w ->
     fs w' = fs w -> cwd w' = cwd w ->
     (user_files_dir w').1 = (user_files_dir w).1 /\
     fs (user_files_dir w').2 = fs (user_files_dir w).2).
  { intros w' Ho' Hc' Hhome' Hh' Hfs Hcwd. unfold user_files_dir.
    rewrite Hc, Hc', (Hbody w Ho eq_refl eq_refl), (Hbody w' Ho' Hhome' Hh').
    unfold bind, ret, mkdir_parents.
    destruct (mkdir_parents_aux (List.length (parts p)) p w) as [r w1] eqn:Hm.
    rewrite (mkdir_parents_aux_local _ w w' p r w1 Hfs Hcwd Hm).
    by destruct r as [[]|e]. }
  specialize (Hbody w Ho eq_refl eq_refl).
  split; [split|split; [|split; [|exact Hlocal]]].
  - intros hs rest Ha Hp Hh Hhs Ht. unfold expanduser, homedir in Hx.
    rewrite Ha, Hp in Hx. simpl in Hx. rewrite Hh in Hx.
    unfold home_from_env in Hx. rewrite Ht in Hx.
    destruct hs; [done|]. simpl in Hx. by injection Hx as <-.
  - intros h rest Ha Hp Hnone Hh. unfold expanduser, homedir in Hx.
    rewrite Ha, Hp in Hx. simpl in Hx. rewrite Hnone, Hh in Hx.
    by injection Hx as <-.
  - intros q w'. unfold user_files_dir. rewrite Hc, Hbody. unfold bind, ret.
    destruct (mkdir_parents p w) as [[[]|e] w1] eqn:Hm; [|discriminate].
    intros [= <- <-]. destruct (mkdir_parents_sound _ _ _ _ Hm) as [(_ & Hsub & _) Hd].
    split; [done|]. split; [by apply Hd|]. split; done.
  - intros Hp Hcr. destruct p as [anch cs].
    destruct (mkdir_parents_plain anch cs Hp w Hcr) as (f' & Hm & Hon & Hoff).
    exists f'. split; [|split; done].
    unfold user_files_dir. rewrite Hc, Hbody. unfold bind, ret, mkdir_parents.
    simpl. by rewrite Hm.
Qed.

Lemma user_files_dir_override_witness :
  let w := example_world (<["AJT_USE_REPO_USER_FILES" := "1"]>
                            (<["AJT_USER_FILES_DIR" := "~/data/ajt"]> ∅)) "darwin" in
  let p := mkPath true ["home"; "u"; "data"; "ajt"] in
  exists w', user_files_dir w = (Ok p, w') /\ is_dir w' p = true.
Proof.
  intros w p.
  destruct (user_files_dir_override w "~/data/ajt" p eq_refl ltac:(discriminate)
              eq_refl eq_refl) as (_ & Hsound & Hdone & _).
  destruct Hdone as (f' & Hu & _).
  - vm_compute. repeat constructor.
  - reflexivity.
  - eexists. split; [exact Hu|]. by apply (Hsound _ _ Hu).
Defined.

(** C2. [user_files_dir()] is memoized: once a call has returned a path,
    the memo holds it, and every call in a world whose memo holds it returns
    this path and leaves the world as it is, so nothing is computed again;
    this stays so over any number of later calls, whatever happens to the
    environment, the file system and the platform between them. *)
Theorem user_files_dir_memoized (w w1 : world) (p : Path) :
  user_files_dir w = (Ok p, w1) ->
  user_files_dir_cache w1 = Some p /\
  (forall w2, user_files_dir_cache w2 = Some p -> user_files_dir w2 = (Ok p, w2)) /\
  (forall changes, Forall keeps_memo changes ->
     Forall (fun r => r = Ok p) (later_calls changes w1)).
Proof.
  intros Hcall.
  assert (Hhit : forall w2, user_files_dir_cache w2 = Some p ->
                            user_files_dir w2 = (Ok p, w2)).
  { intros w2 H2. unfold user_files_dir. by rewrite H2. }
  assert (Hmemo : user_files_dir_cache w1 = Some p).
  { unfold user_files_dir in Hcall. destruct (user_files_dir_cache w) as [q|] eqn:Hq.
    - by injection Hcall as -> <-.
    - destruct (user_files_dir_body w) as [[q|e] w'] eqn:Hb; [|discriminate].
      by injection Hcall as -> <-. }
  split; [done|]. split; [done|].
  intros changes. clear Hcall. revert w1 Hmemo.
  induction changes as [|g rest IH]; intros w1 Hmemo Hk; simpl; [constructor|].
  inversion Hk as [|? ? Hg Hrest]; subst.
  rewrite (Hhit (g w1)) by (by rewrite Hg).
  constructor; [done|]. apply IH; [by rewrite Hg|done].
Qed.

Lemma user_files_dir_memoized_witness :
  let w := example_world (<["AJT_USER_FILES_DIR" := "/tmp/custom"]> ∅) "linux" in
  let p := mkPath true ["tmp"; "custom"] in
  later_calls [set_environ (<["AJT_USER_FILES_DIR" := "/tmp/other"]> ∅);
               set_fs ∅] (user_files_dir w).2
  = [Ok p; Ok p].
Proof.
  intros w p.
  destruct (user_files_dir_memoized w (user_files_dir w).2 p eq_refl) as (_ & _ & H).
  specialize (H [set_environ (<["AJT_USER_FILES_DIR" := "/tmp/other"]> ∅); set_fs ∅]).
  assert (Hk : Forall keeps_memo
                 [set_environ (<["AJT_USER_FILES_DIR" := "/tmp/other"]> ∅); set_fs ∅]).
  { repeat constructor. }
  specialize (H Hk). clear Hk.
  destruct (later_calls _ _) as [|r1 [|r2 [|r3 l]]] eqn:E;
    try (vm_compute in E; discriminate).
  inversion H as [|? ? H1 H']; subst. inversion H' as [|? ? H2 _]; subst. reflexivity.
Defined.

Section FirstHit.
Context (test : Path -> bool) (candidate : Path -> Path).

Lemma first_hit_Some l r :
  first_hit test candidate l = Some r <-> nearest_hit test candidate l r.
Proof.
  unfold nearest_hit. induction l as [|x l IH]; simpl.
  - split; [discriminate|]. by intros (i & a & H & _).
  - destruct (test (candidate x)) eqn:Hx.
    + split.
      * intros [= <-]. exists O, x. repeat split; auto. intros j b Hj. lia.
      * intros ([|i] & a & Ha & -> & Ht & Hmin).
        -- simpl in Ha. by injection Ha as ->.
        -- specialize (Hmin O x ltac:(lia) eq_refl). congruence.
    + rewrite IH. split.
      * intros (i & a & Ha & -> & Ht & Hmin). exists (S i), a.
        repeat split; auto. intros [|j] b Hj Hb.
        -- simpl in Hb. by injection Hb as <-.
        -- apply (Hmin j); [lia|done].
      * intros ([|i] & a & Ha & -> & Ht & Hmin).
        -- simpl in Ha. injection Ha as ->. congruence.
        -- exists i, a. repeat split; auto. intros j b Hj Hb.
           apply (Hmin (S j)); [lia|done].
Qed.

Lemma first_hit_None l :
  first_hit test candidate l = None <->
  forall a, a ∈ l -> test (candidate a) = false.
Proof.
  induction l as [|x l IH]; simpl.
  - split; [|done]. intros _ a Ha. by apply elem_of_nil in Ha.
  - destruct (test (candidate x)) eqn:Hx.
    + split; [discriminate|]. intros H. specialize (H x ltac:(left)). congruence.
    + rewrite IH. split.
      * intros H a Ha. apply elem_of_cons in Ha as [->|Ha]; auto.
      * intros H a Ha. apply H. by right.
Qed.
End FirstHit.

(** From a file whose path has plain components, the generator yields the
    chain of its parents down to the one without components, and ends. *)
Lemma walk_parents_file w F :
  is_file w F = true -> Forall (fun c => plain c = true) (parts F) ->
  walk_parents w F = (ancestors F, StopIteration).
Proof.
  intros Hf Hp. unfold is_file in Hf.
  destruct (stat w F) as [[|c m a]|] eqn:Hst; try discriminate.
  destruct (stat_resolve _ _ _ Hst) as (k & Hr & _).
  unfold walk_parents, is_dir. by rewrite Hst, (walk_loop_plain w F k Hp Hr).
Qed.

(** C10. Where the module's file exists, [find_file_in_parents(file_name)]
    tries the directories above it nearest first and returns the first join
    with [file_name] that is a regular file; when no directory above has
    such a file it raises [RuntimeError]; it returns nothing else and changes
    nothing, so what it returns names an existing file. *)
Theorem find_file_in_parents_spec (w : world) (file_name : string) :
  let F := Path_of_string (module_file w) in
  is_file w F = true -> Forall (fun c => plain c = true) (parts F) ->
  (forall r, (find_file_in_parents file_name w).1 = Ok r <->
     nearest_hit (is_file w) (fun a => a // file_name) (ancestors F) r) /\
  ((forall a, a ∈ ancestors F -> is_file w (a // file_name) = false) <->
   (find_file_in_parents file_name w).1 =
     Raise (RuntimeError (String.append "couldn't find file '"
                                        (String.append file_name "'")))) /\
  (forall e, (find_file_in_parents file_name w).1 = Raise e ->
     e = RuntimeError (String.append "couldn't find file '"
                                     (String.append file_name "'"))) /\
  (forall r, (find_file_in_parents file_name w).1 = Ok r -> is_file w r = true) /\
  (find_file_in_parents file_name w).2 = w.
Proof.
  intros F Hf Hp. unfold find_file_in_parents. fold F.
  rewrite (walk_parents_file w F Hf Hp).
  pose proof (first_hit_Some (is_file w) (fun a => a // file_name) (ancestors F)) as HS.
  pose proof (first_hit_None (is_file w) (fun a => a // file_name) (ancestors F)) as HN.
  destruct (first_hit _ _ _) as [r0|]; simpl.
  - split; [|split; [|split; [|split]]]; try done.
    + intros r. rewrite <- HS. split; congruence.
    + rewrite <- HN. split; discriminate.
    + intros r [= <-]. destruct (proj1 (HS r0) eq_refl) as (_ & _ & _ & _ & Ht & _).
      exact Ht.
  - split; [|split; [|split; [|split]]]; try done.
    + intros r. rewrite <- HS. split; discriminate.
    + rewrite <- HN. done.
    + by intros e [= <-].
Qed.

Lemma find_file_in_parents_spec_witness :
  let w := example_world ∅ "linux" in
  (find_file_in_parents "config.json" w).1 =
    Ok (mkPath true ["opt"; "addons"; "japanese"; "config.json"]) /\
  (find_file_in_parents "missing.json" w).1 =
    Raise (RuntimeError "couldn't find file 'missing.json'").
Proof.
  intros w.
  assert (Hp : Forall (fun c => plain c = true) (parts (Path_of_string (module_file w))))
    by (vm_compute; repeat constructor).
  assert (Hf : is_file w (Path_of_string (module_file w)) = true)
    by (vm_compute; reflexivity).
  assert (Ha : ancestors (Path_of_string (module_file w)) =
               [mkPath true ["opt"; "addons"; "japanese"; "helpers"];
                mkPath true ["opt"; "addons"; "japanese"];
                mkPath true ["opt"; "addons"];
                mkPath true ["opt"];
                mkPath true []])
    by (vm_compute; reflexivity).
  split.
  - apply (proj1 (find_file_in_parents_spec w "config.json" Hf Hp)).
    rewrite Ha.
    exists 1%nat, (mkPath true ["opt"; "addons"; "japanese"]).
    split; [reflexivity|]. split; [vm_compute; reflexivity|].
    split; [vm_compute; reflexivity|].
    intros [|j] b Hj; [intros [= <-]; vm_compute; reflexivity|lia].
  - apply (proj1 (proj2 (find_file_in_parents_spec w "missing.json" Hf Hp))).
    rewrite Ha. intros a Hin.
    repeat (apply elem_of_cons in Hin as [->|Hin]; [vm_compute; reflexivity|]).
    by apply elem_of_nil in Hin.
Defined.

(** *** The three ways of [open_file] *)

Lemma open_file_terminal w path t fm :
  environ w !! "TERMINAL" = Some t -> t <> "" ->
  file_manager w = Some fm -> fm <> "" ->
  open_file path w = subprocess_Popen [t; "-e"; fm; path] false true w.
Proof.
  unfold open_file, file_manager, find_executable, or_else.
  intros -> Ht. destruct t as [|ct t']; [done|]. cbn [truthy_opt truthy].
  destruct (environ w !! "FILE") as [[|cf f']|];
    destruct (executables w !! "lf") as [[|cl l']|];
    cbn [truthy_opt truthy]; intros [= <-] Hfm; done.
Qed.

Lemma open_file_otherwise w path :
  terminal_strategy w = false ->
  open_file path w =
  match find_executable "xdg-open" w with
  | Some (String _ _ as opener) =>
      subprocess_Popen [opener; String.append "file://" path] false true w
  | _ => (Ok tt, add_log (OpenUrl path false) w)
  end.
Proof.
  assert (Hrest : set_bundled_libs (bundled_libs w)
                    (add_log (OpenUrl path false) (set_bundled_libs false w))
                  = add_log (OpenUrl path false) w) by reflexivity.
  unfold open_file, terminal_strategy, file_manager, find_executable, or_else,
    no_bundled_libs, openUrl_fromLocalFile.
  destruct (environ w !! "TERMINAL") as [[|ct t']|];
    destruct (environ w !! "FILE") as [[|cf f']|];
    destruct (executables w !! "lf") as [[|cl l']|];
    destruct (executables w !! "xdg-open") as [[|cx x']|];
    cbn [truthy_opt truthy andb]; rewrite ?Hrest; done.
Qed.

Lemma subprocess_Popen_launch prog rest w :
  (execute_child w prog = Ok tt ->
   subprocess_Popen (prog :: rest) false true w
   = (Ok tt, add_log (Popen (prog :: rest) false true) w)) /\
  (forall e, execute_child w prog = Raise e ->
   subprocess_Popen (prog :: rest) false true w = (Raise e, w)).
Proof. unfold subprocess_Popen. split; [by intros ->|by intros e ->]. Qed.

(** C9, as stated, fails: with [TERMINAL] set to a program that is not
    there and a file manager at hand, the first way is taken, the launch
    raises [FileNotFoundError], nothing is launched and [xdg-open], though
    discovered and there, is not tried: the call does not return. *)
Lemma open_file_terminal_missing :
  let w := World (<["TERMINAL" := "xterm"]> (<["FILE" := "lf"]> ∅))
                 example_bin_fs [] 0 "linux" ∅ "" ""
                 (<["xdg-open" := "/usr/bin/xdg-open"]> ∅) true None [] in
  terminal_strategy w = true /\
  execute_child w "/usr/bin/xdg-open" = Ok tt /\
  open_file "/tmp/a" w = (Raise FileNotFoundError, w) /\
  ~ (exists w', open_file "/tmp/a" w = (Ok tt, w')).
Proof.
  intros w.
  assert (H : open_file "/tmp/a" w = (Raise FileNotFoundError, w))
    by (vm_compute; reflexivity).
  split; [reflexivity|]. split; [vm_compute; reflexivity|]. split; [exact H|].
  intros [w' Hw]. rewrite H in Hw. discriminate.
Qed.

(** C9 (amended). [open_file(path)] takes exactly one of three ways, the
    first that is available, and tries no other: with [TERMINAL] set and
    not empty and a file manager at hand, it launches the terminal on the
    file manager and the path; else, with [xdg-open] discovered, it
    launches it on [file://] followed by the path; else it asks the host to
    open the path while the search path of the bundled libraries is
    suspended.  A launch is without a shell and in a session of its own.
    When the program of the launch can be executed the call returns [None]
    and one launch, and nothing else, has been added to what was launched;
    when it cannot, the error of the execution is raised and nothing was
    launched.  Environment, file system and the search path of the bundled
    libraries are afterwards what they were. *)
Theorem open_file_spec (w : world) (path : string) :
  (forall t fm,
     environ w !! "TERMINAL" = Some t -> t <> "" ->
     file_manager w = Some fm -> fm <> "" ->
     (execute_child w t = Ok tt ->
      (open_file path w).1 = Ok tt /\
      log (open_file path w).2 = log w ++ [Popen [t; "-e"; fm; path] false true]) /\
     (forall e, execute_child w t = Raise e ->
      open_file path w = (Raise e, w))) /\
  (forall opener,
     terminal_strategy w = false ->
     find_executable "xdg-open" w = Some opener -> opener <> "" ->
     (execute_child w opener = Ok tt ->
      (open_file path w).1 = Ok tt /\
      log (open_file path w).2 =
        log w ++ [Popen [opener; String.append "file://" path] false true]) /\
     (forall e, execute_child w opener = Raise e ->
      open_file path w = (Raise e, w))) /\
  (terminal_strategy w = false ->
   truthy_opt (find_executable "xdg-open" w) = false ->
   (open_file path w).1 = Ok tt /\
   log (open_file path w).2 = log w ++ [OpenUrl path false]) /\
  (((open_file path w).1 = Ok tt /\
    exists e, log (open_file path w).2 = log w ++ [e]) \/
   (exists e, open_file path w = (Raise e, w))) /\
  (environ (open_file path w).2 = environ w /\
   fs (open_file path w).2 = fs w /\
   cwd (open_file path w).2 = cwd w /\
   bundled_libs (open_file path w).2 = bundled_libs w /\
   user_files_dir_cache (open_file path w).2 = user_files_dir_cache w).
Proof.
  assert (Hpopen : forall prog rest,
    open_file path w = subprocess_Popen (prog :: rest) false true w ->
    (execute_child w prog = Ok tt ->
     (open_file path w).1 = Ok tt /\
     log (open_file path w).2 = log w ++ [Popen (prog :: rest) false true]) /\
    (forall e, execute_child w prog = Raise e -> open_file path w = (Raise e, w)) /\
    (((open_file path w).1 = Ok tt /\
      exists e, log (open_file path w).2 = log w ++ [e]) \/
     (exists e, open_file path w = (Raise e, w))) /\
    (environ (open_file path w).2 = environ w /\
     fs (open_file path w).2 = fs w /\
     cwd (open_file path w).2 = cwd w /\
     bundled_libs (open_file path w).2 = bundled_libs w /\
     user_files_dir_cache (open_file path w).2 = user_files_dir_cache w)).
  { intros prog rest ->.
    destruct (subprocess_Popen_launch prog rest w) as [Hok Hraise].
    destruct (execute_child w prog) as [[]|e0].
    - rewrite (Hok eq_refl). split; [done|]. split; [done|].
      split; [left; split; [done|]; by eexists|done].
    - rewrite (Hraise e0 eq_refl). split; [done|]. split; [by intros e [= <-]|].
      split; [right; by eexists|done]. }
  assert (Hhost : terminal_strategy w = false ->
    truthy_opt (find_executable "xdg-open" w) = false ->
    open_file path w = (Ok tt, add_log (OpenUrl path false) w)).
  { intros Hts Hx. rewrite (open_file_otherwise _ _ Hts).
    by destruct (find_executable "xdg-open" w) as [[|c o]|]. }
  assert (Hxdg : forall opener, terminal_strategy w = false ->
    find_executable "xdg-open" w = Some opener -> opener <> "" ->
    open_file path w =
      subprocess_Popen [opener; String.append "file://" path] false true w).
  { intros opener Hts Hx Hne. rewrite (open_file_otherwise _ _ Hts), Hx.
    by destruct opener. }
  split; [|split; [|split; [|split]]].
  - intros t fm Ht Htne Hfm Hfne.
    destruct (Hpopen _ _ (open_file_terminal w path t fm Ht Htne Hfm Hfne))
      as (H1 & H2 & _). by split.
  - intros opener Hts Hx Hne.
    destruct (Hpopen _ _ (Hxdg opener Hts Hx Hne)) as (H1 & H2 & _). by split.
  - intros Hts Hx. by rewrite (Hhost Hts Hx).
  - destruct (terminal_strategy w) eqn:Hts.
    + unfold terminal_strategy in Hts. apply andb_prop in Hts as [Ht Hfm].
      destruct (environ w !! "TERMINAL") as [t|] eqn:Et; [|done].
      destruct (file_manager w) as [fm|] eqn:Efm; [|done].
      assert (Htne : t <> "") by (by destruct t).
      assert (Hfne : fm <> "") by (by destruct fm).
      by destruct (Hpopen _ _ (open_file_terminal w path t fm Et Htne Efm Hfne))
        as (_ & _ & H3 & _).
    + destruct (find_executable "xdg-open" w) as [[|c o]|] eqn:Ex.
      * rewrite (Hhost eq_refl); [|first [done | by rewrite Ex]].
        left. split; [done|]. by eexists.
      * by destruct (Hpopen _ _ (Hxdg _ eq_refl ltac:(first [exact Ex | reflexivity]) ltac:(done))) as (_ & _ & H3 & _).
      * rewrite (Hhost eq_refl); [|first [done | by rewrite Ex]].
        left. split; [done|]. by eexists.
  - destruct (terminal_strategy w) eqn:Hts.
    + unfold terminal_strategy in Hts. apply andb_prop in Hts as [Ht Hfm].
      destruct (environ w !! "TERMINAL") as [t|] eqn:Et; [|done].
      destruct (file_manager w) as [fm|] eqn:Efm; [|done].
      assert (Htne : t <> "") by (by destruct t).
      assert (Hfne : fm <> "") by (by destruct fm).
      by destruct (Hpopen _ _ (open_file_terminal w path t fm Et Htne Efm Hfne))
        as (_ & _ & _ & H4).
    + destruct (find_executable "xdg-open" w) as [[|c o]|] eqn:Ex.
      * by rewrite (Hhost eq_refl); [|first [done | by rewrite Ex]].
      * by destruct (Hpopen _ _ (Hxdg _ eq_refl ltac:(first [exact Ex | reflexivity]) ltac:(done))) as (_ & _ & _ & H4).
      * by rewrite (Hhost eq_refl); [|first [done | by rewrite Ex]].
Qed.

Lemma open_file_spec_witness :
  let w := example_world (<["TERMINAL" := "st"]> (<["FILE" := ""]> ∅)) "linux" in
  let v := World (<["TERMINAL" := "st"]> ∅) example_bin_fs [] 0 "linux" ∅ "" ""
                 (<["lf" := "/usr/bin/lf"]> (<["xdg-open" := "/usr/bin/xdg-open"]> ∅))
                 true None [] in
  let u := World ∅ example_bin_fs [] 0 "linux" ∅ "" ""
                 (<["xdg-open" := "/usr/bin/xdg-open"]> ∅) true None [] in
  let z := World ∅ example_fs [] 0 "linux" ∅ "" ""
                 (<["xdg-open" := "/usr/bin/xdg-open"]> ∅) true None [] in
  log (open_file "/tmp/a" w).2 = [OpenUrl "/tmp/a" false] /\
  log (open_file "/tmp/a" v).2 =
    [Popen ["st"; "-e"; "/usr/bin/lf"; "/tmp/a"] false true] /\
  log (open_file "/tmp/a" u).2 =
    [Popen ["/usr/bin/xdg-open"; "file:///tmp/a"] false true] /\
  open_file "/tmp/a" z = (Raise FileNotFoundError, z).
Proof.
  intros w v u z. split; [|split; [|split]].
  - apply (proj1 (proj2 (proj2 (open_file_spec w "/tmp/a")))); vm_compute; reflexivity.
  - apply (proj1 (proj1 (open_file_spec v "/tmp/a") "st" "/usr/bin/lf"
                    eq_refl ltac:(discriminate) eq_refl ltac:(discriminate))).
    vm_compute; reflexivity.
  - apply (proj1 (proj1 (proj2 (open_file_spec u "/tmp/a")) "/usr/bin/xdg-open"
                    eq_refl eq_refl ltac:(discriminate))).
    vm_compute; reflexivity.
  - apply (proj2 (proj1 (proj2 (open_file_spec z "/tmp/a")) "/usr/bin/xdg-open"
                    eq_refl eq_refl ltac:(discriminate))).
    vm_compute; reflexivity.
Defined.

Section PlatformDefault.
Context (w : world) (d : Path).
Hypothesis Hoverride : truthy_opt (environ w !! "AJT_USER_FILES_DIR") = false.
Hypothesis Hhome : _platform_data_home (THIS_ADDON_MODULE w) w = Ok d.

(** Without an override the body makes the platform default and then looks
    at the legacy switch. *)
Lemma user_files_dir_body_default :
  user_files_dir_body w =
  match mkdir_parents d w with
  | (Ok _, w1) =>
      if bool_decide (environ w1 !! "AJT_USE_REPO_USER_FILES" = Some "1")
      then
        let '(l, e) := walk_parents w1 (Path_of_string (module_file w1)) in
        match first_hit (is_dir w1)
                (fun parent_dir => parent_dir // "user_files") l with
        | Some legacy => (Ok legacy, w1)
        | None =>
            match e with
            | StopIteration => (Ok d, w1)
            | Raised x => (Raise x, w1)
            end
        end
      else (Ok d, w1)
  | (Raise e, w1) => (Raise e, w1)
  end.
Proof.
  unfold user_files_dir_body.
  assert (E : match environ w !! "AJT_USER_FILES_DIR" with
              | Some (String _ _) => False | _ => True end).
  { destruct (environ w !! "AJT_USER_FILES_DIR") as [[|]|]; done. }
  destruct (environ w !! "AJT_USER_FILES_DIR") as [[|]|]; try done;
    unfold bind at 1, reading; rewrite Hhome; unfold bind;
    destruct (mkdir_parents d w) as [[[]|e] w1]; reflexivity.
Qed.

Lemma user_files_dir_default_plain :
  user_files_dir_cache w = None ->
  Forall (fun c => plain c = true) (parts d) -> creatable w d = true ->
  exists f',
    mkdir_parents d w = (Ok tt, set_fs f' w) /\
    grows w (set_fs f' w) /\
    is_dir (set_fs f' w) d = true /\
    (forall k, on_path (start_of w (anchored d)) (parts d) k -> f' !! k = Some Dir) /\
    (forall k, ~ on_path (start_of w (anchored d)) (parts d) k -> f' !! k = fs w !! k).
Proof.
  intros Hc Hp Hcr. clear Hhome. destruct d as [anch cs].
  destruct (mkdir_parents_plain anch cs Hp w Hcr) as (f' & Hm & Hon & Hoff).
  exists f'. destruct (mkdir_parents_sound _ _ _ _ Hm) as [Hg Hd].
  split; [exact Hm|]. split; [done|]. split; [by apply Hd|]. done.
Qed.
End PlatformDefault.

(** C3. With no override and [AJT_USE_REPO_USER_FILES] set to ["1"], the
    first call makes the platform default with its missing parents, then
    goes through the directories above the module's file, nearest first, and
    returns the first [user_files] below one of them that is a directory;
    the platform default stays on disk all the same.  When no directory
    above the module has a [user_files] directory, the platform default is
    returned. *)
Theorem user_files_dir_legacy (w : world) (d : Path) :
  let F := Path_of_string (module_file w) in
  truthy_opt (environ w !! "AJT_USER_FILES_DIR") = false ->
  environ w !! "AJT_USE_REPO_USER_FILES" = Some "1" ->
  user_files_dir_cache w = None ->
  _platform_data_home (THIS_ADDON_MODULE w) w = Ok d ->
  Forall (fun c => plain c = true) (parts d) -> creatable w d = true ->
  is_file w F = true -> Forall (fun c => plain c = true) (parts F) ->
  exists f' r,
    let w1 := set_fs f' w in
    user_files_dir w = (Ok r, set_cache (Some r) w1) /\
    mkdir_parents d w = (Ok tt, w1) /\
    is_dir w1 d = true /\
    (forall k, on_path (start_of w (anchored d)) (parts d) k -> f' !! k = Some Dir) /\
    (forall k, ~ on_path (start_of w (anchored d)) (parts d) k -> f' !! k = fs w !! k) /\
    (nearest_hit (is_dir w1) (fun a => a // "user_files") (ancestors F) r \/
     (r = d /\ forall a, a ∈ ancestors F -> is_dir w1 (a // "user_files") = false)).
Proof.
  intros F Ho Hl Hc Hh Hp Hcr Hf HpF.
  destruct (user_files_dir_default_plain w d Hc Hp Hcr) as (f' & Hm & Hg & Hd & Hon & Hoff).
  assert (Hf1 : is_file (set_fs f' w) F = true).
  { unfold is_file in *. destruct (stat w F) as [[|c m a]|] eqn:Hst; try discriminate.
    by rewrite (stat_mono _ _ _ _ Hg Hst). }
  pose proof (walk_parents_file _ _ Hf1 HpF) as Hw.
  pose proof (first_hit_Some (is_dir (set_fs f' w)) (fun a => a // "user_files")
                (ancestors F)) as HS.
  pose proof (first_hit_None (is_dir (set_fs f' w)) (fun a => a // "user_files")
                (ancestors F)) as HN.
  assert (Hbody : user_files_dir_body w =
    match first_hit (is_dir (set_fs f' w)) (fun a => a // "user_files") (ancestors F) with
    | Some legacy => (Ok legacy, set_fs f' w)
    | None => (Ok d, set_fs f' w)
    end).
  { rewrite (user_files_dir_body_default w d Ho Hh), Hm.
    change (environ (set_fs f' w)) with (environ w). rewrite Hl.
    rewrite bool_decide_eq_true_2 by done.
    change (module_file (set_fs f' w)) with (module_file w). fold F. by rewrite Hw. }
  unfold user_files_dir. rewrite Hc, Hbody.
  destruct (first_hit _ _ _) as [legacy|].
  - exists f', legacy. simpl. repeat (split; [done|]). left. by apply HS.
  - exists f', d. simpl. repeat (split; [done|]). right. split; [done|]. by apply HN.
Qed.

Lemma user_files_dir_legacy_witness :
  let w := example_world (<["AJT_USE_REPO_USER_FILES" := "1"]>
                            (<["XDG_DATA_HOME" := "/tmp/xdg"]> ∅)) "linux" in
  exists w',
    user_files_dir w = (Ok (mkPath true ["opt"; "addons"; "user_files"]), w') /\
    is_dir w' (mkPath true ["tmp"; "xdg"; "anki-addons"; "japanese"]) = true.
Proof.
  intros w.
  destruct (user_files_dir_legacy w (mkPath true ["tmp"; "xdg"; "anki-addons"; "japanese"]))
    as (f' & r & Hu & _ & Hd & _ & _ & Hr).
  - reflexivity.
  - reflexivity.
  - reflexivity.
  - vm_compute; reflexivity.
  - vm_compute; repeat constructor.
  - vm_compute; reflexivity.
  - vm_compute; reflexivity.
  - vm_compute; repeat constructor.
  - exists (set_cache (Some r) (set_fs f' w)). split; [|exact Hd].
    rewrite Hu. f_equal. f_equal.
    assert (E : (user_files_dir w).1 = Ok (mkPath true ["opt"; "addons"; "user_files"]))
      by (vm_compute; reflexivity).
    rewrite Hu in E. simpl in E. congruence.
Defined.

Lemma platform_data_home_linux w app base :
  String.prefix "linux" (sys_platform w) = true ->
  (first_nonempty (xdg_candidates w) = Some base \/
   (first_nonempty (xdg_candidates w) = None /\
    exists h, Path_home w = Ok h /\ base = Path_str (h // ".local" // "share"))) ->
  _platform_data_home app w = Ok (Path_of_string base // "anki-addons" // app).
Proof.
  intros Hl Hb. unfold _platform_data_home. rewrite Hl.
  unfold xdg_candidates in Hb. simpl in Hb.
  destruct (environ w !! "XDG_STATE_HOME") as [[|c1 s1]|];
    destruct (environ w !! "XDG_DATA_HOME") as [[|c2 s2]|];
    destruct Hb as [Hb|(Hb & h & Hh & ->)]; simplify_eq; try done;
    by rewrite Hh.
Qed.

(** C4, as stated, fails: with [XDG_STATE_HOME] set to the empty string the
    first value that is set is the empty string, yet the base is taken from
    [XDG_DATA_HOME]. *)
Lemma user_files_dir_empty_state_home :
  let w := example_world (<["XDG_STATE_HOME" := ""]>
                            (<["XDG_DATA_HOME" := "/tmp/xdg"]> ∅)) "linux" in
  first_set (xdg_candidates w) = Some "" /\
  (user_files_dir w).1 = Ok (mkPath true ["tmp"; "xdg"; "anki-addons"; "japanese"]) /\
  (user_files_dir w).1 <>
    Ok (Path_of_string "" // "anki-addons" // THIS_ADDON_MODULE w).
Proof.
  intros w.
  assert (H : (user_files_dir w).1 =
              Ok (mkPath true ["tmp"; "xdg"; "anki-addons"; "japanese"]))
    by (vm_compute; reflexivity).
  split; [vm_compute; reflexivity|]. split; [exact H|].
  rewrite H. vm_compute. discriminate.
Qed.

(** C4 (amended). On Linux, with no override and [AJT_USE_REPO_USER_FILES]
    other than ["1"], the first call returns the base directory joined with
    [anki-addons] and the add-on's name, the base being the first value that
    is set and not empty among [XDG_STATE_HOME] and [XDG_DATA_HOME], and
    [~/.local/share] when there is none; a call that returns, returns this
    path and it is a directory then; when the way to it holds no file the
    call does return and has made the directory with its missing parents. *)
Theorem user_files_dir_linux (w : world) (base : string) (d : Path) :
  String.prefix "linux" (sys_platform w) = true ->
  truthy_opt (environ w !! "AJT_USER_FILES_DIR") = false ->
  environ w !! "AJT_USE_REPO_USER_FILES" <> Some "1" ->
  user_files_dir_cache w = None ->
  (first_nonempty (xdg_candidates w) = Some base \/
   (first_nonempty (xdg_candidates w) = None /\
    exists h, Path_home w = Ok h /\ base = Path_str (h // ".local" // "share"))) ->
  d = Path_of_string base // "anki-addons" // THIS_ADDON_MODULE w ->
  (forall q w', user_files_dir w = (Ok q, w') ->
     q = d /\ is_dir w' d = true /\ fs w ⊆ fs w') /\
  (Forall (fun c => plain c = true) (parts d) -> creatable w d = true ->
   exists f',
     user_files_dir w = (Ok d, set_cache (Some d) (set_fs f' w)) /\
     is_dir (set_fs f' w) d = true /\
     (forall k, on_path (start_of w (anchored d)) (parts d) k -> f' !! k = Some Dir) /\
     (forall k, ~ on_path (start_of w (anchored d)) (parts d) k -> f' !! k = fs w !! k)).
Proof.
  intros Hl Ho Hleg Hc Hb ->.
  set (d := Path_of_string base // "anki-addons" // THIS_ADDON_MODULE w).
  pose proof (platform_data_home_linux w (THIS_ADDON_MODULE w) base Hl Hb) as Hh.
  fold d in Hh.
  assert (Hbody : user_files_dir_body w =
    match mkdir_parents d w with
    | (Ok _, w1) => (Ok d, w1)
    | (Raise e, w1) => (Raise e, w1)
    end).
  { rewrite (user_files_dir_body_default w d Ho Hh).
    destruct (mkdir_parents d w) as [[[]|e] w1] eqn:Hm; [|done].
    destruct (mkdir_parents_sound _ _ _ _ Hm) as [(E & _) _].
    assert (He : environ w1 = environ w) by (by rewrite E).
    rewrite He. by rewrite bool_decide_eq_false_2. }
  split.
  - intros q w'. unfold user_files_dir. rewrite Hc, Hbody.
    destruct (mkdir_parents d w) as [[[]|e] w1] eqn:Hm; [|discriminate].
    intros [= <- <-]. destruct (mkdir_parents_sound _ _ _ _ Hm) as [(_ & Hsub & _) Hd].
    split; [done|]. split; [by apply Hd|done].
  - intros Hp Hcr.
    destruct (user_files_dir_default_plain w d Hc Hp Hcr) as (f' & Hm & _ & Hd & Hon & Hoff).
    exists f'. split; [|done].
    unfold user_files_dir. by rewrite Hc, Hbody, Hm.
Qed.

Lemma user_files_dir_linux_witness :
  let w := example_world (<["XDG_DATA_HOME" := "/tmp/xdg"]> ∅) "linux" in
  let v := example_world ∅ "linux2" in
  (exists w', user_files_dir w =
                (Ok (mkPath true ["tmp"; "xdg"; "anki-addons"; "japanese"]), w') /\
              is_dir w' (mkPath true ["tmp"; "xdg"; "anki-addons"; "japanese"]) = true) /\
  (exists v', user_files_dir v =
                (Ok (mkPath true ["home"; "u"; ".local"; "share"; "anki-addons"; "japanese"]),
                 v')).
Proof.
  intros w v. split.
  - destruct (user_files_dir_linux w "/tmp/xdg"
                (mkPath true ["tmp"; "xdg"; "anki-addons"; "japanese"]))
      as (_ & Hdone).
    + reflexivity.
    + reflexivity.
    + discriminate.
    + reflexivity.
    + left. vm_compute; reflexivity.
    + vm_compute; reflexivity.
    + destruct Hdone as (f' & Hu & Hd & _).
      * vm_compute; repeat constructor.
      * vm_compute; reflexivity.
      * eexists. split; [exact Hu|exact Hd].
  - destruct (user_files_dir_linux v "/home/u/.local/share"
                (mkPath true ["home"; "u"; ".local"; "share"; "anki-addons"; "japanese"]))
      as (_ & Hdone).
    + reflexivity.
    + reflexivity.
    + discriminate.
    + reflexivity.
    + right. split; [vm_compute; reflexivity|].
      exists (mkPath true ["home"; "u"]). split; vm_compute; reflexivity.
    + vm_compute; reflexivity.
    + destruct Hdone as (f' & Hu & _).
      * vm_compute; repeat constructor.
      * vm_compute; reflexivity.
      * eexists. exact Hu.
Defined.

(** ** The bounds of the recursions are never hit *)

Lemma namei_raise_OSError f start cs e :
  namei f start cs = Raise e -> e = FileNotFoundError \/ e = NotADirectoryError.
Proof.
  revert start. induction cs as [|c cs IH]; intros start; simpl; [discriminate|].
  destruct (f !! start) as [[|]|]; [apply IH| |]; intros [= <-]; auto.
Qed.

Lemma resolve_raise_OSError w p e :
  resolve w p = Raise e -> e = FileNotFoundError \/ e = NotADirectoryError.
Proof.
  unfold resolve, resolve_in.
  destruct (namei _ _ _) as [k|e'] eqn:Hn.
  - destruct (fs w !! k); [discriminate|]. intros [= <-]. auto.
  - intros [= <-]. by apply namei_raise_OSError in Hn.
Qed.

Lemma parent_length p :
  List.length (parts (parent p)) = Nat.pred (List.length (parts p)).
Proof.
  destruct p as [anch ps]. destruct ps as [|c cs _] using rev_ind; [done|].
  rewrite parent_snoc. simpl. rewrite length_app. simpl. lia.
Qed.

Lemma walk_loop_total n w p :
  (List.length (parts p) <= n)%nat -> (walk_loop n w p).2 <> Raised OutOfFuel.
Proof.
  revert p. induction n as [|n IH]; intros p Hn; simpl; unfold samefile;
    destruct (resolve w p) as [k|e] eqn:Hr;
    try (simpl; intros [= ->]; by destruct (resolve_raise_OSError _ _ _ Hr)).
  - assert (Hp : parent p = p) by (apply parent_fixed; destruct (parts p); [done|simpl in Hn; lia]).
    rewrite Hp, Hr. by rewrite bool_decide_eq_true_2.
  - destruct (resolve w (parent p)) as [k2|e] eqn:Hr2;
      [|simpl; intros [= ->]; by destruct (resolve_raise_OSError _ _ _ Hr2)].
    destruct (bool_decide (k = k2)); [done|].
    specialize (IH (parent p)). rewrite parent_length in IH.
    specialize (IH ltac:(lia)).
    by destruct (walk_loop n w (parent p)).
Qed.

(** The generator never runs out of rounds, whatever the path. *)
Lemma walk_parents_total w p : (walk_parents w p).2 <> Raised OutOfFuel.
Proof.
  unfold walk_parents. pose proof (walk_loop_total _ w p (le_n _)) as H.
  by destruct (walk_loop _ w p).
Qed.

Lemma mkdir_here_total p w : (mkdir_here p w).1 <> Raise OutOfFuel.
Proof.
  unfold mkdir_here. destruct (os_mkdir p w) as [[[]|e] w1] eqn:Hm; [done|].
  destruct (os_mkdir_inv _ _ _ _ Hm) as [(k & [=] & _)|(e' & [= <-] & -> & He)].
  destruct e; try done; simpl; by destruct (is_dir w p).
Qed.

Lemma mkdir_parents_aux_total n p w :
  (List.length (parts p) <= n)%nat -> (mkdir_parents_aux n p w).1 <> Raise OutOfFuel.
Proof.
  revert p w. induction n as [|n IH]; intros p w Hn; simpl;
    destruct (os_mkdir p w) as [[[]|e] w1] eqn:Hm; try done;
    destruct (os_mkdir_inv _ _ _ _ Hm) as [(k & [=] & _)|(e' & [= <-] & -> & He)];
    destruct e; try done; try (simpl; by destruct (is_dir w p)).
  - assert (Hp : parent p = p) by (apply parent_fixed; destruct (parts p); [done|simpl in Hn; lia]).
    by destruct (decide (parent p = p)).
  - destruct (decide (parent p = p)); [done|]. unfold bind.
    specialize (IH (parent p) w). rewrite parent_length in IH.
    specialize (IH ltac:(lia)).
    destruct (mkdir_parents_aux n (parent p) w) as [[[]|e2] w2]; [|exact IH].
    apply mkdir_here_total.
Qed.

(** [mkdir(parents=True)] never runs out of calls, whatever the path. *)
Lemma mkdir_parents_total p w : (mkdir_parents p w).1 <> Raise OutOfFuel.
Proof. apply mkdir_parents_aux_total. done. Qed.

(** ** Strings and paths: splitting, joining, [str] and back *)

Section Split.
Context (sep : ascii).

Lemma split_not_nil s : split sep s <> [].
Proof.
  destruct s as [|c s]; simpl; [done|].
  destruct (Ascii.eqb c sep); [done|]. by destruct (split sep s).
Qed.

Lemma split_no_sep s : has_char sep s = false -> split sep s = [s].
Proof.
  induction s as [|c s IH]; simpl; [done|].
  destruct (Ascii.eqb c sep); [done|]. simpl. intros H. by rewrite IH.
Qed.

Lemma split_app_sep a b :
  has_char sep a = false ->
  split sep (String.append a (String sep b)) = a :: split sep b.
Proof.
  induction a as [|c a IH]; simpl.
  - by rewrite Ascii.eqb_refl.
  - destruct (Ascii.eqb c sep); [done|]. simpl. intros H. by rewrite IH.
Qed.

Lemma split_concat l :
  l <> [] -> Forall (fun s => has_char sep s = false) l ->
  split sep (String.concat (String sep EmptyString) l) = l.
Proof.
  induction l as [|x l IH]; [done|]. intros _ Hl. inversion Hl; subst.
  destruct l as [|y l].
  - simpl. by apply split_no_sep.
  - assert (E : String.concat (String sep EmptyString) (x :: y :: l) =
                String.append x
                  (String sep (String.concat (String sep EmptyString) (y :: l))))
      by reflexivity.
    rewrite E, split_app_sep by done. by rewrite IH.
Qed.

(** Joining the pieces of a split gives the string back. *)
Lemma concat_split s : String.concat (String sep EmptyString) (split sep s) = s.
Proof.
  induction s as [|c s IH]; simpl; [done|].
  destruct (Ascii.eqb c sep) eqn:Hc.
  - apply Ascii.eqb_eq in Hc as ->.
    pose proof (split_not_nil s) as Hne.
    destruct (split sep s) as [|y l]; [done|]. simpl in *. by rewrite IH.
  - pose proof (split_not_nil s) as Hne.
    destruct (split sep s) as [|y l]; [done|].
    destruct l; simpl in *; by rewrite <- IH.
Qed.

(** No piece of a split holds the separator. *)
Lemma split_pieces s : Forall (fun x => has_char sep x = false) (split sep s).
Proof.
  induction s as [|c s IH]; simpl; [by repeat constructor|].
  destruct (Ascii.eqb c sep) eqn:Hc; [by constructor|].
  pose proof (split_not_nil s) as Hne.
  destruct (split sep s) as [|y l]; [done|].
  inversion IH; subst. constructor; [|done]. simpl. by rewrite Hc.
Qed.
End Split.

Lemma proper_plain c : proper c = true -> plain c = true.
Proof. unfold proper. by intros [? _]%andb_prop. Qed.

Lemma proper_is_name c : proper c = true -> is_name c = true.
Proof. intros H%proper_plain. unfold plain in H. by apply andb_prop in H as [? _]. Qed.

Lemma proper_no_slash c : proper c = true -> has_char "/" c = false.
Proof. unfold proper. intros [_ H]%andb_prop. by apply negb_true_iff in H. Qed.

Lemma proper_not_slash_start c : proper c = true -> starts_with_slash c = false.
Proof.
  intros H%proper_no_slash. destruct c as [|a c]; [done|]. simpl in *.
  apply orb_false_elim in H as [H _]. unfold starts_with_slash.
  destruct a as [[] [] [] [] [] [] [] []]; try done.
Qed.

Lemma filter_is_name_proper l :
  Forall (fun c => proper c = true) l -> List.filter is_name l = l.
Proof.
  induction l as [|c l IH]; [done|]. intros H. inversion H; subst. simpl.
  by rewrite proper_is_name, IH.
Qed.

Lemma Forall_proper_plain l :
  Forall (fun c => proper c = true) l -> Forall (fun c => plain c = true) l.
Proof. intros H. eapply Forall_impl; [exact H|]. intros c. apply proper_plain. Qed.

Lemma Forall_proper_no_slash l :
  Forall (fun c => proper c = true) l -> Forall (fun c => has_char "/" c = false) l.
Proof. intros H. eapply Forall_impl; [exact H|]. intros c. apply proper_no_slash. Qed.

(** What [str] of a path splits into. *)
Lemma split_Path_str p :
  Forall (fun c => proper c = true) (parts p) -> parts p <> [] ->
  split "/" (Path_str p) = if anchored p then "" :: parts p else parts p.
Proof.
  intros Hp Hne. unfold Path_str. destruct (anchored p).
  - change (String.append "/" ?s) with (String.append "" (String "/" s)).
    rewrite split_app_sep by done.
    by rewrite split_concat by (done || by apply Forall_proper_no_slash).
  - destruct (parts p) eqn:E; [done|]. rewrite <- E in *.
    by rewrite split_concat by (done || by apply Forall_proper_no_slash).
Qed.

Lemma Path_str_start p :
  Forall (fun c => proper c = true) (parts p) ->
  starts_with_slash (Path_str p) = anchored p /\ truthy (Path_str p) = true.
Proof.
  intros Hp. unfold Path_str. destruct (anchored p); [done|].
  destruct (parts p) as [|c l]; [done|]. inversion Hp; subst.
  pose proof (proper_not_slash_start c ltac:(done)) as Hs.
  pose proof (proper_is_name c ltac:(done)) as Hn.
  destruct c as [|a c]; [done|].
  destruct l; simpl in *; [done|]. split; [|done]. exact Hs.
Qed.

(** [str] and back: a path of proper components survives the conversion to
    a string and the parsing of that string. *)
Lemma Path_str_roundtrip p :
  Forall (fun c => proper c = true) (parts p) -> Path_of_string (Path_str p) = p.
Proof.
  intros Hp. destruct (Path_str_start p Hp) as [Hs _].
  unfold Path_of_string. rewrite Hs.
  destruct p as [anch ps]. f_equal.
  destruct ps as [|c l].
  - by destruct anch.
  - assert (Hne : parts (mkPath anch (c :: l)) <> []) by done.
    rewrite (split_Path_str _ Hp Hne). cbn [anchored parts] in *.
    destruct anch.
    + change (List.filter is_name ("" :: c :: l)) with (List.filter is_name (c :: l)).
      by apply filter_is_name_proper.
    + by apply filter_is_name_proper.
Qed.

Lemma Path_of_string_proper c :
  proper c = true -> Path_of_string c = mkPath false [c].
Proof.
  intros Hc. unfold Path_of_string.
  rewrite proper_not_slash_start, split_no_sep by (done || by apply proper_no_slash).
  simpl. by rewrite proper_is_name.
Qed.

(** Joining a proper name appends one component. *)
Lemma joinpath_proper p c :
  proper c = true -> p // c = mkPath (anchored p) (parts p ++ [c]).
Proof. intros Hc. unfold joinpath. by rewrite Path_of_string_proper. Qed.

Lemma Forall_proper_snoc l c :
  Forall (fun c => proper c = true) l -> proper c = true ->
  Forall (fun c => proper c = true) (l ++ [c]).
Proof. intros. apply Forall_app. split; [done|by constructor]. Qed.

(** X1. The add-on's name is the part of [__name__] before its first dot. *)
Theorem THIS_ADDON_MODULE_spec (w : world) :
  has_char "." (THIS_ADDON_MODULE w) = false /\
  (module_name w = THIS_ADDON_MODULE w \/
   exists rest, module_name w =
     String.append (THIS_ADDON_MODULE w) (String "." rest)) /\
  (has_char "." (module_name w) = false -> THIS_ADDON_MODULE w = module_name w).
Proof.
  unfold THIS_ADDON_MODULE.
  pose proof (split_pieces "." (module_name w)) as Hp.
  pose proof (concat_split "." (module_name w)) as Hc.
  pose proof (split_not_nil "." (module_name w)) as Hne.
  split; [|split].
  - destruct (split "." (module_name w)) as [|x l]; [done|]. by inversion Hp.
  - destruct (split "." (module_name w)) as [|x [|y l]]; [done| |].
    + left. by rewrite <- Hc.
    + right. exists (String.concat "." (y :: l)). by rewrite <- Hc.
  - intros H. by rewrite split_no_sep.
Qed.

(** X2. On Linux a non-empty XDG variable gives the base without the home
    directory being looked up, [XDG_STATE_HOME] before [XDG_DATA_HOME]; with
    none, the base is [~/.local/share], converted to a string and parsed
    again, and the call raises when the home directory is not known. *)
Theorem platform_data_home_linux_spec (w : world) (app_name : string) :
  String.prefix "linux" (sys_platform w) = true ->
  (forall s, environ w !! "XDG_STATE_HOME" = Some s -> s <> "" ->
     _platform_data_home app_name w =
       Ok (Path_of_string s // "anki-addons" // app_name)) /\
  (forall s, truthy_opt (environ w !! "XDG_STATE_HOME") = false ->
     environ w !! "XDG_DATA_HOME" = Some s -> s <> "" ->
     _platform_data_home app_name w =
       Ok (Path_of_string s // "anki-addons" // app_name)) /\
  (forall h, first_nonempty (xdg_candidates w) = None -> Path_home w = Ok h ->
     Forall (fun c => proper c = true) (parts h) -> proper app_name = true ->
     _platform_data_home app_name w =
       Ok (mkPath (anchored h)
             (parts h ++ [".local"; "share"; "anki-addons"; app_name]))) /\
  (forall e, first_nonempty (xdg_candidates w) = None -> Path_home w = Raise e ->
     _platform_data_home app_name w = Raise e).
Proof.
  intros Hl. unfold _platform_data_home, xdg_candidates. rewrite Hl.
  split; [|split; [|split]].
  - intros s -> Hs. by destruct s.
  - intros s H1 -> Hs. destruct (environ w !! "XDG_STATE_HOME") as [[|]|]; try done;
      by destruct s.
  - intros h Hnone Hh Hp Ha. simpl in Hnone. rewrite Hh.
    assert (E : Path_of_string (Path_str (h // ".local" // "share")) =
                mkPath (anchored h) (parts h ++ [".local"; "share"])).
    { rewrite !joinpath_proper by done. rewrite Path_str_roundtrip.
      - simpl. by rewrite <- app_assoc.
      - simpl. by repeat apply Forall_proper_snoc. }
    destruct (environ w !! "XDG_STATE_HOME") as [[|]|];
      destruct (environ w !! "XDG_DATA_HOME") as [[|]|]; try done;
      rewrite E, !joinpath_proper by done; simpl; by rewrite <- !app_assoc.
  - intros e Hnone Hh. simpl in Hnone. rewrite Hh.
    destruct (environ w !! "XDG_STATE_HOME") as [[|]|];
      destruct (environ w !! "XDG_DATA_HOME") as [[|]|]; done.
Qed.

Lemma platform_data_home_linux_spec_witness :
  let w := World (<["XDG_DATA_HOME" := "/srv/data"]> ∅) example_fs [] 0 "linux" ∅
                 "japanese.helpers.file_ops" "" ∅ true None [] in
  let v := example_world ∅ "linux" in
  let u := World ∅ example_fs [] 0 "linux" ∅ "" "" ∅ true None [] in
  _platform_data_home "japanese" w =
    Ok (mkPath true ["srv"; "data"; "anki-addons"; "japanese"]) /\
  _platform_data_home "japanese" v =
    Ok (mkPath true ["home"; "u"; ".local"; "share"; "anki-addons"; "japanese"]) /\
  _platform_data_home "japanese" u
    = Raise (RuntimeError "Could not determine home directory.").
Proof.
  intros w v u. split; [|split].
  - apply (proj1 (proj2 (platform_data_home_linux_spec w "japanese" eq_refl))
             "/srv/data"); first [discriminate | vm_compute; reflexivity].
  - apply (proj1 (proj2 (proj2 (platform_data_home_linux_spec v "japanese" eq_refl)))
             (mkPath true ["home"; "u"])); vm_compute; first [reflexivity | repeat constructor].
  - apply (proj2 (proj2 (proj2 (platform_data_home_linux_spec u "japanese" eq_refl))));
      vm_compute; reflexivity.
Defined.

Lemma Path_home_same w w' :
  environ w' !! "HOME" = environ w !! "HOME" -> home_of w' = home_of w ->
  Path_home w' = Path_home w.
Proof. intros He Hh. unfold Path_home, expanduser, homedir. by rewrite He, Hh. Qed.

Lemma Path_home_env w hs :
  environ w !! "HOME" = Some hs -> hs <> "" -> starts_with_tilde hs = false ->
  Path_home w = Ok (Path_of_string hs).
Proof.
  intros He Hne Ht. unfold Path_home, expanduser, homedir. simpl. rewrite He.
  unfold home_from_env. rewrite Ht.
  assert (Htr : truthy hs = true) by (by destruct hs).
  rewrite Htr. destruct (Path_of_string hs) as [a ps]. simpl. by rewrite app_nil_r.
Qed.

(** X3. On macOS the directory is
    [~/Library/Application Support/Anki/Addons/<app>], the home being the
    one [HOME] names when it is set; no other variable of the environment
    matters; the call raises when the home directory is not known. *)
Theorem platform_data_home_darwin_spec (w : world) (app_name : string) :
  sys_platform w = "darwin" ->
  (forall h, Path_home w = Ok h -> proper app_name = true ->
     _platform_data_home app_name w =
       Ok (mkPath (anchored h)
             (parts h ++ ["Library"; "Application Support"; "Anki"; "Addons";
                          app_name]))) /\
  (forall e, Path_home w = Raise e -> _platform_data_home app_name w = Raise e) /\
  (forall hs, environ w !! "HOME" = Some hs -> hs <> "" ->
     starts_with_tilde hs = false -> proper app_name = true ->
     _platform_data_home app_name w =
       Ok (mkPath (anchored (Path_of_string hs))
             (parts (Path_of_string hs) ++
              ["Library"; "Application Support"; "Anki"; "Addons"; app_name]))) /\
  (forall env, env !! "HOME" = environ w !! "HOME" ->
     _platform_data_home app_name (set_environ env w) =
     _platform_data_home app_name w).
Proof.
  intros Hd.
  assert (H1 : forall h, Path_home w = Ok h -> proper app_name = true ->
     _platform_data_home app_name w =
       Ok (mkPath (anchored h)
             (parts h ++ ["Library"; "Application Support"; "Anki"; "Addons";
                          app_name]))).
  { intros h Hh Ha. unfold _platform_data_home. rewrite Hd. simpl. rewrite Hh.
    rewrite !joinpath_proper by done. simpl. by rewrite <- !app_assoc. }
  split; [exact H1|]. split; [|split].
  - intros e He. unfold _platform_data_home. rewrite Hd. simpl. by rewrite He.
  - intros hs He Hne Ht Ha. apply H1; [|done]. by apply Path_home_env.
  - intros env He. unfold _platform_data_home. simpl sys_platform. rewrite Hd. simpl.
    by rewrite (Path_home_same w (set_environ env w) He eq_refl).
Qed.

Lemma platform_data_home_darwin_spec_witness :
  let w := example_world (<["XDG_DATA_HOME" := "/srv/data"]> ∅) "darwin" in
  let v := example_world (<["HOME" := "/Users/me/"]> ∅) "darwin" in
  _platform_data_home "japanese" w =
    Ok (mkPath true ["home"; "u"; "Library"; "Application Support"; "Anki";
                     "Addons"; "japanese"]) /\
  _platform_data_home "japanese" v =
    Ok (mkPath true ["Users"; "me"; "Library"; "Application Support"; "Anki";
                     "Addons"; "japanese"]).
Proof.
  intros w v. split.
  - apply (proj1 (platform_data_home_darwin_spec w "japanese" eq_refl)
             (mkPath true ["home"; "u"])); vm_compute; reflexivity.
  - apply (proj1 (proj2 (proj2 (platform_data_home_darwin_spec v "japanese" eq_refl)))
             "/Users/me/"); first [discriminate | vm_compute; reflexivity].
Defined.

(** X4. On any other platform the base is [APPDATA] whenever it is set, the
    empty string included, and [~/AppData/Roaming] when it is not; the home
    directory is looked up before [APPDATA] is read, so the call raises when
    it is not known, [APPDATA] set or not. *)
Theorem platform_data_home_fallback_spec (w : world) (app_name : string) :
  String.prefix "linux" (sys_platform w) = false -> sys_platform w <> "darwin" ->
  (forall e, Path_home w = Raise e -> _platform_data_home app_name w = Raise e) /\
  (forall h s, Path_home w = Ok h -> environ w !! "APPDATA" = Some s ->
     _platform_data_home app_name w =
       Ok (Path_of_string s // "Anki" // "Addons" // app_name)) /\
  (forall h, Path_home w = Ok h -> environ w !! "APPDATA" = Some "" ->
     proper app_name = true ->
     _platform_data_home app_name w = Ok (mkPath false ["Anki"; "Addons"; app_name])) /\
  (forall h, Path_home w = Ok h -> environ w !! "APPDATA" = None ->
     Forall (fun c => proper c = true) (parts h) -> proper app_name = true ->
     _platform_data_home app_name w =
       Ok (mkPath (anchored h)
             (parts h ++ ["AppData"; "Roaming"; "Anki"; "Addons"; app_name]))).
Proof.
  intros Hl Hd. unfold _platform_data_home. rewrite Hl.
  apply String.eqb_neq in Hd. rewrite Hd.
  split; [|split; [|split]].
  - by intros e ->.
  - by intros h s -> ->.
  - intros h -> -> Ha. by rewrite !joinpath_proper by done.
  - intros h -> -> Hp Ha.
    assert (E : Path_of_string (Path_str (h // "AppData" // "Roaming")) =
                mkPath (anchored h) (parts h ++ ["AppData"; "Roaming"])).
    { rewrite !joinpath_proper by done. rewrite Path_str_roundtrip.
      - simpl. by rewrite <- app_assoc.
      - simpl. by repeat apply Forall_proper_snoc. }
    rewrite E, !joinpath_proper by done. simpl. by rewrite <- !app_assoc.
Qed.

Lemma platform_data_home_fallback_spec_witness :
  let w := example_world (<["APPDATA" := ""]> ∅) "freebsd14" in
  let v := World (<["APPDATA" := "/srv/appdata"]> ∅) example_fs [] 0 "freebsd14" ∅
                 "" "" ∅ true None [] in
  _platform_data_home "japanese" w = Ok (mkPath false ["Anki"; "Addons"; "japanese"]) /\
  _platform_data_home "japanese" v =
    Raise (RuntimeError "Could not determine home directory.").
Proof.
  intros w v. split.
  - apply (proj1 (proj2 (proj2
             (platform_data_home_fallback_spec w "japanese" eq_refl ltac:(discriminate))))
             (mkPath true ["home"; "u"])); vm_compute; reflexivity.
  - apply (proj1 (platform_data_home_fallback_spec v "japanese" eq_refl ltac:(discriminate))).
    vm_compute; reflexivity.
Defined.

(** ** What [touch] and [rm_file] do to the file system *)

(** [touch] raises and leaves the world, or puts one file: the file that was
    there with new times, or an empty one under an existing directory. *)
Lemma touch_inv (P : Path) w r w' :
  touch P w = (r, w') ->
  (exists e, r = Raise e /\ w' = w) \/
  (exists k c,
     r = Ok tt /\
     w' = set_fs (<[k := File c (clock w) (clock w)]> (fs w)) w /\
     namei (fs w) (start_of w (anchored P)) (parts P) = Ok k /\
     ((exists m a, fs w !! k = Some (File c m a)) \/
      (fs w !! k = None /\ c = [] /\
       exists d c0, k = d ++ [c0] /\ fs w !! d = Some Dir))).
Proof.
  unfold touch, bind, open_append, open_at.
  destruct (namei (fs w) _ _) as [k|e] eqn:Hn; [|intros [= <- <-]; eauto].
  destruct (fs w !! k) as [[|c m a]|] eqn:Hk.
  - intros [= <- <-]; eauto.
  - unfold os_utime, utime_at, resolve, resolve_in. rewrite Hn, Hk, Hk.
    intros [= <- <-]. right. exists k, c. eauto 10.
  - destruct (last (parts P)) as [c0|] eqn:Hl; [|intros [= <- <-]; eauto].
    destruct (plain c0) eqn:Hp; [|intros [= <- <-]; eauto].
    unfold os_utime, utime_at, resolve, resolve_in. cbn [fs set_fs clock].
    change (start_of (set_fs _ w) (anchored P)) with (start_of w (anchored P)).
    rewrite (namei_insert_fresh _ _ _ _ _ _ Hk Hn), !lookup_insert_eq.
    intros [= <- <-]. right. exists k, []. split; [done|].
    split; [by rewrite insert_insert_eq|]. split; [done|]. right.
    split; [done|]. split; [done|].
    destruct (parts P) as [|x l _] using rev_ind; [done|].
    rewrite last_snoc in Hl. injection Hl as ->.
    rewrite namei_snoc in Hn.
    destruct (namei (fs w) _ l) as [d|]; [|done].
    destruct (fs w !! d) as [[|]|] eqn:Hd; try done.
    injection Hn as <-. exists d, c0. by rewrite step_plain.
Qed.

(** [rm_file] raises and leaves the world, or finds nothing and leaves the
    world, or removes one file. *)
Lemma rm_file_inv (P : Path) w r w' :
  rm_file P w = (r, w') ->
  (exists e, r = Raise e /\ e <> FileNotFoundError /\ w' = w) \/
  (r = Ok tt /\ w' = w /\ os_unlink P w = (Raise FileNotFoundError, w)) \/
  (exists k c m a,
     r = Ok tt /\ w' = set_fs (delete k (fs w)) w /\
     namei (fs w) (start_of w (anchored P)) (parts P) = Ok k /\
     fs w !! k = Some (File c m a)).
Proof.
  unfold rm_file, os_unlink, unlink_at.
  destruct (namei (fs w) _ _) as [k|e] eqn:Hn.
  - destruct (fs w !! k) as [[|c m a]|] eqn:Hk; intros [= <- <-].
    + left. eauto.
    + right. right. eauto 10.
    + right. left. eauto.
  - destruct (namei_raise_OSError _ _ _ _ Hn) as [-> | ->]; intros [= <- <-].
    + right. left. eauto.
    + left. eauto.
Qed.

(** *** Strings

    A string reaches the kernel as it is.  The calls on a string that is
    not empty and does not end in a slash are the calls on the record of
    its raw components; on a string that ends in a name they are the calls
    on the path [pathlib] reads from it. *)

Lemma touch_Str_raw s w :
  touch (Str s) w =
  if truthy s then
    if ends_with_slash s then
      match namei (fs w) (start_of w (starts_with_slash s))
              (strip_slashes (split "/" s)) with
      | Ok _ => (Raise IsADirectoryError, w)
      | Raise e => (Raise e, w)
      end
    else touch (raw s) w
  else (Raise FileNotFoundError, w).
Proof.
  unfold touch, bind, open_append, os_utime. cbn [raw anchored parts].
  destruct (truthy s) eqn:Ht; [|done].
  destruct (ends_with_slash s); [|done].
  by destruct (namei _ _ _).
Qed.

Lemma rm_file_Str_raw s w :
  rm_file (Str s) w = if truthy s then rm_file (raw s) w else (Ok tt, w).
Proof. unfold rm_file, os_unlink. cbn [raw anchored parts]. by destruct (truthy s). Qed.

Lemma os_stat_raw s w :
  os_stat w s = if truthy s then stat w (raw s) else Raise FileNotFoundError.
Proof. reflexivity. Qed.

Lemma touch_inv_any (x : PathLike) w r w' :
  touch x w = (r, w') ->
  (exists e, r = Raise e /\ w' = w) \/
  (exists k c,
     r = Ok tt /\
     w' = set_fs (<[k := File c (clock w) (clock w)]> (fs w)) w /\
     ((exists m a, fs w !! k = Some (File c m a)) \/
      (fs w !! k = None /\ c = [] /\
       exists d c0, k = d ++ [c0] /\ fs w !! d = Some Dir))).
Proof.
  assert (HP : forall P : Path, touch P w = (r, w') ->
    (exists e, r = Raise e /\ w' = w) \/
    (exists k c,
       r = Ok tt /\
       w' = set_fs (<[k := File c (clock w) (clock w)]> (fs w)) w /\
       ((exists m a, fs w !! k = Some (File c m a)) \/
        (fs w !! k = None /\ c = [] /\
         exists d c0, k = d ++ [c0] /\ fs w !! d = Some Dir)))).
  { intros P H. destruct (touch_inv _ _ _ _ H) as
      [?|(k & c & ? & ? & _ & ?)]; [by left|right; eauto]. }
  destruct x as [s|P]; [|apply HP].
  rewrite touch_Str_raw. destruct (truthy s); [|intros [= <- <-]; eauto].
  destruct (ends_with_slash s); [|apply HP].
  destruct (namei _ _ _); intros [= <- <-]; eauto.
Qed.

Lemma rm_file_inv_any (x : PathLike) w r w' :
  rm_file x w = (r, w') ->
  (exists e, r = Raise e /\ e <> FileNotFoundError /\ w' = w) \/
  (r = Ok tt /\ w' = w) \/
  (exists k c m a,
     r = Ok tt /\ w' = set_fs (delete k (fs w)) w /\
     fs w !! k = Some (File c m a)).
Proof.
  assert (HP : forall P : Path, rm_file P w = (r, w') ->
    (exists e, r = Raise e /\ e <> FileNotFoundError /\ w' = w) \/
    (r = Ok tt /\ w' = w) \/
    (exists k c m a,
       r = Ok tt /\ w' = set_fs (delete k (fs w)) w /\
       fs w !! k = Some (File c m a))).
  { intros P H. destruct (rm_file_inv _ _ _ _ H) as
      [?|[(? & ? & _)|(k & c & m & a & ? & ? & _ & ?)]];
      [by left|right; by left|right; right; eauto 10]. }
  destruct x as [s|P]; [|apply HP].
  rewrite rm_file_Str_raw. destruct (truthy s); [apply HP|].
  intros [= <- <-]. right. by left.
Qed.

(** Components that count for nothing may be left out of a walk that ends
    in a name. *)
Lemma namei_check f cur cs :
  cs <> [] ->
  match f !! cur with
  | Some Dir => namei f cur cs
  | Some (File _ _ _) => Raise NotADirectoryError
  | None => Raise FileNotFoundError
  end = namei f cur cs.
Proof. destruct cs as [|c cs]; [done|]. intros _. simpl. by destruct (f !! cur) as [[|]|]. Qed.

Lemma filter_name_last comps c :
  last comps = Some c -> is_name c = true ->
  last (List.filter is_name comps) = Some c /\ List.filter is_name comps <> [].
Proof.
  intros Hl Hc. destruct comps as [|x l _] using rev_ind; [done|].
  rewrite last_snoc in Hl. injection Hl as ->.
  rewrite List.filter_app. simpl. rewrite Hc. rewrite last_snoc.
  split; [done|]. by destruct (List.filter is_name l).
Qed.

Lemma namei_raw_normal f cur comps c :
  last comps = Some c -> is_name c = true ->
  namei f cur comps = namei f cur (List.filter is_name comps).
Proof.
  revert cur. induction comps as [|x l IH]; intros cur Hl Hc; [done|].
  destruct l as [|y l'].
  { injection Hl as ->. simpl. by rewrite Hc. }
  rewrite last_cons_cons in Hl. specialize (IH (step cur x) Hl Hc).
  destruct (filter_name_last _ _ Hl Hc) as [_ Hne].
  change (List.filter is_name (x :: y :: l'))
    with (if is_name x then x :: List.filter is_name (y :: l')
          else List.filter is_name (y :: l')).
  change (namei f cur (x :: y :: l'))
    with (match f !! cur with
          | Some Dir => namei f (step cur x) (y :: l')
          | Some (File _ _ _) => Raise NotADirectoryError
          | None => Raise FileNotFoundError
          end).
  rewrite IH. destruct (is_name x) eqn:Hx.
  - reflexivity.
  - assert (Hs : step cur x = cur) by (unfold step; by rewrite Hx).
    rewrite Hs. by apply namei_check.
Qed.

Lemma ends_in_name_Str s :
  ends_in_name (Str s) = true ->
  exists c, last (split "/" s) = Some c /\ is_name c = true /\
            truthy s = true /\ ends_with_slash s = false.
Proof.
  unfold ends_in_name, ends_with_slash.
  destruct (last (split "/" s)) as [c|] eqn:Hl; [|done].
  intros Hc. exists c. split; [done|]. split; [done|]. split.
  - destruct s; [|done]. simpl in Hl. injection Hl as <-. done.
  - destruct c; [done|done].
Qed.

Lemma touch_Str s w :
  ends_in_name (Str s) = true -> touch (Str s) w = touch (Path_of_string s) w.
Proof.
  intros H. destruct (ends_in_name_Str _ H) as (c & Hl & Hc & Ht & Hs).
  rewrite touch_Str_raw, Ht, Hs.
  destruct (filter_name_last _ _ Hl Hc) as [Hl' _].
  unfold touch, bind, open_append, open_at, os_utime, utime_at, resolve_in.
  cbn [raw Path_of_string anchored parts].
  rewrite Hl, Hl'.
  rewrite (namei_raw_normal _ _ _ _ Hl Hc).
  destruct (namei (fs w) _ _) as [k|e]; [|done].
  destruct (fs w !! k) as [[|]|]; try done.
  - by rewrite (namei_raw_normal _ _ _ _ Hl Hc).
  - destruct (plain c); [|done]. by rewrite (namei_raw_normal _ _ _ _ Hl Hc).
Qed.

Lemma rm_file_Str s w :
  ends_in_name (Str s) = true -> rm_file (Str s) w = rm_file (Path_of_string s) w.
Proof.
  intros H. destruct (ends_in_name_Str _ H) as (c & Hl & Hc & Ht & Hs).
  rewrite rm_file_Str_raw, Ht.
  unfold rm_file, os_unlink, unlink_at. cbn [raw Path_of_string anchored parts].
  by rewrite (namei_raw_normal _ _ _ _ Hl Hc).
Qed.

Lemma os_stat_Str s w :
  ends_in_name (Str s) = true -> os_stat w s = stat w (Path_of_string s).
Proof.
  intros H. destruct (ends_in_name_Str _ H) as (c & Hl & Hc & Ht & Hs).
  rewrite os_stat_raw, Ht. unfold stat, stat_in.
  cbn [raw Path_of_string anchored parts].
  by rewrite (namei_raw_normal _ _ _ _ Hl Hc).
Qed.

Lemma os_stat_of_to_Path x w :
  ends_in_name x = true -> os_stat_of w x = stat w (to_Path x).
Proof. destruct x as [s|p]; [apply os_stat_Str|done]. Qed.

Lemma touch_to_Path x w :
  ends_in_name x = true -> touch x w = touch (to_Path x) w.
Proof. destruct x as [s|p]; [apply touch_Str|done]. Qed.

Lemma rm_file_to_Path x w :
  ends_in_name x = true -> rm_file x w = rm_file (to_Path x) w.
Proof. destruct x as [s|p]; [apply rm_file_Str|done]. Qed.

(** A path reaches the kernel as its string, [os.fspath(p)]: the calls on
    the string of a path are the calls on the path. *)
Lemma Path_str_ends_in_name p :
  Forall (fun c => proper c = true) (parts p) -> parts p <> [] ->
  ends_in_name (Str (Path_str p)) = true.
Proof.
  intros Hp Hne. unfold ends_in_name. rewrite (split_Path_str p Hp Hne).
  assert (Hl : last (if anchored p then "" :: parts p else parts p) = last (parts p)).
  { destruct (anchored p); [|done]. destruct (parts p) as [|c l]; [done|].
    by rewrite last_cons_cons. }
  rewrite Hl. destruct (last (parts p)) as [c|] eqn:Hc.
  - apply last_Some_elem_of in Hc. rewrite Forall_forall in Hp.
    specialize (Hp _ Hc). unfold proper, plain in Hp.
    by destruct (is_name c).
  - destruct (parts p) as [|c l _] using rev_ind; [done|]. by rewrite last_snoc in Hc.
Qed.

Lemma fspath_calls p w :
  Forall (fun c => proper c = true) (parts p) -> parts p <> [] ->
  touch (Str (Path_str p)) w = touch p w /\
  rm_file (Str (Path_str p)) w = rm_file p w /\
  os_stat_of w (Str (Path_str p)) = os_stat_of w p.
Proof.
  intros Hp Hne. pose proof (Path_str_ends_in_name p Hp Hne) as He.
  rewrite (touch_Str _ _ He), (rm_file_Str _ _ He).
  unfold os_stat_of. rewrite (os_stat_Str _ _ He).
  by rewrite (Path_str_roundtrip p Hp).
Qed.

(** C6, as stated, fails: the parent of [/tmp] exists, yet [touch] of this
    directory raises [IsADirectoryError]; so it does on a new name that is
    followed by a slash, and nothing is created; on the empty string, whose
    parent is the working directory, it raises [FileNotFoundError]. *)
Lemma touch_directory_raises :
  let w := example_world ∅ "linux" in
  (is_dir w (parent (to_Path (Str "/tmp"))) = true /\
   touch (Str "/tmp") w = (Raise IsADirectoryError, w)) /\
  (is_dir w (parent (to_Path (Str "/tmp/new.txt/"))) = true /\
   os_path_exists w (Str "/tmp/new.txt/") = false /\
   touch (Str "/tmp/new.txt/") w = (Raise IsADirectoryError, w)) /\
  (is_dir w (parent (to_Path (Str ""))) = true /\
   touch (Str "") w = (Raise FileNotFoundError, w)) /\
  ~ (exists w', touch (Str "/tmp") w = (Ok tt, w')).
Proof.
  intros w.
  assert (H : touch (Str "/tmp") w = (Raise IsADirectoryError, w)) by reflexivity.
  split; [split; [reflexivity|exact H]|].
  split; [split; [reflexivity|split; reflexivity]|].
  split; [split; reflexivity|].
  intros [w' Hw]. rewrite H in Hw. discriminate.
Qed.

(** C6 (amended). For every path [P] whose parent directory exists, which
    is not itself a directory and which ends in a file name (given as a
    string, it ends neither in a slash nor in a component [.]), [touch(P)]
    raises nothing and leaves a file at [P]: an empty one when [P] did not
    exist, the former content when it did, with both timestamps set to the
    time of the call; a second call, at any later time, raises nothing
    either and leaves content and size as they are; no other location
    changes. *)
Theorem touch_spec (w : world) (x : PathLike) :
  ends_in_name x = true ->
  fs_tree (fs w) -> is_dir w (parent (to_Path x)) = true ->
  is_dir w (to_Path x) = false ->
  exists k c w1,
    touch x w = (Ok tt, w1) /\
    resolve w1 (to_Path x) = Ok k /\
    os_stat_of w1 x = Ok (File c (clock w) (clock w)) /\
    (os_stat_of w x = Raise FileNotFoundError -> c = []) /\
    (forall c0 m a, os_stat_of w x = Ok (File c0 m a) -> c = c0) /\
    (forall k', k' <> k -> fs w1 !! k' = fs w !! k') /\
    (forall t, exists w2,
        touch x (set_clock t w1) = (Ok tt, w2) /\
        os_stat_of w2 x = Ok (File c t t) /\
        st_size (File c t t) = st_size (File c (clock w) (clock w)) /\
        (forall k', k' <> k -> fs w2 !! k' = fs w !! k')).
Proof.
  intros Hx Htree Hpar Hnd.
  destruct (touch_on_path w (to_Path x) Htree Hpar Hnd)
    as (k & c & w1 & Ht & Hr & Hs & Hnew & Hold & Hfr & Hagain).
  exists k, c, w1. rewrite touch_to_Path, !os_stat_of_to_Path by done.
  split; [done|]. split; [done|]. split; [done|]. split; [done|].
  split; [done|]. split; [done|].
  intros t. destruct (Hagain t) as (w2 & Ht2 & Hs2 & Hsz & Hfr2).
  exists w2. by rewrite touch_to_Path, os_stat_of_to_Path.
Qed.

Lemma touch_spec_witness :
  let w := example_world ∅ "linux" in
  exists w1, touch (Str "/tmp/new.txt") w = (Ok tt, w1) /\
             os_stat_of w1 (Str "/tmp/new.txt") = Ok (File [] 7 7) /\
             exists w2, touch (Str "/tmp/new.txt") (set_clock 9 w1) = (Ok tt, w2) /\
                        os_stat_of w2 (Str "/tmp/new.txt") = Ok (File [] 9 9).
Proof.
  intros w.
  assert (Htree : fs_tree (fs w)) by (apply fs_tree_b_sound; vm_compute; reflexivity).
  destruct (touch_spec w (Str "/tmp/new.txt") eq_refl Htree eq_refl eq_refl)
    as (k & c & w1 & Ht & _ & Hs & Hnew & _ & _ & Hagain).
  assert (Hc : c = []) by (apply Hnew; reflexivity).
  exists w1. split; [exact Ht|]. rewrite Hs, Hc. split; [reflexivity|].
  destruct (Hagain 9%Z) as (w2 & Ht2 & Hs2 & _).
  exists w2. split; [exact Ht2|]. by rewrite Hs2, Hc.
Defined.

(** X5. [touch] below a missing directory, or below a file, raises what the
    lookup of the parent raises, and changes nothing. *)
Theorem touch_missing_parent (w : world) (P : Path) :
  parts P <> [] ->
  (forall e, stat w (parent P) = Raise e -> touch P w = (Raise e, w)) /\
  (forall c m a, stat w (parent P) = Ok (File c m a) ->
     touch P w = (Raise NotADirectoryError, w)).
Proof.
  intros Hne. destruct P as [anch ps].
  destruct ps as [|c0 cs _] using rev_ind; [done|].
  rewrite parent_snoc. unfold stat, stat_in, touch, bind, open_append, open_at.
  cbn [anchored parts]. rewrite namei_snoc.
  destruct (namei (fs w) (start_of w anch) cs) as [d|e0].
  - destruct (fs w !! d) as [[|]|]; split; try done.
    + by intros e [= <-].
  - split; [by intros e [= <-]|done].
Qed.

Lemma touch_missing_parent_witness :
  let w := example_world ∅ "linux" in
  touch (Path_of_string "/nowhere/a.txt") w = (Raise FileNotFoundError, w) /\
  touch (Path_of_string "/tmp/empty.txt/a.txt") w = (Raise NotADirectoryError, w).
Proof.
  intros w. split.
  - apply (proj1 (touch_missing_parent w (Path_of_string "/nowhere/a.txt")
                    ltac:(discriminate))). vm_compute; reflexivity.
  - apply (proj2 (touch_missing_parent w (Path_of_string "/tmp/empty.txt/a.txt")
                    ltac:(discriminate)) [] 0%Z 0%Z). vm_compute; reflexivity.
Defined.



(** On a path: [rm_file] of the file [touch] has just made. *)
Lemma touch_rm_file_on_path (w : world) (P : Path) :
  fs_tree (fs w) -> is_dir w (parent P) = true ->
  stat w P = Raise FileNotFoundError ->
  exists w1, touch P w = (Ok tt, w1) /\ rm_file P w1 = (Ok tt, w).
Proof.
  intros Htree Hpar Hst.
  assert (Hnd : is_dir w P = false) by (unfold is_dir; by rewrite Hst).
  destruct (touch_target w P Htree Hpar Hnd) as (k & Hn & Hcase).
  assert (Hk : fs w !! k = None).
  { destruct Hcase as [(c & m & a & Hk)|(Hk & _)]; [|done].
    unfold stat, stat_in in Hst. by rewrite Hn, Hk in Hst. }
  destruct (touch P w) as [r w1] eqn:Ht.
  destruct (touch_inv _ _ _ _ Ht) as
    [(e & -> & ->)|(k' & c & -> & -> & Hn' & _)].
  - exfalso. unfold touch, bind, open_append, open_at in Ht. rewrite Hn, Hk in Ht.
    destruct Hcase as [(c & m & a & Hk')|(_ & c0 & Hl & Hp)]; [congruence|].
    rewrite Hl, Hp in Ht. unfold os_utime, utime_at, resolve, resolve_in in Ht.
    cbn [fs set_fs] in Ht.
    change (start_of (set_fs _ w) (anchored P)) with (start_of w (anchored P)) in Ht.
    rewrite (namei_insert_fresh _ _ _ _ _ _ Hk Hn), !lookup_insert_eq in Ht.
    discriminate.
  - rewrite Hn in Hn'. injection Hn' as <-.
    eexists. split; [reflexivity|].
    unfold rm_file, os_unlink, unlink_at. cbn [fs set_fs].
    change (start_of (set_fs _ w) (anchored P)) with (start_of w (anchored P)).
    rewrite (namei_insert_fresh _ _ _ _ _ _ Hk Hn), lookup_insert_eq.
    cbn [fs set_fs]. rewrite delete_insert_id by done.
    by destruct w.
Qed.

(** X7. [rm_file] takes back what [touch] has made: for a path that did
    not exist, below an existing directory and ending in a file name,
    [touch] and then [rm_file] raise nothing; in between an empty file is
    there, afterwards the path does not exist again and the file system
    holds the files, with content and time stamps, and the directories it
    held before.  (The time stamps of directories are not in the model.) *)
Theorem touch_rm_file_roundtrip (w : world) (x : PathLike) :
  ends_in_name x = true ->
  fs_tree (fs w) -> is_dir w (parent (to_Path x)) = true ->
  os_stat_of w x = Raise FileNotFoundError ->
  exists w1 w2,
    touch x w = (Ok tt, w1) /\ rm_file x w1 = (Ok tt, w2) /\
    os_stat_of w1 x = Ok (File [] (clock w) (clock w)) /\
    os_stat_of w2 x = Raise FileNotFoundError /\
    (forall k c m a, fs w2 !! k = Some (File c m a) <-> fs w !! k = Some (File c m a)) /\
    (forall k, fs w2 !! k = Some Dir <-> fs w !! k = Some Dir).
Proof.
  intros Hx Htree Hpar Hst.
  pose proof Hst as Hst'. rewrite os_stat_of_to_Path in Hst' by done.
  assert (Hnd : is_dir w (to_Path x) = false) by (unfold is_dir; by rewrite Hst').
  destruct (touch_rm_file_on_path w (to_Path x) Htree Hpar Hst') as (w1 & Ht & Hrm).
  destruct (touch_on_path w (to_Path x) Htree Hpar Hnd)
    as (k & c & w1' & Ht' & _ & Hs & Hnew & _).
  rewrite Ht in Ht'. injection Ht' as <-. rewrite (Hnew Hst') in Hs.
  exists w1, w. rewrite touch_to_Path, rm_file_to_Path, os_stat_of_to_Path by done.
  split; [done|]. split; [done|]. split; [done|]. split; [done|]. done.
Qed.

Lemma touch_rm_file_roundtrip_witness :
  let w := example_world ∅ "linux" in
  exists w1 w2, touch (Str "/tmp/new.txt") w = (Ok tt, w1) /\
                rm_file (Str "/tmp/new.txt") w1 = (Ok tt, w2) /\
                os_stat_of w2 (Str "/tmp/new.txt") = Raise FileNotFoundError /\
                fs w2 !! ["tmp"; "empty.txt"] = Some (File [] 0 0).
Proof.
  intros w.
  destruct (touch_rm_file_roundtrip w (Str "/tmp/new.txt")) as
    (w1 & w2 & Ht & Hr & _ & Hs & Hf & _).
  - reflexivity.
  - apply fs_tree_b_sound. vm_compute; reflexivity.
  - vm_compute; reflexivity.
  - vm_compute; reflexivity.
  - exists w1, w2. split; [exact Ht|]. split; [exact Hr|]. split; [exact Hs|].
    apply Hf. vm_compute; reflexivity.
Defined.

(** X8. [rm_file] is idempotent: after a call that returned, a second call
    returns as well and changes nothing. *)
Theorem rm_file_idempotent (w w1 : world) (P : Path) :
  rm_file P w = (Ok tt, w1) -> rm_file P w1 = (Ok tt, w1).
Proof.
  intros H. destruct (rm_file_inv _ _ _ _ H) as
    [(e & [=] & _)|[(_ & -> & Hu)|(k & c & m & a & _ & -> & Hn & Hk)]].
  - exact H.
  - unfold rm_file, os_unlink, unlink_at. cbn [fs set_fs].
    change (start_of (set_fs _ w) (anchored P)) with (start_of w (anchored P)).
    by rewrite (namei_delete_file _ _ _ _ _ _ _ _ Hk Hn), lookup_delete_eq.
Qed.

Lemma rm_file_idempotent_witness :
  let w := example_world ∅ "linux" in
  let P := Path_of_string "/tmp/empty.txt" in
  rm_file P (rm_file P w).2 = (Ok tt, (rm_file P w).2).
Proof.
  intros w P. apply (rm_file_idempotent w). vm_compute; reflexivity.
Defined.



(** ** The file system stays a tree *)

Lemma fs_tree_insert_file f k c m a :
  fs_tree f ->
  ((exists c' m' a', f !! k = Some (File c' m' a')) \/
   (f !! k = None /\ exists d c0, k = d ++ [c0] /\ f !! d = Some Dir)) ->
  fs_tree (<[k := File c m a]> f).
Proof.
  intros Ht Hk k' nd Hk'.
  assert (Hpar : f !! removelast k' = Some Dir).
  { destruct (decide (k = k')) as [<-|Hne].
    - destruct Hk as [(c' & m' & a' & Hk)|(_ & d & c0 & -> & Hd)].
      + by apply (Ht _ _ Hk).
      + by rewrite removelast_last.
    - rewrite lookup_insert_ne in Hk' by done. by apply (Ht _ _ Hk'). }
  rewrite lookup_insert_ne; [done|]. intros E. rewrite <- E in Hpar.
  destruct Hk as [(c' & m' & a' & Hk)|(Hk & _)]; congruence.
Qed.

Lemma fs_tree_insert_dir f d c0 :
  fs_tree f -> f !! d = Some Dir -> f !! (d ++ [c0]) = None ->
  fs_tree (<[d ++ [c0] := Dir]> f).
Proof.
  intros Ht Hd Hk k' nd Hk'.
  assert (Hpar : f !! removelast k' = Some Dir).
  { destruct (decide (d ++ [c0] = k')) as [<-|Hne].
    - by rewrite removelast_last.
    - rewrite lookup_insert_ne in Hk' by done. by apply (Ht _ _ Hk'). }
  rewrite lookup_insert_ne; [done|]. intros E. rewrite <- E in Hpar. congruence.
Qed.

Lemma fs_tree_delete_file f k c m a :
  fs_tree f -> f !! k = Some (File c m a) -> fs_tree (delete k f).
Proof.
  intros Ht Hk k' nd Hk'.
  destruct (decide (k = k')) as [<-|Hne]; [by rewrite lookup_delete_eq in Hk'|].
  rewrite lookup_delete_ne in Hk' by done.
  pose proof (Ht _ _ Hk') as Hpar.
  rewrite lookup_delete_ne; [done|]. intros E. rewrite <- E in Hpar. congruence.
Qed.

Lemma os_mkdir_tree p w r w' :
  fs_tree (fs w) -> os_mkdir p w = (r, w') -> fs_tree (fs w').
Proof.
  intros Ht. unfold os_mkdir.
  destruct (namei (fs w) _ _) as [k|e] eqn:Hn; [|by intros [= <- <-]].
  destruct (fs w !! k) eqn:Hk; [by intros [= <- <-]|].
  destruct (last (parts p)) as [c0|] eqn:Hl; [|by intros [= <- <-]].
  destruct (plain c0) eqn:Hp; [|by intros [= <- <-]].
  intros [= <- <-]. cbn [fs set_fs].
  destruct (parts p) as [|x l _] using rev_ind; [done|].
  rewrite last_snoc in Hl. injection Hl as ->.
  rewrite namei_snoc in Hn.
  destruct (namei (fs w) _ l) as [d|]; [|done].
  destruct (fs w !! d) as [[|]|] eqn:Hd; try done.
  injection Hn as <-. rewrite step_plain in * by done.
  by apply fs_tree_insert_dir.
Qed.

Lemma mkdir_here_tree p w r w' :
  fs_tree (fs w) -> mkdir_here p w = (r, w') -> fs_tree (fs w').
Proof.
  intros Ht. unfold mkdir_here.
  destruct (os_mkdir p w) as [r0 w0] eqn:Hm.
  pose proof (os_mkdir_tree _ _ _ _ Ht Hm) as Ht0.
  destruct r0 as [[]|e]; [by intros [= <- <-]|].
  destruct e; try (by intros [= <- <-]);
    simpl; destruct (is_dir w0 p); by intros [= <- <-].
Qed.

Lemma mkdir_parents_aux_tree n p w r w' :
  fs_tree (fs w) -> mkdir_parents_aux n p w = (r, w') -> fs_tree (fs w').
Proof.
  revert p w r w'. induction n as [|n IH]; intros p w r w' Ht; simpl;
    destruct (os_mkdir p w) as [r0 w0] eqn:Hm;
    pose proof (os_mkdir_tree _ _ _ _ Ht Hm) as Ht0;
    (destruct r0 as [[]|e]; [by intros [= <- <-]|]).
  - destruct (decide (e = FileNotFoundError)) as [->|Hne].
    + destruct (decide (parent p = p)); by intros [= <- <-].
    + destruct e; try done; simpl; try destruct (is_dir w0 p); by intros [= <- <-].
  - destruct (decide (e = FileNotFoundError)) as [->|Hne].
    + destruct (decide (parent p = p)); [by intros [= <- <-]|]. unfold bind.
      destruct (mkdir_parents_aux n (parent p) w0) as [[[]|e2] w2] eqn:Hrec.
      * apply mkdir_here_tree. by apply (IH _ _ _ _ Ht0 Hrec).
      * intros [= <- <-]. by apply (IH _ _ _ _ Ht0 Hrec).
    + destruct e; try done; simpl; try destruct (is_dir w0 p); by intros [= <- <-].
Qed.

(** The body of [user_files_dir] changes the world through [mkdir] alone. *)
Lemma user_files_dir_body_mkdir w r w' :
  user_files_dir_body w = (r, w') ->
  w' = w \/ exists p r0, mkdir_parents p w = (r0, w').
Proof.
  unfold user_files_dir_body.
  assert (Hdefault :
    (do p <- reading (_platform_data_home (THIS_ADDON_MODULE w));
     do _ <- mkdir_parents p;
     fun w1 =>
       if bool_decide (environ w1 !! "AJT_USE_REPO_USER_FILES" = Some "1")
       then
         let '(l, e) := walk_parents w1 (Path_of_string (module_file w1)) in
         match first_hit (is_dir w1)
                 (fun parent_dir => parent_dir // "user_files") l with
         | Some legacy => (Ok legacy, w1)
         | None =>
             match e with
             | StopIteration => (Ok p, w1)
             | Raised x => (Raise x, w1)
             end
         end
       else (Ok p, w1)) w = (r, w') ->
    w' = w \/ exists p r0, mkdir_parents p w = (r0, w')).
  { unfold bind at 1, reading.
    destruct (_platform_data_home _ w) as [p|e]; [|intros [= <- <-]; by left].
    unfold bind. destruct (mkdir_parents p w) as [[[]|e] w1] eqn:Hm;
      [|intros [= <- <-]; right; eauto].
    destruct (bool_decide _); [|intros [= <- <-]; right; eauto].
    destruct (walk_parents w1 _) as [l e].
    destruct (first_hit _ _ l); [intros [= <- <-]; right; eauto|].
    destruct e; intros [= <- <-]; right; eauto. }
  destruct (environ w !! "AJT_USER_FILES_DIR") as [[|ch o]|]; try exact Hdefault.
  unfold bind at 1, reading.
  destruct (expanduser _ w) as [p|e]; [|intros [= <- <-]; by left].
  unfold bind, ret. destruct (mkdir_parents p w) as [[[]|e] w1] eqn:Hm;
    intros [= <- <-]; right; eauto.
Qed.

(** X10. The module keeps the file system a tree: after [touch], [rm_file] and
    [user_files_dir], whatever they were given and whether they returned or
    raised, the parent of every node is still a directory. *)
Theorem file_ops_keep_tree (w : world) :
  fs_tree (fs w) ->
  (forall P, fs_tree (fs (touch P w).2)) /\
  (forall P, fs_tree (fs (rm_file P w).2)) /\
  fs_tree (fs (user_files_dir w).2).
Proof.
  intros Ht. split; [|split].
  - intros P. destruct (touch P w) as [r w'] eqn:H.
    destruct (touch_inv_any _ _ _ _ H) as
      [(e & -> & ->)|(k & c & -> & -> & Hcase)]; [done|].
    cbn [snd fs set_fs]. apply fs_tree_insert_file; [done|].
    destruct Hcase as [(m & a & Hk)|(Hk & _ & Hd)]; eauto 10.
  - intros P. destruct (rm_file P w) as [r w'] eqn:H.
    destruct (rm_file_inv_any _ _ _ _ H) as
      [(e & -> & _ & ->)|[(-> & ->)|(k & c & m & a & -> & -> & Hk)]];
      try done.
    cbn [snd fs set_fs]. by eapply fs_tree_delete_file.
  - unfold user_files_dir. destruct (user_files_dir_cache w); [done|].
    destruct (user_files_dir_body w) as [r w'] eqn:Hb.
    assert (Ht' : fs_tree (fs w')).
    { destruct (user_files_dir_body_mkdir _ _ _ Hb) as [->|(p & r0 & Hm)]; [done|].
      by apply (mkdir_parents_aux_tree _ _ _ _ _ Ht Hm). }
    by destruct r.
Qed.

Lemma file_ops_keep_tree_witness :
  let w := example_world (<["AJT_USER_FILES_DIR" := "~/data/ajt"]> ∅) "linux" in
  fs_tree (fs (touch (Path_of_string "/tmp/new.txt") w).2) /\
  fs_tree (fs (rm_file (Path_of_string "/tmp/empty.txt") w).2) /\
  fs_tree (fs (user_files_dir w).2).
Proof.
  intros w.
  assert (Ht : fs_tree (fs w)) by (apply fs_tree_b_sound; vm_compute; reflexivity).
  destruct (file_ops_keep_tree w Ht) as (H1 & H2 & H3).
  split; [apply H1|]. split; [apply H2|apply H3].
Defined.

(** ** [file_exists] after [touch] and [rm_file] *)

(** The kernel finds under [str(p)] what [pathlib] finds under [p]. *)
Lemma os_stat_Path_str w p :
  Forall (fun c => proper c = true) (parts p) -> parts p <> [] ->
  os_stat w (Path_str p) = stat w p.
Proof.
  intros Hp Hne. unfold os_stat, stat.
  destruct (Path_str_start p Hp) as [-> ->].
  rewrite (split_Path_str p Hp Hne).
  destruct (anchored p); [|done].
  unfold stat_in, start_of. destruct (parts p) as [|c l]; [done|].
  assert (E : namei (fs w) [] ("" :: c :: l) = namei (fs w) [] (c :: l)).
  { change (namei (fs w) [] ("" :: c :: l))
      with (match fs w !! [] with
            | Some Dir => namei (fs w) [] (c :: l)
            | Some (File _ _ _) => Raise NotADirectoryError
            | None => Raise FileNotFoundError
            end).
    cbn [namei]. by destruct (fs w !! []) as [[|]|]. }
  by rewrite E.
Qed.

Lemma file_exists_of_stat w s :
  file_exists s w =
  Ok match os_stat w s with
     | Ok (File c _ _) => (0 <? List.length c)%nat
     | _ => false
     end.
Proof.
  unfold file_exists, os_path_isfile, os_stat.
  destruct (truthy s); [|done].
  by destruct (stat_in _ _ _) as [[|]|].
Qed.

(** X11. [file_exists] on the string of a path that [touch] has just created
    says no, and [touch] of a file that was there leaves the answer of
    [file_exists] as it was. *)
Theorem file_exists_touch (w : world) (P : Path) :
  Forall (fun c => proper c = true) (parts P) -> parts P <> [] ->
  (fs_tree (fs w) -> is_dir w (parent P) = true ->
   stat w P = Raise FileNotFoundError ->
   (touch P w).1 = Ok tt /\
   file_exists (Path_str P) (touch P w).2 = Ok false) /\
  (forall c m a, stat w P = Ok (File c m a) ->
   (touch P w).1 = Ok tt /\
   file_exists (Path_str P) (touch P w).2 = file_exists (Path_str P) w).
Proof.
  intros Hp Hne.
  assert (Hafter : forall k c,
    namei (fs w) (start_of w (anchored P)) (parts P) = Ok k ->
    fs w !! k <> Some Dir ->
    stat (set_fs (<[k := File c (clock w) (clock w)]> (fs w)) w) P
    = Ok (File c (clock w) (clock w))).
  { intros k c Hn Hnd. unfold stat, stat_in. cbn [fs set_fs].
    change (start_of (set_fs _ w) (anchored P)) with (start_of w (anchored P)).
    destruct (fs w !! k) as [[|c' m' a']|] eqn:Hk.
    - done.
    - by rewrite (namei_insert_file _ _ _ _ _ _ _ _ _ _ _ Hk Hn), lookup_insert_eq.
    - by rewrite (namei_insert_fresh _ _ _ _ _ _ Hk Hn), lookup_insert_eq. }
  split.
  - intros Htree Hpar Hst.
    assert (Hnd : is_dir w P = false) by (unfold is_dir; by rewrite Hst).
    destruct (touch_target w P Htree Hpar Hnd) as (k & Hn & Hcase).
    assert (Hk : fs w !! k = None).
    { destruct Hcase as [(c & m & a & Hk)|(Hk & _)]; [|done].
      unfold stat, stat_in in Hst. by rewrite Hn, Hk in Hst. }
    destruct Hcase as [(c & m & a & Hk')|(_ & c0 & Hl & Hpl)]; [congruence|].
    assert (Ht : touch P w =
                 (Ok tt, set_fs (<[k := File [] (clock w) (clock w)]> (fs w)) w)).
    { unfold touch, bind, open_append, open_at. rewrite Hn, Hk, Hl, Hpl.
      unfold os_utime, utime_at, resolve, resolve_in. cbn [fs set_fs clock].
      change (start_of (set_fs _ w) (anchored P)) with (start_of w (anchored P)).
      rewrite (namei_insert_fresh _ _ _ _ _ _ Hk Hn), !lookup_insert_eq.
      by rewrite insert_insert_eq. }
    rewrite Ht. split; [done|]. cbn [snd].
    rewrite file_exists_of_stat, (os_stat_Path_str _ P Hp Hne).
    rewrite (Hafter k [] Hn); [done|congruence].
  - intros c m a Hst.
    destruct (stat_resolve _ _ _ Hst) as (k & Hr & Hk).
    assert (Hn : namei (fs w) (start_of w (anchored P)) (parts P) = Ok k).
    { unfold resolve, resolve_in in Hr. destruct (namei (fs w) _ _) as [k'|]; [|done].
      destruct (fs w !! k'); [|done]. by injection Hr as ->. }
    assert (Ht : touch P w =
                 (Ok tt, set_fs (<[k := File c (clock w) (clock w)]> (fs w)) w)).
    { unfold touch, bind, open_append, open_at. rewrite Hn, Hk.
      unfold os_utime, utime_at. unfold resolve in Hr. by rewrite Hr, Hk. }
    rewrite Ht. split; [done|]. cbn [snd].
    rewrite !file_exists_of_stat.
    rewrite (os_stat_Path_str _ P Hp Hne), (os_stat_Path_str w P Hp Hne), Hst.
    rewrite (Hafter k c Hn); [done|congruence].
Qed.

Lemma file_exists_touch_witness :
  let w := example_world ∅ "linux" in
  file_exists "/tmp/new.txt" (touch (Path_of_string "/tmp/new.txt") w).2 = Ok false /\
  file_exists "/opt/addons/japanese/config.json"
    (touch (Path_of_string "/opt/addons/japanese/config.json") w).2 = Ok true.
Proof.
  intros w.
  assert (Ht : fs_tree (fs w)) by (apply fs_tree_b_sound; vm_compute; reflexivity).
  split.
  - destruct (file_exists_touch w (Path_of_string "/tmp/new.txt")) as [H _].
    + vm_compute. repeat constructor.
    + discriminate.
    + apply H; [exact Ht|vm_compute; reflexivity|vm_compute; reflexivity].
  - destruct (file_exists_touch w (Path_of_string "/opt/addons/japanese/config.json"))
      as [_ H].
    + vm_compute. repeat constructor.
    + discriminate.
    + destruct (H [Byte.x7b] 0%Z 0%Z) as [_ E]; [vm_compute; reflexivity|].
      change (Path_str (Path_of_string "/opt/addons/japanese/config.json"))
        with "/opt/addons/japanese/config.json" in E.
      rewrite E. vm_compute; reflexivity.
Defined.

(** X12. After [rm_file] has returned, [file_exists] on the string of the
    path says no. *)
Theorem file_exists_rm_file (w w1 : world) (P : Path) :
  Forall (fun c => proper c = true) (parts P) -> parts P <> [] ->
  rm_file P w = (Ok tt, w1) ->
  file_exists (Path_str P) w1 = Ok false.
Proof.
  intros Hp Hne H.
  rewrite file_exists_of_stat, (os_stat_Path_str _ P Hp Hne).
  destruct (rm_file_inv _ _ _ _ H) as
    [(e & [=] & _)|[(_ & -> & Hu)|(k & c & m & a & _ & -> & Hn & Hk)]].
  - unfold os_unlink, unlink_at in Hu. unfold stat, stat_in.
    destruct (namei (fs w) _ _) as [k|e]; [|done].
    by destruct (fs w !! k) as [[|]|].
  - unfold stat, stat_in. cbn [fs set_fs].
    change (start_of (set_fs _ w) (anchored P)) with (start_of w (anchored P)).
    by rewrite (namei_delete_file _ _ _ _ _ _ _ _ Hk Hn), lookup_delete_eq.
Qed.

Lemma file_exists_rm_file_witness :
  let w := example_world ∅ "linux" in
  let P := Path_of_string "/opt/addons/japanese/config.json" in
  file_exists "/opt/addons/japanese/config.json" w = Ok true /\
  file_exists "/opt/addons/japanese/config.json" (rm_file P w).2 = Ok false.
Proof.
  intros w P. split; [vm_compute; reflexivity|].
  apply (file_exists_rm_file w (rm_file P w).2 P).
  - vm_compute. repeat constructor.
  - discriminate.
  - vm_compute; reflexivity.
Defined.

(** ** The walk and the searches where the path does not exist *)

Lemma stat_raise_resolve w p e : stat w p = Raise e -> resolve w p = Raise e.
Proof.
  unfold stat, resolve, stat_in, resolve_in.
  destruct (namei _ _ _) as [k|]; [destruct (fs w !! k)|];
    first [done | by intros [= <-]].
Qed.

Lemma walk_parents_raise w P e :
  stat w P = Raise e -> walk_parents w P = ([], Raised e).
Proof.
  intros Hst. unfold walk_parents, is_dir. rewrite Hst.
  pose proof (stat_raise_resolve _ _ _ Hst) as Hr.
  destruct (List.length (parts P)); simpl; unfold samefile; by rewrite Hr.
Qed.

(** X13. On a path whose lookup fails, the generator yields nothing and raises
    the error of the lookup, [FileNotFoundError] or [NotADirectoryError]. *)
Theorem walk_parents_missing (w : world) (P : Path) (e : exn) :
  stat w P = Raise e ->
  walk_parents w P = ([], Raised e) /\
  (e = FileNotFoundError \/ e = NotADirectoryError).
Proof.
  intros Hst. split; [by apply walk_parents_raise|].
  apply (resolve_raise_OSError w P). by apply stat_raise_resolve.
Qed.

Lemma walk_parents_missing_witness :
  let w := example_world ∅ "linux" in
  walk_parents w (Path_of_string "/tmp/empty.txt/below") =
    ([], Raised NotADirectoryError).
Proof.
  intros w.
  apply (walk_parents_missing w (Path_of_string "/tmp/empty.txt/below")).
  vm_compute; reflexivity.
Defined.

(** X14. When the module's own file cannot be looked up,
    [find_file_in_parents] raises the error of that lookup, whatever the
    name asked for, and not [RuntimeError]. *)
Theorem find_file_in_parents_module_missing (w : world) (file_name : string) (e : exn) :
  stat w (Path_of_string (module_file w)) = Raise e ->
  find_file_in_parents file_name w = (Raise e, w) /\
  (e = FileNotFoundError \/ e = NotADirectoryError).
Proof.
  intros Hst. split.
  - unfold find_file_in_parents. by rewrite (walk_parents_raise _ _ _ Hst).
  - apply (resolve_raise_OSError w (Path_of_string (module_file w))).
    by apply stat_raise_resolve.
Qed.

Lemma find_file_in_parents_module_missing_witness :
  let w := World ∅ example_fs [] 0 "linux" ∅ "japanese.helpers.file_ops"
                 "/opt/addons/japanese.zip/helpers/file_ops.py" ∅ true None [] in
  find_file_in_parents "config.json" w = (Raise FileNotFoundError, w).
Proof.
  intros w. apply (find_file_in_parents_module_missing w "config.json").
  vm_compute; reflexivity.
Defined.

Lemma first_hit_const test c l :
  l <> [] ->
  first_hit test (fun _ => c) l = if test c then Some c else None.
Proof.
  induction l as [|x l IH]; [done|]. intros _.
  cbn [first_hit]. destruct (test c) eqn:Hc; [done|].
  destruct l as [|y l]; [done|]. by apply IH.
Qed.

(** X15. An absolute [file_name] replaces the directory it is joined to:
    [find_file_in_parents] then returns that very path when it is a regular
    file, and raises [RuntimeError] when it is not, wherever the module
    is. *)
Theorem find_file_in_parents_absolute (w : world) (file_name : string) :
  let F := Path_of_string (module_file w) in
  starts_with_slash file_name = true ->
  is_file w F = true -> Forall (fun c => plain c = true) (parts F) ->
  parts F <> [] ->
  find_file_in_parents file_name w =
    if is_file w (Path_of_string file_name)
    then (Ok (Path_of_string file_name), w)
    else (Raise (RuntimeError (String.append "couldn't find file '"
                                 (String.append file_name "'"))), w).
Proof.
  intros F Hs Hf Hp Hne. unfold find_file_in_parents. fold F.
  rewrite (walk_parents_file w F Hf Hp).
  assert (E : (fun parent_dir : Path => parent_dir // file_name) =
              (fun _ => Path_of_string file_name)).
  { unfold joinpath. cbn [anchored Path_of_string]. by rewrite Hs. }
  rewrite E, first_hit_const.
  - by destruct (is_file w (Path_of_string file_name)).
  - unfold ancestors. by destruct (parts F).
Qed.

Lemma find_file_in_parents_absolute_witness :
  let w := example_world ∅ "linux" in
  find_file_in_parents "/tmp/empty.txt" w = (Ok (mkPath true ["tmp"; "empty.txt"]), w).
Proof.
  intros w.
  rewrite (find_file_in_parents_absolute w "/tmp/empty.txt" eq_refl).
  - vm_compute; reflexivity.
  - vm_compute; reflexivity.
  - vm_compute; repeat constructor.
  - discriminate.
Defined.



(** ** [user_files_dir]: the other platforms, failures, what is left alone *)

Lemma mkdir_parents_existing p w :
  is_dir w p = true -> mkdir_parents p w = (Ok tt, w).
Proof.
  intros Hd. unfold mkdir_parents.
  assert (Hos : os_mkdir p w = (Raise FileExistsError, w)).
  { unfold is_dir, stat, stat_in in Hd. unfold os_mkdir.
    destruct (namei (fs w) _ _) as [k|]; [|done]. by destruct (fs w !! k). }
  destruct (List.length (parts p)); simpl; by rewrite Hos, Hd.
Qed.

Lemma mkdir_parents_blocked p w e :
  e <> FileNotFoundError -> is_OSError e = true ->
  os_mkdir p w = (Raise e, w) -> is_dir w p = false ->
  mkdir_parents p w = (Raise e, w).
Proof.
  intros Hne He Hos Hd. unfold mkdir_parents.
  destruct (List.length (parts p)); simpl; rewrite Hos, Hd;
    destruct e; try done.
Qed.

(** X17. Without an override and with [AJT_USE_REPO_USER_FILES] anything but
    ["1"], on every platform, the first call returns the platform's
    directory and nothing else: a call that returns, returns it and it is a
    directory then; when the way to it holds no file the call does return
    and has made it with its missing parents; when the platform's directory
    cannot be computed the call raises and changes nothing. *)
Theorem user_files_dir_platform_default (w : world) :
  truthy_opt (environ w !! "AJT_USER_FILES_DIR") = false ->
  environ w !! "AJT_USE_REPO_USER_FILES" <> Some "1" ->
  user_files_dir_cache w = None ->
  (forall e, _platform_data_home (THIS_ADDON_MODULE w) w = Raise e ->
     user_files_dir w = (Raise e, w)) /\
  (forall d, _platform_data_home (THIS_ADDON_MODULE w) w = Ok d ->
     (forall q w', user_files_dir w = (Ok q, w') -> q = d /\ is_dir w' d = true) /\
     (Forall (fun c => plain c = true) (parts d) -> creatable w d = true ->
      exists f',
        user_files_dir w = (Ok d, set_cache (Some d) (set_fs f' w)) /\
        is_dir (set_fs f' w) d = true /\
        (forall k, on_path (start_of w (anchored d)) (parts d) k -> f' !! k = Some Dir) /\
        (forall k, ~ on_path (start_of w (anchored d)) (parts d) k ->
                   f' !! k = fs w !! k))).
Proof.
  intros Ho Hleg Hc. split.
  - intros e He. unfold user_files_dir, user_files_dir_body. rewrite Hc.
    destruct (environ w !! "AJT_USER_FILES_DIR") as [[|]|]; try done;
      unfold bind at 1, reading; by rewrite He.
  - intros d Hh.
    assert (Hbody : user_files_dir_body w =
      match mkdir_parents d w with
      | (Ok _, w1) => (Ok d, w1)
      | (Raise e, w1) => (Raise e, w1)
      end).
    { rewrite (user_files_dir_body_default w d Ho Hh).
      destruct (mkdir_parents d w) as [[[]|e] w1] eqn:Hm; [|done].
      destruct (mkdir_parents_sound _ _ _ _ Hm) as [(E & _) _].
      assert (He : environ w1 = environ w) by (by rewrite E).
      rewrite He. by rewrite bool_decide_eq_false_2. }
    split.
    + intros q w'. unfold user_files_dir. rewrite Hc, Hbody.
      destruct (mkdir_parents d w) as [[[]|e] w1] eqn:Hm; [|discriminate].
      intros [= <- <-]. destruct (mkdir_parents_sound _ _ _ _ Hm) as [_ Hd].
      split; [done|by apply Hd].
    + intros Hp Hcr.
      destruct (user_files_dir_default_plain w d Hc Hp Hcr)
        as (f' & Hm & _ & Hd & Hon & Hoff).
      exists f'. split; [|done].
      unfold user_files_dir. by rewrite Hc, Hbody, Hm.
Qed.

Lemma user_files_dir_platform_default_witness :
  let w := example_world (<["AJT_USE_REPO_USER_FILES" := "true"]> ∅) "darwin" in
  let d := mkPath true ["home"; "u"; "Library"; "Application Support"; "Anki";
                        "Addons"; "japanese"] in
  exists w', user_files_dir w = (Ok d, w') /\ is_dir w' d = true.
Proof.
  intros w d.
  destruct (user_files_dir_platform_default w eq_refl ltac:(discriminate) eq_refl)
    as (_ & H).
  destruct (H d) as (_ & Hdone); [vm_compute; reflexivity|].
  destruct Hdone as (f' & Hu & Hd & _).
  - vm_compute; repeat constructor.
  - vm_compute; reflexivity.
  - eexists. split; [exact Hu|exact Hd].
Defined.

(** X18. A call of [user_files_dir] that raises leaves no memo behind, and
    changes nothing but the file system, so the next call computes again. *)
Theorem user_files_dir_failure_no_memo (w w' : world) (e : exn) :
  user_files_dir w = (Raise e, w') ->
  user_files_dir_cache w = None /\ user_files_dir_cache w' = None /\
  w' = set_fs (fs w') w /\
  user_files_dir w' =
    match user_files_dir_body w' with
    | (Ok p, w2) => (Ok p, set_cache (Some p) w2)
    | (Raise e2, w2) => (Raise e2, w2)
    end.
Proof.
  unfold user_files_dir at 1.
  destruct (user_files_dir_cache w) eqn:Hc; [done|].
  destruct (user_files_dir_body w) as [[p|e0] w1] eqn:Hb; [done|].
  intros [= <- <-].
  assert (E : w1 = set_fs (fs w1) w).
  { destruct (user_files_dir_body_mkdir _ _ _ Hb) as [->|(p & r0 & Hm)];
      [by rewrite set_fs_same|].
    by destruct (mkdir_parents_sound _ _ _ _ Hm) as [(E & _) _]. }
  assert (Hc1 : user_files_dir_cache w1 = None) by (by rewrite E).
  split; [done|]. split; [done|]. split; [done|].
  unfold user_files_dir. by rewrite Hc1.
Qed.

Lemma user_files_dir_failure_no_memo_witness :
  let w := example_world (<["AJT_USER_FILES_DIR" := "/tmp/empty.txt/data"]> ∅) "linux" in
  user_files_dir_cache (user_files_dir w).2 = None.
Proof.
  intros w.
  destruct (user_files_dir_failure_no_memo w (user_files_dir w).2 NotADirectoryError)
    as (_ & H & _); [vm_compute; reflexivity|exact H].
Defined.

(** X19. The override fails without a trace: when the home shorthand cannot
    be expanded the call raises [RuntimeError]; when the path is a regular
    file it raises [FileExistsError]; when the path lies below a regular
    file it raises [NotADirectoryError]; and each time the world is as it
    was. *)
Theorem user_files_dir_override_failures (w : world) (o : string) :
  environ w !! "AJT_USER_FILES_DIR" = Some o -> o <> "" ->
  user_files_dir_cache w = None ->
  (forall e, expanduser (Path_of_string o) w = Raise e ->
     user_files_dir w = (Raise e, w)) /\
  (forall p c m a, expanduser (Path_of_string o) w = Ok p ->
     stat w p = Ok (File c m a) ->
     user_files_dir w = (Raise FileExistsError, w)) /\
  (forall p, expanduser (Path_of_string o) w = Ok p ->
     stat w p = Raise NotADirectoryError ->
     user_files_dir w = (Raise NotADirectoryError, w)).
Proof.
  intros Ho Hne Hc.
  assert (Hbody : forall p, expanduser (Path_of_string o) w = Ok p ->
            user_files_dir_body w = (do _ <- mkdir_parents p; ret p) w).
  { intros p Hx. unfold user_files_dir_body. rewrite Ho. destruct o; [done|].
    unfold bind at 1, reading. by rewrite Hx. }
  split; [|split].
  - intros e Hx. unfold user_files_dir, user_files_dir_body. rewrite Hc, Ho.
    destruct o; [done|]. unfold bind at 1, reading. by rewrite Hx.
  - intros p c m a Hx Hst. unfold user_files_dir. rewrite Hc, (Hbody p Hx).
    unfold bind. rewrite (mkdir_parents_blocked p w FileExistsError); try done.
    + unfold stat, stat_in in Hst. unfold os_mkdir.
      destruct (namei (fs w) _ _) as [k|]; [|done]. by destruct (fs w !! k).
    + unfold is_dir. by rewrite Hst.
  - intros p Hx Hst. unfold user_files_dir. rewrite Hc, (Hbody p Hx).
    unfold bind. rewrite (mkdir_parents_blocked p w NotADirectoryError); try done.
    + unfold stat, stat_in in Hst. unfold os_mkdir.
      destruct (namei (fs w) _ _) as [k|]; [by destruct (fs w !! k)|].
      by injection Hst as ->.
    + unfold is_dir. by rewrite Hst.
Qed.

Lemma user_files_dir_override_failures_witness :
  let w1 := example_world (<["AJT_USER_FILES_DIR" := "~nobody/data"]> ∅) "linux" in
  let w2 := example_world (<["AJT_USER_FILES_DIR" := "/tmp/empty.txt"]> ∅) "linux" in
  let w3 := example_world (<["AJT_USER_FILES_DIR" := "/tmp/empty.txt/data"]> ∅) "linux" in
  user_files_dir w1 = (Raise (RuntimeError "Could not determine home directory."), w1) /\
  user_files_dir w2 = (Raise FileExistsError, w2) /\
  user_files_dir w3 = (Raise NotADirectoryError, w3).
Proof.
  intros w1 w2 w3. split; [|split].
  - apply (proj1 (user_files_dir_override_failures w1 "~nobody/data" eq_refl
                    ltac:(discriminate) eq_refl)). vm_compute; reflexivity.
  - apply (proj1 (proj2 (user_files_dir_override_failures w2 "/tmp/empty.txt" eq_refl
                    ltac:(discriminate) eq_refl)) (mkPath true ["tmp"; "empty.txt"])
             [] 0%Z 0%Z); vm_compute; reflexivity.
  - apply (proj2 (proj2 (user_files_dir_override_failures w3 "/tmp/empty.txt/data" eq_refl
                    ltac:(discriminate) eq_refl))
             (mkPath true ["tmp"; "empty.txt"; "data"])); vm_compute; reflexivity.
Defined.

(** X20. When the directory is there already, [user_files_dir] creates
    nothing: with an override that names an existing directory, and with a
    platform directory that exists (the legacy switch off), the call
    returns it and only the memo has changed. *)
Theorem user_files_dir_existing (w : world) (p : Path) :
  user_files_dir_cache w = None -> is_dir w p = true ->
  (forall o, environ w !! "AJT_USER_FILES_DIR" = Some o -> o <> "" ->
     expanduser (Path_of_string o) w = Ok p ->
     user_files_dir w = (Ok p, set_cache (Some p) w)) /\
  (truthy_opt (environ w !! "AJT_USER_FILES_DIR") = false ->
   environ w !! "AJT_USE_REPO_USER_FILES" <> Some "1" ->
   _platform_data_home (THIS_ADDON_MODULE w) w = Ok p ->
   user_files_dir w = (Ok p, set_cache (Some p) w)).
Proof.
  intros Hc Hd. pose proof (mkdir_parents_existing p w Hd) as Hm. split.
  - intros o Ho Hne Hx. unfold user_files_dir, user_files_dir_body. rewrite Hc, Ho.
    destruct o; [done|]. unfold bind at 1, reading. rewrite Hx.
    unfold bind, ret. by rewrite Hm.
  - intros Ho Hleg Hh. unfold user_files_dir.
    rewrite Hc, (user_files_dir_body_default w p Ho Hh), Hm.
    by rewrite bool_decide_eq_false_2.
Qed.

Lemma user_files_dir_existing_witness :
  let w := example_world (<["AJT_USER_FILES_DIR" := "~"]> ∅) "linux" in
  let u := World (<["XDG_STATE_HOME" := "/opt"]> ∅)
                 (<[["opt"; "anki-addons"] := Dir]>
                    (<[["opt"; "anki-addons"; "addons"] := Dir]> example_fs))
                 [] 0 "linux" ∅ "addons.japanese" "" ∅ true None [] in
  user_files_dir w = (Ok (mkPath true ["home"; "u"]),
                      set_cache (Some (mkPath true ["home"; "u"])) w) /\
  user_files_dir u = (Ok (mkPath true ["opt"; "anki-addons"; "addons"]),
                      set_cache (Some (mkPath true ["opt"; "anki-addons"; "addons"])) u).
Proof.
  intros w u. split.
  - apply (proj1 (user_files_dir_existing w (mkPath true ["home"; "u"]) eq_refl
                    ltac:(vm_compute; reflexivity)) "~");
      first [discriminate | vm_compute; reflexivity].
  - apply (proj2 (user_files_dir_existing u (mkPath true ["opt"; "anki-addons"; "addons"])
                    eq_refl ltac:(vm_compute; reflexivity)));
      first [discriminate | vm_compute; reflexivity].
Defined.

(** X21. With the legacy switch on and the module's file not to be found, the
    call makes the platform's directory and then raises the error of the
    lookup of the module's file; the directory stays, no memo is kept. *)
Theorem user_files_dir_legacy_module_missing (w w1 : world) (d : Path) (e : exn) :
  truthy_opt (environ w !! "AJT_USER_FILES_DIR") = false ->
  environ w !! "AJT_USE_REPO_USER_FILES" = Some "1" ->
  user_files_dir_cache w = None ->
  _platform_data_home (THIS_ADDON_MODULE w) w = Ok d ->
  mkdir_parents d w = (Ok tt, w1) ->
  stat w1 (Path_of_string (module_file w)) = Raise e ->
  user_files_dir w = (Raise e, w1) /\ is_dir w1 d = true /\
  user_files_dir_cache w1 = None.
Proof.
  intros Ho Hl Hc Hh Hm Hst.
  destruct (mkdir_parents_sound _ _ _ _ Hm) as [(E & _) Hd].
  assert (He : environ w1 = environ w) by (by rewrite E).
  assert (Hf : module_file w1 = module_file w) by (by rewrite E).
  split; [|split; [by apply Hd|by rewrite E]].
  unfold user_files_dir. rewrite Hc, (user_files_dir_body_default w d Ho Hh), Hm.
  rewrite He, Hl, bool_decide_eq_true_2 by done.
  by rewrite Hf, (walk_parents_raise _ _ _ Hst).
Qed.

Lemma user_files_dir_legacy_module_missing_witness :
  let w := World (<["AJT_USE_REPO_USER_FILES" := "1"]>
                    (<["XDG_DATA_HOME" := "/tmp/xdg"]> ∅))
                 example_fs [] 0 "linux" ∅ "japanese.helpers.file_ops"
                 "/opt/addons/japanese.zip/helpers/file_ops.py" ∅ true None [] in
  let d := mkPath true ["tmp"; "xdg"; "anki-addons"; "japanese"] in
  let w1 := (mkdir_parents d w).2 in
  user_files_dir w = (Raise FileNotFoundError, w1) /\ is_dir w1 d = true.
Proof.
  intros w d w1.
  destruct (user_files_dir_legacy_module_missing w w1 d FileNotFoundError)
    as (Hu & Hd & _); try (vm_compute; reflexivity).
  split; [exact Hu|exact Hd].
Defined.

Lemma THIS_ADDON_MODULE_spec_witness :
  let w := example_world ∅ "linux" in
  let v := World ∅ ∅ [] 0 "linux" ∅ "1344485230" "" ∅ true None [] in
  THIS_ADDON_MODULE w = "japanese" /\ THIS_ADDON_MODULE v = "1344485230".
Proof.
  intros w v. split; [vm_compute; reflexivity|].
  apply (proj2 (proj2 (THIS_ADDON_MODULE_spec v))). vm_compute; reflexivity.
Defined.
